(** * SFMC-to-AJO template translator: shallow embedding and verified properties

    The development follows the two scripts of the repository,
    [replace_sfmc_to_ajo_v3.py] and [replace_sfmc_to_ajo_v4.py].

    - A character is a code point below 256 (Stdlib's [ascii]); the character
      classes of Python's [str] methods and of [re] are given their Unicode
      meaning on that range.
    - Text is a [string]; Python dictionaries keyed by strings are [gmap]s,
      Python sets of strings are [gset]s, Python lists are lists.
    - Regular expressions are abstract syntax trees interpreted by a
      backtracking matcher that returns every way to match in the order in
      which [re] tries them, so that the head of the result is the match that
      [re] reports.
    - The mutable [warnings] list and [covered_vars] set are threaded
      explicitly through the functions that update them. *)

From Stdlib Require Import Ascii String List Arith Bool Lia Sorted.
From stdpp Require Import gmap strings list fin_maps.
From Equations Require Import Equations.

Local Open Scope stdpp_scope.

(** ** Characters *)

Module Chr.

Definition code (c : ascii) : nat := nat_of_ascii c.

Definition between (lo hi : nat) (c : ascii) : bool :=
  (lo <=? code c) && (code c <=? hi).

(** [str.isspace] on code points below 256: TAB..CR, FS..US, space, NEL
    and the no-break space. *)
Definition is_space (c : ascii) : bool :=
  between 9 13 c || between 28 32 c || (code c =? 133) || (code c =? 160).

Definition is_upper_ascii (c : ascii) : bool := between 65 90 c.
Definition is_lower_ascii (c : ascii) : bool := between 97 122 c.
Definition is_digit (c : ascii) : bool := between 48 57 c.

(** Upper-case letters of the Latin-1 supplement (all of 192..222 but the
    multiplication sign). *)
Definition is_upper_latin (c : ascii) : bool :=
  between 192 214 c || between 216 222 c.

(** [str.isalnum] on code points below 256: besides the ASCII letters and
    digits, the ordinal indicators, the micro sign, the superscript digits,
    the vulgar fractions and the Latin-1 letters. *)
Definition is_alnum (c : ascii) : bool :=
  is_upper_ascii c || is_lower_ascii c || is_digit c
  || (code c =? 170) || (code c =? 178) || (code c =? 179) || (code c =? 181)
  || (code c =? 185) || (code c =? 186) || between 188 190 c
  || between 192 214 c || between 216 246 c || between 248 255 c.

(** The class [\w] of [re] on [str] patterns. *)
Definition is_word (c : ascii) : bool := is_alnum c || (c =? "_")%char.

(** [str.lower] on one character. *)
Definition lower (c : ascii) : ascii :=
  if is_upper_ascii c || is_upper_latin c then ascii_of_nat (code c + 32) else c.

(** Equality of two characters, modulo case when [ic] is set. *)
Definition eqb_ci (ic : bool) (a b : ascii) : bool :=
  if ic then (lower a =? lower b)%char else (a =? b)%char.

End Chr.

(** ** Python string methods *)

Module Py.

Fixpoint lower (s : string) : string :=
  match s with
  | EmptyString => EmptyString
  | String c t => String (Chr.lower c) (lower t)
  end.

Fixpoint lstrip (s : string) : string :=
  match s with
  | EmptyString => EmptyString
  | String c t => if Chr.is_space c then lstrip t else s
  end.

Fixpoint rstrip (s : string) : string :=
  match s with
  | EmptyString => EmptyString
  | String c t =>
      match rstrip t with
      | EmptyString => if Chr.is_space c then EmptyString else String c EmptyString
      | r => String c r
      end
  end.

(** [s.strip()] *)
Definition strip (s : string) : string := rstrip (lstrip s).

(** [s.startswith(p)] *)
Definition startswith (p s : string) : bool := String.prefix p s.

(** [s[n:]] *)
Fixpoint drop (n : nat) (s : string) : string :=
  match n, s with
  | 0, _ => s
  | S k, EmptyString => EmptyString
  | S k, String _ t => drop k t
  end.

(** [s[:n]] *)
Fixpoint take (n : nat) (s : string) : string :=
  match n, s with
  | 0, _ => EmptyString
  | S k, EmptyString => EmptyString
  | S k, String c t => String c (take k t)
  end.

(** [s[a:b]] for [0 <= a], [0 <= b] *)
Definition slice (a b : nat) (s : string) : string := take (b - a) (drop a s).

(** [sub in s] *)
Fixpoint contains (sub s : string) : bool :=
  String.prefix sub s
  || match s with
     | EmptyString => false
     | String _ t => contains sub t
     end.

(** [s.replace(old, new)] for a non-empty [old]: the occurrences are taken
    left to right and do not overlap; [skip] counts the characters of an
    occurrence that remain to be dropped. *)
Fixpoint replace_from (old new : string) (skip : nat) (s : string) : string :=
  match s with
  | EmptyString => EmptyString
  | String c t =>
      match skip with
      | S k => replace_from old new k t
      | 0 =>
          if String.prefix old s
          then new +:+ replace_from old new (String.length old - 1) t
          else String c (replace_from old new 0 t)
      end
  end.

Definition replace (old new s : string) : string := replace_from old new 0 s.

(** [s.count(c, 0, idx)] for a one-character [c] *)
Fixpoint count_char (c : ascii) (idx : nat) (s : string) : nat :=
  match idx, s with
  | S k, String d t => (if (c =? d)%char then 1 else 0) + count_char c k t
  | _, _ => 0
  end.

(** Whether every character of [s] satisfies [p]. *)
Fixpoint all (p : ascii → bool) (s : string) : bool :=
  match s with
  | EmptyString => true
  | String c t => p c && all p t
  end.

(** The length of the longest prefix of [s] whose characters satisfy [p]. *)
Fixpoint span (p : ascii → bool) (s : string) : nat :=
  match s with
  | EmptyString => 0
  | String c t => if p c then S (span p t) else 0
  end.

(** The last character of [s], or [d] when [s] is empty. *)
Fixpoint last_or (d : option ascii) (s : string) : option ascii :=
  match s with
  | EmptyString => d
  | String c t => last_or (Some c) t
  end.

(** ["".join(parts)] *)
Definition join (parts : list string) : string :=
  fold_right String.append EmptyString parts.

(** The line feed, as a text. *)
Definition newline : string := String "010"%char EmptyString.

(** The line boundaries of [str.splitlines] below code point 256. *)
Definition is_linebreak (c : ascii) : bool :=
  Chr.between 10 13 c || Chr.between 28 30 c || (Chr.code c =? 133).

(** [s.splitlines()]: a carriage return followed by a line feed is one
    boundary, and a boundary at the very end opens no further line. *)
Fixpoint splitlines (s : string) : list string :=
  match s with
  | EmptyString => []
  | String c t =>
      if is_linebreak c then
        match c, t with
        | "013"%char, String "010"%char u => EmptyString :: splitlines u
        | _, _ => EmptyString :: splitlines t
        end
      else
        match splitlines t with
        | [] => [String c EmptyString]
        | l :: ls => String c l :: ls
        end
  end.

End Py.

(** ** Regular expressions

    The patterns of the scripts are written as syntax trees.  [rmatch] is a
    backtracking matcher: from a matching state it returns the states reached
    by every way of matching, most preferred first, which is the order in
    which [re] explores them.  A greedy repetition prefers one more
    iteration, a lazy one prefers to stop. *)

Module Re.

Inductive regex : Type :=
| Eps                                  (* the empty pattern *)
| Cls (p : ascii → bool)               (* one character of a class *)
| Lit (s : string)                     (* a literal text *)
| Seq (a b : regex)
| Alt (a b : regex)                    (* a|b *)
| Star (greedy : bool) (a : regex)     (* a* and a*? *)
| Group (i : nat) (a : regex)          (* capturing group number i *)
| Backref (i : nat)                    (* \i *)
| Bol                                  (* ^ without MULTILINE *)
| Eol                                  (* $ without MULTILINE *)
| WordB.                               (* \b *)

(** [a+], [a+?], [a?], [a??] *)
Definition Plus (greedy : bool) (a : regex) : regex := Seq a (Star greedy a).
Definition Opt (greedy : bool) (a : regex) : regex :=
  if greedy then Alt a Eps else Alt Eps a.

(** A sequence of patterns. *)
Fixpoint seqs (rs : list regex) : regex :=
  match rs with
  | [] => Eps
  | [r] => r
  | r :: rs' => Seq r (seqs rs')
  end.

(** The classes that occur in the scripts' patterns.  Each of them is
    closed under change of case, so IGNORECASE does not alter them; with
    DOTALL the dot is [any]. *)
Definition any (_ : ascii) : bool := true.
Definition one_of (l : list ascii) (c : ascii) : bool :=
  existsb (Ascii.eqb c) l.
Definition none_of (l : list ascii) (c : ascii) : bool := negb (one_of l c).

(** A matching state: the character just before the current position
    ([None] at the start of the text), the text still to be read, and the
    groups captured so far (the latest capture of a group first). *)
Record mstate : Type := MState {
  prev : option ascii;
  rest : string;
  caps : list (nat * string)
}.

Definition cap (i : nat) (cs : list (nat * string)) : option string :=
  snd <$> List.find (λ e, fst e =? i) cs.

(** Read the literal [l] at the front of [s]. *)
Fixpoint eat (ic : bool) (l : string) (pv : option ascii) (s : string)
  : option (option ascii * string) :=
  match l with
  | EmptyString => Some (pv, s)
  | String a l' =>
      match s with
      | String c t => if Chr.eqb_ci ic a c then eat ic l' (Some c) t else None
      | EmptyString => None
      end
  end.

Definition is_word_opt (o : option ascii) : bool :=
  match o with Some c => Chr.is_word c | None => false end.

Definition head_char (s : string) : option ascii :=
  match s with String c _ => Some c | EmptyString => None end.

(** The text read between the state [st] and a later state [st']. *)
Definition consumed (st st' : mstate) : string :=
  Py.take (String.length (rest st) - String.length (rest st')) (rest st).

(** The state after group [i] was matched between [st] and [st']. *)
Definition with_group (i : nat) (st st' : mstate) : mstate :=
  MState (prev st') (rest st') ((i, consumed st st') :: caps st').

(** The iterations of a repetition whose body is matched by [step].  An
    iteration must read at least one character, so that [fuel], the number
    of characters left, bounds the number of iterations; in the patterns of
    the scripts the body of every repetition is a single character. *)
Fixpoint star_iter (greedy : bool) (step : mstate → list mstate) (fuel : nat)
  (st : mstate) {struct fuel} : list mstate :=
  match fuel with
  | 0 => [st]
  | S fuel' =>
      let more :=
        flat_map
          (λ st', if String.length (rest st') <? String.length (rest st)
                  then star_iter greedy step fuel' st' else [])
          (step st) in
      if greedy then more ++ [st] else st :: more
  end.

Fixpoint rmatch (ic : bool) (r : regex) (st : mstate) {struct r} : list mstate :=
  match r with
  | Eps => [st]
  | Cls p =>
      match rest st with
      | String c t => if p c then [MState (Some c) t (caps st)] else []
      | EmptyString => []
      end
  | Lit l =>
      match eat ic l (prev st) (rest st) with
      | Some (pv, t) => [MState pv t (caps st)]
      | None => []
      end
  | Seq a b => flat_map (rmatch ic b) (rmatch ic a st)
  | Alt a b => rmatch ic a st ++ rmatch ic b st
  | Star greedy a => star_iter greedy (rmatch ic a) (String.length (rest st)) st
  | Group i a =>
      map (with_group i st) (rmatch ic a st)
  | Backref i =>
      match cap i (caps st) with
      | Some l =>
          match eat ic l (prev st) (rest st) with
          | Some (pv, t) => [MState pv t (caps st)]
          | None => []
          end
      | None => []
      end
  | Bol => match prev st with None => [st] | Some _ => [] end
  | Eol =>
      match rest st with
      | EmptyString => [st]
      | String "010"%char EmptyString => [st]
      | _ => []
      end
  | WordB =>
      if xorb (is_word_opt (prev st)) (is_word_opt (head_char (rest st)))
      then [st] else []
  end.

(** *** Vocabulary for reasoning about the matcher *)

(** The state reached from [st] by reading [n] characters. *)
Fixpoint advance (n : nat) (st : mstate) : mstate :=
  match n, rest st with
  | S k, String c t => advance k (MState (Some c) t (caps st))
  | _, _ => st
  end.

(** The numbers of iterations that a repetition of a class tries, in the
    order in which it tries them, when at most [n] are possible. *)
Definition run_lengths (greedy : bool) (n : nat) : list nat :=
  if greedy then rev (seq 0 (S n)) else seq 0 (S n).

(** The first success of [k] on a list of candidates. *)
Fixpoint first_some {A B : Type} (k : A → option B) (l : list A) : option B :=
  match l with
  | [] => None
  | x :: l' => match k x with Some y => Some y | None => first_some k l' end
  end.

(** The preferred way to match [r] from [st] on which the rest of the
    work, [k], succeeds: backtracking with a continuation. *)
Definition first_match {A : Type} (ic : bool) (r : regex) (st : mstate)
  (k : mstate → option A) : option A :=
  first_some k (rmatch ic r st).

(** The text of [st'] is what is left of the text of [st] after some
    reading. *)
Definition reaches (st st' : mstate) : Prop :=
  ∃ w, rest st = w +:+ rest st'.

(** A pattern [needs] a literal when every text that it matches from some
    position holds, from that position on, the literal in some case. *)
Definition needs (l : string) (r : regex) : Prop :=
  ∀ st st', In st' (rmatch true r st) →
    ∃ a l' b, rest st = a +:+ l' +:+ b ∧ Py.lower l' = Py.lower l.

(** A match object: [m.start()], [m.group(0)] and the captured groups. *)
Record re_match : Type := Match {
  m_start : nat;
  m_text : string;
  m_caps : list (nat * string)
}.

Definition m_end (m : re_match) : nat := m_start m + String.length (m_text m).

(** [m.group(i)], [None] for a group that took no part in the match. *)
Definition group (m : re_match) (i : nat) : option string :=
  match i with 0 => Some (m_text m) | _ => cap i (m_caps m) end.

(** [m.group(i) or ""] *)
Definition group_or_empty (m : re_match) (i : nat) : string :=
  default EmptyString (group m i).

Definition start_state (pv : option ascii) (s : string) : mstate := MState pv s [].

Definition mk_match (pos : nat) (s : string) (st' : mstate) : re_match :=
  Match pos (Py.take (String.length s - String.length (rest st')) s) (caps st').

(** A document cut by a pattern: the characters outside every match and
    the matches, in the order of the text. *)
Inductive seg : Type :=
| Gap (c : ascii)
| Hit (m : re_match).

(** The scan of [re] over a text ([finditer], [findall], [sub]): matches
    are searched left to right and do not overlap.  [skip] counts the
    characters of the last match still to be passed, [pos] is the current
    index and [pv] the character before it.  After an empty match the same
    position is tried once more for a non-empty one. *)
Fixpoint scan (ic : bool) (r : regex) (skip pos : nat) (pv : option ascii)
  (s : string) {struct s} : list seg :=
  match s with
  | EmptyString =>
      match skip, rmatch ic r (start_state pv s) with
      | 0, st' :: _ => [Hit (mk_match pos s st')]
      | _, _ => []
      end
  | String c t =>
      match skip with
      | S k => scan ic r k (S pos) (Some c) t
      | 0 =>
          let results := rmatch ic r (start_state pv s) in
          let nonempty st' := String.length (rest st') <? String.length s in
          match results with
          | [] => Gap c :: scan ic r 0 (S pos) (Some c) t
          | st' :: _ =>
              if nonempty st' then
                Hit (mk_match pos s st')
                :: scan ic r (String.length (m_text (mk_match pos s st')) - 1)
                     (S pos) (Some c) t
              else
                Hit (mk_match pos s st')
                :: match List.find nonempty results with
                   | Some st'' =>
                       Hit (mk_match pos s st'')
                       :: scan ic r (String.length (m_text (mk_match pos s st'')) - 1)
                            (S pos) (Some c) t
                   | None => Gap c :: scan ic r 0 (S pos) (Some c) t
                   end
          end
      end
  end.

Definition segments (ic : bool) (r : regex) (s : string) : list seg :=
  scan ic r 0 0 None s.

Definition hits (l : list seg) : list re_match :=
  omap (λ x, match x with Hit m => Some m | Gap _ => None end) l.

(** [list(pattern.finditer(s))] *)
Definition finditer (ic : bool) (r : regex) (s : string) : list re_match :=
  hits (segments ic r s).

(** [pattern.search(s)] *)
Definition search (ic : bool) (r : regex) (s : string) : option re_match :=
  head (finditer ic r s).

(** [pattern.findall(s)] for a pattern with exactly one group, and for a
    pattern without groups. *)
Definition findall1 (ic : bool) (r : regex) (s : string) : list string :=
  (λ m, group_or_empty m 1) <$> finditer ic r s.
Definition findall0 (ic : bool) (r : regex) (s : string) : list string :=
  m_text <$> finditer ic r s.

Definition seg_text (f : re_match → string) (x : seg) : string :=
  match x with Gap c => String c EmptyString | Hit m => f m end.

(** [pattern.sub(f, s)] for a function [f] of the match. *)
Definition sub (ic : bool) (r : regex) (f : re_match → string) (s : string) : string :=
  Py.join (seg_text f <$> segments ic r s).

(** [pattern.subn(f, s)]: the new text and the number of replacements. *)
Definition subn (ic : bool) (r : regex) (f : re_match → string) (s : string)
  : string * nat :=
  (sub ic r f s, List.length (finditer ic r s)).

(** [pattern.sub(f, s)] for an [f] that also updates a state, called on
    the matches from left to right. *)
Fixpoint sub_segs {S : Type} (f : re_match → S → string * S) (l : list seg) (σ : S)
  : string * S :=
  match l with
  | [] => (EmptyString, σ)
  | Gap c :: l' => let '(out, σ') := sub_segs f l' σ in (String c out, σ')
  | Hit m :: l' =>
      let '(x, σ1) := f m σ in
      let '(out, σ2) := sub_segs f l' σ1 in
      (x +:+ out, σ2)
  end.

Definition sub_st {S : Type} (ic : bool) (r : regex)
  (f : re_match → S → string * S) (s : string) (σ : S) : string * S :=
  sub_segs f (segments ic r s) σ.

End Re.

(** ** Pattern vocabulary shared by the two scripts *)

Module Pat.
Import Re.

Definition space : regex := Cls Chr.is_space.         (* \s *)
Definition word : regex := Cls Chr.is_word.           (* \w *)
Definition dot : regex := Cls any.                    (* . with DOTALL, [\s\S] *)
Definition spaces0 : regex := Star true space.        (* \s* *)
Definition spaces1 : regex := Plus true space.        (* \s+ *)
(** The single and the double quotation mark, the class of either, and
    the class of every other character. *)
Definition squote : ascii := "039"%char.
Definition dquote : ascii := "034"%char.
Definition quote : regex := Cls (one_of [squote; dquote]).
Definition unquoted : regex := Cls (none_of [squote; dquote]).

(** [@(\w+)] *)
Definition var_ref : regex := Seq (Lit "@") (Group 1 (Plus true word)).

(** The print token of one variable, whose name is group 1. *)
Definition print_token : regex :=
  seqs [Lit "%%=v(@"; Group 1 (Plus true word); Lit ")=%%"].

End Pat.

(** ** Clean text *)

(** The characters other than the percent sign: a text made of them
    holds no delimiter of either dialect. *)
Definition not_percent (c : ascii) : bool := negb (c =? "%")%char.

(** The texts that are empty or start with a percent sign: what follows
    a clean stretch of a document. *)
Definition clean_stop (r : string) : Prop :=
  r = EmptyString ∨ ∃ t, r = String "%" t.

(** The state that condition translation and block conversion update: the
    [warnings] list and the [covered_vars] set. *)
Record tstate : Type := TState {
  warnings : list string;
  covered_vars : gset string
}.

(** A row of the mapping sheet after its columns were renamed. *)
Record row : Type := Row { SFMC : string; AJO : string }.

Definition inspect {A : Type} (a : A) : { b : A | a = b } := exist _ a eq_refl.

(** ** The fourth script, [replace_sfmc_to_ajo_v4.py] *)

Module V4.
Import Re Pat.

(** *** Small helpers *)

(** A [dict] with text keys as the list of its items in insertion order:
    an assignment to a key that is present replaces the value and keeps
    the place of the key. *)
Fixpoint dict_set (k v : string) (d : list (string * string)) : list (string * string) :=
  match d with
  | [] => [(k, v)]
  | (k', v') :: d' =>
      if String.eqb k k' then (k, v) :: d' else (k', v') :: dict_set k v d'
  end.

(** [next((v for k, v in cols.items() if sub in k), default)] *)
Definition first_value (sub : string) (cols : list (string * string)) (default : string)
  : string :=
  match List.find (λ kv, Py.contains sub kv.1) cols with
  | Some kv => kv.2
  | None => default
  end.

(** [pick_cols], on the headers of the sheet when every header is a
    text.  The default of a [next] call is evaluated before the search,
    so that [df.columns[0]] and [df.columns[1]] are read in every case:
    [None] stands for the [IndexError] of a sheet with fewer than two
    columns. *)
Definition pick_cols (columns : list string) : option (string * string) :=
  let cols := foldl (λ d c, dict_set (Py.lower (Py.strip c)) c d) [] columns in
  match columns with
  | c0 :: c1 :: _ => Some (first_value "sfmc" cols c0, first_value "ajo" cols c1)
  | _ => None
  end.

(** *** Mapping extraction *)

(** [let_re], compiled with IGNORECASE and DOTALL: an opening brace and
    percent sign, the keyword, an identifier (group 1), the equals sign, an
    optional opening parenthesis, a lazy run of any characters (group 2),
    an optional closing parenthesis, and the closing percent sign and
    brace, with optional white space in between. *)
Definition ident_start (c : ascii) : bool :=
  Chr.is_upper_ascii c || Chr.is_lower_ascii c || (c =? "_")%char.
Definition let_re : regex :=
  seqs [Lit "{%"; spaces0; Lit "let"; spaces1;
        Group 1 (Seq (Cls ident_start) (Star true word));
        spaces0; Lit "="; spaces0; Opt true (Lit "("); spaces0;
        Group 2 (Star false dot);
        spaces0; Opt true (Lit ")"); spaces0; Lit "%}"].

(** [print_re], compiled with DOTALL: two opening braces, a lazy run of
    any characters (group 1) and two closing braces. *)
Definition print_re : regex :=
  seqs [Lit "{{"; spaces0; Group 1 (Star false dot); spaces0; Lit "}}"].

(** [\b(?:profile|context)\.[A-Za-z0-9_\.\[\]]+], IGNORECASE *)
Definition path_char (c : ascii) : bool :=
  Chr.is_upper_ascii c || Chr.is_lower_ascii c || Chr.is_digit c
  || one_of ["_"%char; "."%char; "["%char; "]"%char] c.
Definition path_re : regex :=
  seqs [WordB; Alt (Lit "profile") (Lit "context"); Lit "."; Plus true (Cls path_char)].

Definition RESERVED_SKIP : gset string := {[ "the" ]}.

(** The expression that a target cell yields: the name bound by a [let],
    else the inside of a print, else a profile or context path. *)
Definition cell_expr (ajo : string) : option string :=
  match search true let_re ajo with
  | Some m_let => Some (Py.strip (group_or_empty m_let 1))
  | None =>
      match search false print_re ajo with
      | Some m_print => Some (Py.strip (group_or_empty m_print 1))
      | None =>
          match search true path_re ajo with
          | Some m_path => Some (Py.strip (m_text m_path))
          | None => None
          end
      end
  end.

(** Truth value of [expr], which is [None] or a string. *)
Definition truthy (expr : option string) : bool :=
  match expr with
  | Some (String _ _) => true
  | _ => false
  end.

Definition destination_hints : list string :=
  ["profile."; "context."; "fragment"; "{{"; "{%"].

(** The body of the loop [for var in vars_in_sfmc]. *)
Definition learn_var (ajo : string) (expr : option string) (single_var : bool)
  (acc : gmap string string * gset string) (var : string)
  : gmap string string * gset string :=
  let '(var_expr, covered) := acc in
  let vlow := Py.lower var in
  if bool_decide (vlow ∈ RESERVED_SKIP) then acc
  else if truthy expr && single_var then
    (<[vlow := default EmptyString expr]> var_expr, {[ vlow ]} ∪ covered)
  else if existsb (λ x, Py.contains x ajo) destination_hints then
    (var_expr, {[ vlow ]} ∪ covered)
  else acc.

(** The number of distinct variables of a row, names compared in lower
    case: [len(list({v.lower() for v in vars_in_sfmc}))]. *)
Definition unique_vars (vars_in_sfmc : list string) : gset string :=
  list_to_set (Py.lower <$> vars_in_sfmc).

(** The body of the loop [for _, row in df.iterrows()]. *)
Definition learn_row (acc : gmap string string * gset string) (r : row)
  : gmap string string * gset string :=
  let sfmc := SFMC r in
  let ajo := AJO r in
  let vars_in_sfmc := findall1 false var_ref sfmc in
  match vars_in_sfmc with
  | [] => acc
  | _ =>
      let single_var := size (unique_vars vars_in_sfmc) =? 1 in
      let expr := cell_expr ajo in
      foldl (learn_var ajo expr single_var) acc vars_in_sfmc
  end.

Definition extract_var_expressions (df : list row)
  : gmap string string * gset string :=
  foldl learn_row (∅, ∅) df.

Definition resolve_expr (var_name : string) (var_expr : gmap string string) : string :=
  default var_name (var_expr !! Py.lower var_name).

(** *** Conditions *)

(** The five patterns of [translate_condition_to_liquid], all compiled
    with IGNORECASE. *)
Definition var_in_parens : regex :=
  seqs [spaces0; Lit "("; spaces0; Lit "@"; Group 1 (Plus true word); spaces0; Lit ")"].
Definition re_not_empty : regex :=
  seqs [Lit "not"; spaces0; Lit "empty"; var_in_parens].
Definition re_empty : regex :=
  seqs [Lit "empty"; var_in_parens].
Definition re_contains : regex :=
  seqs [Lit "contains"; spaces0; Lit "("; spaces0; Lit "@"; Group 1 (Plus true word);
        spaces0; Lit ","; spaces0; quote; Group 2 (Plus true unquoted); quote;
        spaces0; Lit ")"].
Definition re_cmp : regex :=
  seqs [Lit "@"; Group 1 (Plus true word); spaces0;
        Group 2 (Alt (Lit "==") (Lit "!=")); spaces0;
        quote; Group 3 (Plus true unquoted); quote].
Definition re_truthy : regex :=
  seqs [Bol; spaces0; Lit "@"; Group 1 (Plus true word); spaces0; Eol].

Definition always_safe : gset string :=
  {[ "email"; "firstname"; "lastname"; "country" ]}.

(** The loop that records the variables of a condition in [warnings]. *)
Definition note_var (st : tstate) (v : string) : tstate :=
  if bool_decide (Py.lower v ∉ covered_vars st)
     && bool_decide (Py.lower v ∉ always_safe)
  then TState (warnings st ++ [v]) (covered_vars st)
  else st.

Definition note_vars (cond_l : string) (st : tstate) : tstate :=
  foldl note_var st (findall1 true var_ref cond_l).

Definition learn_expr (var_expr : gmap string string) (var_name : string)
  (st : tstate) : string * tstate :=
  let expr := resolve_expr var_name var_expr in
  if bool_decide (expr ≠ var_name)
  then (expr, TState (warnings st) ({[ Py.lower var_name ]} ∪ covered_vars st))
  else (expr, st).

(** The five forms that are searched for in turn; the first pattern found
    decides the result, [None] when none is found. *)
Definition translate_forms (cond_l : string) (var_expr : gmap string string)
  (st : tstate) : option (string * tstate) :=
  match search true re_not_empty cond_l with
  | Some m =>
      let '(e, st') := learn_expr var_expr (group_or_empty m 1) st in
      Some ("{% if length(" +:+ e +:+ ") > 0 %}", st')
  | None =>
  match search true re_empty cond_l with
  | Some m =>
      let '(e, st') := learn_expr var_expr (group_or_empty m 1) st in
      Some ("{% if length(" +:+ e +:+ ") == 0 %}", st')
  | None =>
  match search true re_contains cond_l with
  | Some m =>
      let '(e, st') := learn_expr var_expr (group_or_empty m 1) st in
      let val := group_or_empty m 2 in
      Some ("{% if contains(" +:+ e +:+ ", '" +:+ val +:+ "') %}", st')
  | None =>
  match search true re_cmp cond_l with
  | Some m =>
      let '(e, st') := learn_expr var_expr (group_or_empty m 1) st in
      let op := if String.eqb (group_or_empty m 2) "==" then "==" else "!=" in
      let val := group_or_empty m 3 in
      Some ("{% if " +:+ e +:+ " " +:+ op +:+ " '" +:+ val +:+ "' %}", st')
  | None =>
  match search true re_truthy cond_l with
  | Some m =>
      let '(e, st') := learn_expr var_expr (group_or_empty m 1) st in
      Some ("{% if " +:+ e +:+ " %}", st')
  | None => None
  end end end end end.

(** [cond_l.lower().startswith("elseif ")] *)
Definition is_elseif (cond_l : string) : bool :=
  Py.startswith "elseif " (Py.lower cond_l).

(** [trans.replace("{% if", "{% elseif")] on the text of a result. *)
Definition as_elseif (r : string * tstate) : string * tstate :=
  (Py.replace "{% if" "{% elseif" r.1, r.2).

Equations? translate_condition_to_liquid (cond : string)
  (var_expr : gmap string string) (st : tstate) : string * tstate
  by wf (String.length cond) lt :=
translate_condition_to_liquid cond var_expr st
  with inspect (translate_forms (Py.strip cond) var_expr (note_vars (Py.strip cond) st)) := {
  | exist _ (Some result) _ => result
  | exist _ None _ with inspect (is_elseif (Py.strip cond)) := {
    | exist _ true Helseif =>
        let inner := Py.strip (Py.drop 7 (Py.strip cond)) in
        as_elseif
          (translate_condition_to_liquid inner var_expr (note_vars (Py.strip cond) st))
    | exist _ false _ =>
        ("<!-- Untranslated condition: " +:+ cond +:+ " -->",
         note_vars (Py.strip cond) st)
    }
  }.
Proof.
  (* The text after the keyword is strictly shorter than the condition. *)
  assert (Hl : ∀ s, String.length (Py.lstrip s) ≤ String.length s).
  { induction s as [|c s IH]; simpl; [lia|]. destruct (Chr.is_space c); simpl; lia. }
  assert (Hr : ∀ s, String.length (Py.rstrip s) ≤ String.length s).
  { induction s as [|c s IH]; simpl; [lia|].
    destruct (Py.rstrip s); destruct (Chr.is_space c); simpl in *; lia. }
  assert (Hs : ∀ s, String.length (Py.strip s) ≤ String.length s).
  { intros s. unfold Py.strip. etrans; [apply Hr | apply Hl]. }
  assert (Hd : ∀ n s, String.length (Py.drop n s) = String.length s - n).
  { induction n as [|n IH]; intros [|c s]; simpl; auto with lia. }
  assert (Hlow : ∀ s, String.length (Py.lower s) = String.length s).
  { induction s as [|c s IH]; simpl; auto. }
  assert (Hp : ∀ p s, String.prefix p s = true → String.length p ≤ String.length s).
  { induction p as [|a p IH]; intros [|c s]; simpl; try lia; try discriminate.
    destruct (ascii_dec a c); [|discriminate]. intros H. apply IH in H. lia. }
  unfold is_elseif, Py.startswith in Helseif. apply Hp in Helseif.
  rewrite Hlow in Helseif. simpl in Helseif.
  pose proof (Hs (Py.drop 7 (Py.strip cond))) as H1. rewrite Hd in H1.
  pose proof (Hs cond).
  change (String.length (Py.strip (Py.drop 7 (Py.strip cond))) < String.length cond).
  lia.
Qed.

(** *** Conversion of IF / ELSE / ENDIF blocks *)

(** [_print_sub]: a print is converted only when the variable resolves to
    something other than its own name. *)
Definition print_sub (var_expr : gmap string string) (mv : re_match) : string :=
  let var := group_or_empty mv 1 in
  let expr := resolve_expr var var_expr in
  if bool_decide (expr ≠ var) then "{{ " +:+ expr +:+ " }}" else m_text mv.

Definition the_plan : string :=
  "{% if PlanLegalName startsWith 'THE' %}"
  +:+ "{{ PlanLegalName }}"
  +:+ "{% else %}the {{ PlanLegalName }}{%/if%}".

(** [s.strip()] as a truth value. *)
Definition nonblank (s : string) : bool :=
  match Py.strip s with EmptyString => false | String _ _ => true end.

(** [re.search(p, s)] as a truth value. *)
Definition found (ic : bool) (p : regex) (s : string) : bool :=
  match search ic p s with Some _ => true | None => false end.

Definition repl (var_expr : gmap string string) (m : re_match) (st : tstate)
  : string * tstate :=
  let cond := Py.strip (group_or_empty m 1) in
  let then_block := group_or_empty m 2 in
  let else_block := group_or_empty m 4 in
  let '(cond_liquid, st') := translate_condition_to_liquid cond var_expr st in
  if found true (Lit "%%=v(@the)=%%") then_block
     && found true (Lit "%%=v(@planname)=%%") then_block
  then
    (cond_liquid +:+ the_plan
     +:+ (if nonblank else_block then "{% else %}" +:+ else_block else "")
     +:+ "{%/if%}", st')
  else
    let then_block := sub true print_token (print_sub var_expr) then_block in
    let else_block := sub true print_token (print_sub var_expr) else_block in
    if nonblank else_block
    then (cond_liquid +:+ then_block +:+ "{% else %}" +:+ else_block +:+ "{%/if%}", st')
    else (cond_liquid +:+ then_block +:+ "{%/if%}", st').

(** The pattern of a block, compiled with IGNORECASE and DOTALL: the
    opener with its condition (group 1, lazy, at least one character) and
    an optional THEN, the then-branch (group 2, lazy), an optional ELSE
    marker with the else-branch (groups 3 and 4), and the ENDIF closer. *)
Definition endif_closer : regex :=
  seqs [Lit "%%["; spaces0; Lit "ENDIF"; spaces0; Lit "]%%"].
Definition if_block : regex :=
  seqs [Lit "%%["; spaces0; Lit "IF"; spaces1;
        Group 1 (Plus false dot);
        Opt true (Seq spaces1 (Lit "THEN")); spaces0; Lit "]%%";
        Group 2 (Star false dot);
        Group 3 (Opt true (seqs [Lit "%%["; spaces0; Lit "ELSE"; spaces0; Lit "]%%";
                                 Group 4 (Star false dot)]));
        endif_closer].

Definition convert_ampscript_if_blocks (html_text : string)
  (var_expr : gmap string string) (st : tstate) : string * tstate :=
  sub_st true if_block (repl var_expr) html_text st.

(** *** Global print replacement *)

Definition replace_all_prints (html_text : string) (var_expr : gmap string string)
  : string :=
  sub true print_token (print_sub var_expr) html_text.

(** *** Safe commenting and hoisting *)

(** [attr_token_re], compiled with DOTALL: a white-space character, an
    attribute name, the equals sign (group 1), a quotation mark (group 2),
    a text from a print opener to the nearest print closer that is
    followed by the same quotation mark (group 3). *)
Definition attr_name_char (c : ascii) : bool :=
  Chr.is_word c || one_of [":"%char; "-"%char] c.
Definition attr_token_re : regex :=
  seqs [Group 1 (seqs [space; Plus true (Cls attr_name_char); spaces0; Lit "="; spaces0]);
        Group 2 quote;
        Group 3 (seqs [Lit "%%="; Star false dot; Lit "=%%"]);
        Backref 2].

(** [block_re], compiled with IGNORECASE and DOTALL: a print token, a
    bracketed block, or a script element that runs at the server. *)
Definition not_gt : regex := Cls (none_of [">"%char]).
Definition block_re : regex :=
  Group 1
    (Alt (seqs [Lit "%%="; Plus false dot; Lit "=%%"])
    (Alt (seqs [Lit "%%["; Star false dot; Lit "]%%"])
         (seqs [Lit "<script"; Star true not_gt; WordB; Lit "runat="; quote;
                Lit "server"; quote; Star true not_gt; Lit ">";
                Star false dot; Lit "</script>"]))).

(** The [let_re] of the commenting pass, compiled with IGNORECASE and
    DOTALL: the body of the declaration holds no percent sign. *)
Definition hoist_let_re : regex :=
  seqs [Lit "{%"; spaces0; Lit "let"; spaces1;
        Plus true (Cls (none_of ["%"%char])); Lit "%}"].

(** [_line_of] *)
Definition line_of (html_text : string) (idx : nat) : nat :=
  Py.count_char "010"%char idx html_text + 1.

(** The accumulators of a loop over matches: the pieces of output, the
    commented fragments, and the end of the last match. *)
Definition loop_state : Type := list string * list (nat * string) * nat.

(** The body of the first loop over [attr_token_re.finditer(html_text)]. *)
Definition attr_step (html_text : string) (acc : loop_state) (m : re_match)
  : loop_state :=
  let '(parts, commented, last) := acc in
  let start := m_start m in
  let attr_prefix := group_or_empty m 1 in
  let quote := group_or_empty m 2 in
  let token := group_or_empty m 3 in
  (parts ++ [Py.slice last start html_text;
             attr_prefix +:+ quote +:+ quote +:+ " <!-- " +:+ token +:+ " -->"],
   commented ++ [(line_of html_text start, token)],
   m_end m).

Definition neutralize_attributes (html_text : string) : string * list (nat * string) :=
  let '(parts, commented, last) :=
    foldl (attr_step html_text) ([], [], 0) (finditer false attr_token_re html_text) in
  (Py.join (parts ++ [Py.drop last html_text]), commented).

(** [offsets]: the start of the text and the end of every line. *)
Definition offsets (lines : list string) : list nat :=
  foldl (λ offs line, offs ++ [List.last offs 0 + String.length line + 1]) [0] lines.

(** The offsets after [b]: the ends of the lines [ls] that start at [b],
    by recursion on the lines. *)
Fixpoint line_ends (b : nat) (ls : list string) : list nat :=
  match ls with
  | [] => []
  | l :: ls' => (b + String.length l + 1) :: line_ends (b + String.length l + 1) ls'
  end.

(** [find_line] *)
Fixpoint find_line_from (pos i : nat) (offs : list nat) (nlines : nat) : nat :=
  match offs with
  | [] => nlines
  | e :: offs' => if pos <? e then Nat.max 1 i else find_line_from pos (S i) offs' nlines
  end.
Definition find_line (html_text : string) (pos : nat) : nat :=
  let lines := Py.splitlines html_text in
  find_line_from pos 0 (offsets lines) (List.length lines).

(** The body of the second loop over [block_re.finditer(html_text)]. *)
Definition block_step (html_text : string) (acc : loop_state) (m : re_match)
  : loop_state :=
  let '(out, commented, last_end) := acc in
  let start := m_start m in
  let full := group_or_empty m 1 in
  let line_no := find_line html_text start in
  let out := out ++ [Py.slice last_end start html_text] in
  if Py.startswith "%%=" full then
    (out ++ ["<!-- " +:+ full +:+ " -->"], commented ++ [(line_no, full)], m_end m)
  else if Py.startswith "%%[" (Py.lower full) || Py.startswith "<script" (Py.lower full) then
    let lets := findall0 true hoist_let_re full in
    let cleaned := sub true hoist_let_re (λ _, EmptyString) full in
    if nonblank cleaned
    then (out ++ lets ++ ["<!-- " +:+ cleaned +:+ " -->"],
          commented ++ [(line_no, Py.strip cleaned)], m_end m)
    else (out ++ lets, commented, m_end m)
  else
    (out ++ ["<!-- " +:+ full +:+ " -->"], commented ++ [(line_no, full)], m_end m).

Definition comment_blocks (html_text : string) (commented : list (nat * string))
  : string * list (nat * string) :=
  let '(out, commented, last_end) :=
    foldl (block_step html_text) ([], commented, 0) (finditer true block_re html_text) in
  (Py.join (out ++ [Py.drop last_end html_text]), commented).

Definition comment_ampscript_with_hoist (html_text : string)
  : string * list (nat * string) :=
  let '(html_text, commented) := neutralize_attributes html_text in
  comment_blocks html_text commented.

(** *** Literal replacements from the mapping sheet *)

Definition backslash : ascii := "092"%char.

(** [re.escape]: the characters that have a meaning in a pattern get a
    backslash. *)
Definition is_special (c : ascii) : bool :=
  one_of ["("; ")"; "["; "]"; "{"; "}"; "?"; "*"; "+"; "-"; "|"; "^"; "$";
          backslash; "."; "&"; "~"; "#"; " "; "009"; "010"; "013"; "011"; "012"]%char c.

Fixpoint escape (s : string) : string :=
  match s with
  | EmptyString => EmptyString
  | String c t =>
      if is_special c then String backslash (String c (escape t))
      else String c (escape t)
  end.

(** A backslash followed by blanks, tabs, returns, line feeds or form
    feeds: the pattern that [build_flex_regex] replaces by [\s*]. *)
Definition escaped_blank : regex :=
  Seq (Lit (String backslash EmptyString))
      (Plus true (Cls (one_of [" "; "009"; "013"; "010"; "012"]%char))).

Definition any_blank : string := String backslash "s*".
Definition flexible_equals : string :=
  String backslash "s*=" +:+ String backslash "s*".

(** The text of the pattern that [build_flex_regex] compiles. *)
Definition flex_source (sfmc_snippet : string) : string :=
  let s := escape (Py.strip sfmc_snippet) in
  let s := sub false escaped_blank (λ _, any_blank) s in
  Py.replace (String backslash "=") flexible_equals s.

(** [re.compile] on the texts that [flex_source] can produce: a backslash
    makes the next character literal, except that backslash-s is the
    white-space class; any other character stands for itself; a star
    repeats the item before it.  A star with nothing to repeat and a
    backslash at the end are errors of [re], here [None]. *)
Definition starred (item : regex) (s : string) : regex * string :=
  match s with
  | String "*"%char t => (Star true item, t)
  | _ => (item, s)
  end.

Fixpoint compile_items (s : string) : option (list regex) :=
  match s with
  | EmptyString => Some []
  | String c t =>
      if (c =? "*")%char then None
      else if (c =? backslash)%char then
        match t with
        | EmptyString => None
        | String d u =>
            let item := if (d =? "s")%char then space else Lit (String d EmptyString) in
            match u with
            | String "*"%char v => cons (Star true item) <$> compile_items v
            | _ => cons item <$> compile_items u
            end
        end
      else
        let item := Lit (String c EmptyString) in
        match t with
        | String "*"%char v => cons (Star true item) <$> compile_items v
        | _ => cons item <$> compile_items t
        end
  end.

(** The pattern is compiled with IGNORECASE and DOTALL. *)
Definition build_flex_regex (sfmc_snippet : string) : option regex :=
  seqs <$> compile_items (flex_source sfmc_snippet).

(** The pattern of a snippet, character by character: the text and the
    item that stand for one character of the snippet when the rule for
    the equals sign does not apply. *)
Definition flex_blank (c : ascii) : bool :=
  one_of [" "; "009"; "013"; "010"; "012"]%char c.
Definition flex_token (c : ascii) : string :=
  if flex_blank c then any_blank
  else if is_special c then String backslash (String c EmptyString)
  else String c EmptyString.
Fixpoint flex_text (s : string) : string :=
  match s with
  | EmptyString => EmptyString
  | String c t => flex_token c +:+ flex_text t
  end.
Definition flex_item (c : ascii) : regex :=
  if flex_blank c then Star true space else Lit (String c EmptyString).


(** [sorted(rows, key=..., reverse=True)]: longest trimmed source first,
    rows of equal length in the order of the sheet. *)
Definition sort_key (r : row) : nat := String.length (Py.strip (SFMC r)).
Fixpoint insert_row (r : row) (sorted : list row) : list row :=
  match sorted with
  | [] => [r]
  | r' :: rest => if sort_key r <? sort_key r' then r' :: insert_row r rest
                  else r :: sorted
  end.
Definition sorted_rows (df : list row) : list row := foldr insert_row [] df.

Section LiteralPass.

(** The expansion of a replacement template by [re] (escapes and group
    references) is a parameter: [None] when [re] rejects the template. *)
Variable expand_template : string → option (re_match → string).

(** The running values [work], [total_found] and [total_replaced]. *)
Definition pass_state : Type := string * nat * nat.

(** The body of the loop [for r in rows]; [None] stands for an error
    raised by [re]. *)
Definition literal_step (acc : option pass_state) (r : row) : option pass_state :=
  acc ≫= λ '(work, total_found, total_replaced),
    let sfmc := Py.strip (SFMC r) in
    let ajo := Py.strip (AJO r) in
    match sfmc with
    | EmptyString => Some (work, total_found, total_replaced)
    | _ =>
        pattern ← build_flex_regex sfmc;
        let matches := finditer true pattern work in
        match matches with
        | [] => Some (work, total_found, total_replaced)
        | _ =>
            let total_found := total_found + List.length matches in
            match ajo with
            | EmptyString => Some (work, total_found, total_replaced)
            | _ =>
                f ← expand_template ajo;
                let '(work, n) := subn true pattern f work in
                Some (work, total_found, total_replaced + n)
            end
        end
    end.

Definition literal_pass (df : list row) (html_after_if : string)
  : option pass_state :=
  foldl literal_step (Some (html_after_if, 0, 0)) (sorted_rows df).

(** Steps 2 to 6 of the pipeline: the final text, the commented
    fragments, the two counters and the state of the warnings. *)
Definition pipeline (df : list row) (html : string)
  : option (string * list (nat * string) * nat * nat * tstate) :=
  let '(var_expr, covered_vars) := extract_var_expressions df in
  let '(html_after_if, st) :=
    convert_ampscript_if_blocks html var_expr (TState [] covered_vars) in
  '(work, total_found, total_replaced) ← literal_pass df html_after_if;
  let work := replace_all_prints work var_expr in
  let '(final_html, commented_blocks) := comment_ampscript_with_hoist work in
  Some (final_html, commented_blocks, total_found, total_replaced, st).

End LiteralPass.

End V4.

(** ** The third script, [replace_sfmc_to_ajo_v3.py] *)

Module V3.
Import Re Pat.

(** *** Mapping extraction *)

Definition ident_start (c : ascii) : bool :=
  Chr.is_upper_ascii c || Chr.is_lower_ascii c || (c =? "_")%char.
Definition let_re : regex :=
  seqs [Lit "{%"; spaces0; Lit "let"; spaces1;
        Group 1 (Seq (Cls ident_start) (Star true word));
        spaces0; Lit "="; spaces0; Opt true (Lit "("); spaces0;
        Group 2 (Star false dot);
        spaces0; Opt true (Lit ")"); spaces0; Lit "%}"].
Definition print_re : regex :=
  seqs [Lit "{{"; spaces0; Group 1 (Star false dot); spaces0; Lit "}}"].
Definition path_char (c : ascii) : bool :=
  Chr.is_upper_ascii c || Chr.is_lower_ascii c || Chr.is_digit c
  || one_of ["_"%char; "."%char; "["%char; "]"%char] c.
Definition path_re : regex :=
  seqs [WordB; Alt (Lit "profile") (Lit "context"); Lit "."; Plus true (Cls path_char)].

Definition cell_expr (ajo : string) : option string :=
  match search true let_re ajo with
  | Some m_let => Some (Py.strip (group_or_empty m_let 1))
  | None =>
      match search false print_re ajo with
      | Some m_print => Some (Py.strip (group_or_empty m_print 1))
      | None =>
          match search true path_re ajo with
          | Some m_path => Some (Py.strip (m_text m_path))
          | None => None
          end
      end
  end.

Definition truthy (expr : option string) : bool :=
  match expr with
  | Some (String _ _) => true
  | _ => false
  end.

Definition destination_hints : list string :=
  ["profile."; "context."; "fragment"; "{{"; "{%"].

(** The body of the loop [for var in vars_in_sfmc]: every variable of the
    row takes the expression of the row. *)
Definition learn_var (ajo : string) (expr : option string)
  (acc : gmap string string * gset string) (var : string)
  : gmap string string * gset string :=
  let '(var_expr, covered) := acc in
  let vlow := Py.lower var in
  if truthy expr then
    (<[vlow := default EmptyString expr]> var_expr, {[ vlow ]} ∪ covered)
  else if existsb (λ x, Py.contains x ajo) destination_hints then
    (var_expr, {[ vlow ]} ∪ covered)
  else acc.

Definition learn_row (acc : gmap string string * gset string) (r : row)
  : gmap string string * gset string :=
  let sfmc := SFMC r in
  let ajo := AJO r in
  let vars_in_sfmc := findall1 false var_ref sfmc in
  match vars_in_sfmc with
  | [] => acc
  | _ =>
      let expr := cell_expr ajo in
      foldl (learn_var ajo expr) acc vars_in_sfmc
  end.

Definition extract_var_expressions (df : list row)
  : gmap string string * gset string :=
  foldl learn_row (∅, ∅) df.

Definition resolve_expr (var_name : string) (var_expr : gmap string string) : string :=
  default var_name (var_expr !! Py.lower var_name).

(** *** Conditions *)

Definition var_in_parens : regex :=
  seqs [spaces0; Lit "("; spaces0; Lit "@"; Group 1 (Plus true word); spaces0; Lit ")"].
Definition re_not_empty : regex :=
  seqs [Lit "not"; spaces0; Lit "empty"; var_in_parens].
Definition re_empty : regex :=
  seqs [Lit "empty"; var_in_parens].
Definition re_contains : regex :=
  seqs [Lit "contains"; spaces0; Lit "("; spaces0; Lit "@"; Group 1 (Plus true word);
        spaces0; Lit ","; spaces0; quote; Group 2 (Plus true unquoted); quote;
        spaces0; Lit ")"].
Definition re_cmp : regex :=
  seqs [Lit "@"; Group 1 (Plus true word); spaces0;
        Group 2 (Alt (Lit "==") (Lit "!=")); spaces0;
        quote; Group 3 (Plus true unquoted); quote].
Definition re_truthy : regex :=
  seqs [Bol; spaces0; Lit "@"; Group 1 (Plus true word); spaces0; Eol].

Definition always_safe : gset string :=
  {[ "email"; "firstname"; "lastname"; "country" ]}.

Definition note_var (st : tstate) (v : string) : tstate :=
  if bool_decide (Py.lower v ∉ covered_vars st)
     && bool_decide (Py.lower v ∉ always_safe)
  then TState (warnings st ++ [v]) (covered_vars st)
  else st.

Definition note_vars (cond_l : string) (st : tstate) : tstate :=
  foldl note_var st (findall1 true var_ref cond_l).

Definition learn_expr (var_expr : gmap string string) (var_name : string)
  (st : tstate) : string * tstate :=
  let expr := resolve_expr var_name var_expr in
  if bool_decide (expr ≠ var_name)
  then (expr, TState (warnings st) ({[ Py.lower var_name ]} ∪ covered_vars st))
  else (expr, st).

Definition translate_forms (cond_l : string) (var_expr : gmap string string)
  (st : tstate) : option (string * tstate) :=
  match search true re_not_empty cond_l with
  | Some m =>
      let '(e, st') := learn_expr var_expr (group_or_empty m 1) st in
      Some ("{% if length(" +:+ e +:+ ") > 0 %}", st')
  | None =>
  match search true re_empty cond_l with
  | Some m =>
      let '(e, st') := learn_expr var_expr (group_or_empty m 1) st in
      Some ("{% if length(" +:+ e +:+ ") == 0 %}", st')
  | None =>
  match search true re_contains cond_l with
  | Some m =>
      let '(e, st') := learn_expr var_expr (group_or_empty m 1) st in
      let val := group_or_empty m 2 in
      Some ("{% if contains(" +:+ e +:+ ", '" +:+ val +:+ "') %}", st')
  | None =>
  match search true re_cmp cond_l with
  | Some m =>
      let '(e, st') := learn_expr var_expr (group_or_empty m 1) st in
      let op := if String.eqb (group_or_empty m 2) "==" then "==" else "!=" in
      let val := group_or_empty m 3 in
      Some ("{% if " +:+ e +:+ " " +:+ op +:+ " '" +:+ val +:+ "' %}", st')
  | None =>
  match search true re_truthy cond_l with
  | Some m =>
      let '(e, st') := learn_expr var_expr (group_or_empty m 1) st in
      Some ("{% if " +:+ e +:+ " %}", st')
  | None => None
  end end end end end.

Definition is_elseif (cond_l : string) : bool :=
  Py.startswith "elseif " (Py.lower cond_l).

(** [trans.replace("{% if", "{% elseif")] on the text of a result. *)
Definition as_elseif (r : string * tstate) : string * tstate :=
  (Py.replace "{% if" "{% elseif" r.1, r.2).

Equations? translate_condition_to_liquid (cond : string)
  (var_expr : gmap string string) (st : tstate) : string * tstate
  by wf (String.length cond) lt :=
translate_condition_to_liquid cond var_expr st
  with inspect (translate_forms (Py.strip cond) var_expr (note_vars (Py.strip cond) st)) := {
  | exist _ (Some result) _ => result
  | exist _ None _ with inspect (is_elseif (Py.strip cond)) := {
    | exist _ true Helseif =>
        let inner := Py.strip (Py.drop 7 (Py.strip cond)) in
        as_elseif
          (translate_condition_to_liquid inner var_expr (note_vars (Py.strip cond) st))
    | exist _ false _ =>
        ("<!-- Untranslated condition: " +:+ cond +:+ " -->",
         note_vars (Py.strip cond) st)
    }
  }.
Proof.
  assert (Hl : ∀ s, String.length (Py.lstrip s) ≤ String.length s).
  { induction s as [|c s IH]; simpl; [lia|]. destruct (Chr.is_space c); simpl; lia. }
  assert (Hr : ∀ s, String.length (Py.rstrip s) ≤ String.length s).
  { induction s as [|c s IH]; simpl; [lia|].
    destruct (Py.rstrip s); destruct (Chr.is_space c); simpl in *; lia. }
  assert (Hs : ∀ s, String.length (Py.strip s) ≤ String.length s).
  { intros s. unfold Py.strip. etrans; [apply Hr | apply Hl]. }
  assert (Hd : ∀ n s, String.length (Py.drop n s) = String.length s - n).
  { induction n as [|n IH]; intros [|c s]; simpl; auto with lia. }
  assert (Hlow : ∀ s, String.length (Py.lower s) = String.length s).
  { induction s as [|c s IH]; simpl; auto. }
  assert (Hp : ∀ p s, String.prefix p s = true → String.length p ≤ String.length s).
  { induction p as [|a p IH]; intros [|c s]; simpl; try lia; try discriminate.
    destruct (ascii_dec a c); [|discriminate]. intros H. apply IH in H. lia. }
  unfold is_elseif, Py.startswith in Helseif. apply Hp in Helseif.
  rewrite Hlow in Helseif. simpl in Helseif.
  pose proof (Hs (Py.drop 7 (Py.strip cond))) as H1. rewrite Hd in H1.
  pose proof (Hs cond).
  change (String.length (Py.strip (Py.drop 7 (Py.strip cond))) < String.length cond).
  lia.
Qed.

(** *** Commenting and hoisting *)

Definition not_gt : regex := Cls (none_of [">"%char]).
Definition block_re : regex :=
  Group 1
    (Alt (seqs [Lit "%%="; Plus false dot; Lit "=%%"])
    (Alt (seqs [Lit "%%["; Star false dot; Lit "]%%"])
         (seqs [Lit "<script"; Star true not_gt; WordB; Lit "runat="; quote;
                Lit "server"; quote; Star true not_gt; Lit ">";
                Star false dot; Lit "</script>"]))).
Definition hoist_let_re : regex :=
  seqs [Lit "{%"; spaces0; Lit "let"; spaces1;
        Plus true (Cls (none_of ["%"%char])); Lit "%}"].

Definition nonblank (s : string) : bool :=
  match Py.strip s with EmptyString => false | String _ _ => true end.

Definition offsets (lines : list string) : list nat :=
  foldl (λ offs line, offs ++ [List.last offs 0 + String.length line + 1]) [0] lines.
Fixpoint find_line_from (pos i : nat) (offs : list nat) (nlines : nat) : nat :=
  match offs with
  | [] => nlines
  | e :: offs' => if pos <? e then Nat.max 1 i else find_line_from pos (S i) offs' nlines
  end.
Definition find_line (html_text : string) (pos : nat) : nat :=
  let lines := Py.splitlines html_text in
  find_line_from pos 0 (offsets lines) (List.length lines).

Definition loop_state : Type := list string * list (nat * string) * nat.

(** The body of the loop over [block_re.finditer(html_text)]: every
    fragment, of whatever kind, has its declarations hoisted. *)
Definition block_step (html_text : string) (acc : loop_state) (m : re_match)
  : loop_state :=
  let '(out, commented, last_end) := acc in
  let start := m_start m in
  let full := group_or_empty m 1 in
  let line_no := find_line html_text start in
  let lets := findall0 true hoist_let_re full in
  let cleaned := sub true hoist_let_re (λ _, EmptyString) full in
  let out := out ++ [Py.slice last_end start html_text] ++ lets in
  if nonblank cleaned
  then (out ++ ["<!-- " +:+ cleaned +:+ " -->"],
        commented ++ [(line_no, Py.strip cleaned)], m_end m)
  else (out, commented, m_end m).

Definition comment_ampscript_with_hoist (html_text : string)
  : string * list (nat * string) :=
  let '(out, commented, last_end) :=
    foldl (block_step html_text) ([], [], 0) (finditer true block_re html_text) in
  (Py.join (out ++ [Py.drop last_end html_text]), commented).

End V3.

(** * Properties *)

Import Re Pat.

(** ** Texts *)

Lemma app_cons c a b : String c a +:+ b = String c (a +:+ b).
Proof. reflexivity. Qed.

Lemma app_empty_l a : EmptyString +:+ a = a.
Proof. reflexivity. Qed.

Lemma app_empty_r a : a +:+ EmptyString = a.
Proof. induction a as [|c a IH]; [reflexivity|]. rewrite app_cons, IH. reflexivity. Qed.

Lemma app_assoc a b c : (a +:+ b) +:+ c = a +:+ (b +:+ c).
Proof. induction a as [|x a IH]; [reflexivity|]. rewrite !app_cons, IH. reflexivity. Qed.

Lemma length_app a b : String.length (a +:+ b) = String.length a + String.length b.
Proof. induction a as [|x a IH]; [reflexivity|]. rewrite app_cons. simpl. lia. Qed.

Lemma take_app a b : Py.take (String.length a) (a +:+ b) = a.
Proof. induction a as [|x a IH]; [reflexivity|]. rewrite app_cons. simpl. rewrite IH. reflexivity. Qed.

Lemma drop_app a b : Py.drop (String.length a) (a +:+ b) = b.
Proof. induction a as [|x a IH]; [reflexivity|]. rewrite app_cons. simpl. exact IH. Qed.

Lemma take_0 s : Py.take 0 s = EmptyString.
Proof. destruct s; reflexivity. Qed.

Lemma last_or_app d a b : Py.last_or d (a +:+ b) = Py.last_or (Py.last_or d a) b.
Proof. revert d; induction a as [|x a IH]; intros d; [reflexivity|]. rewrite app_cons. simpl. apply IH. Qed.

Lemma all_app p a b : Py.all p (a +:+ b) = Py.all p a && Py.all p b.
Proof.
  induction a as [|x a IH]; [reflexivity|]. rewrite app_cons. simpl.
  rewrite IH. apply andb_assoc.
Qed.

Lemma span_all p a b :
  Py.all p a = true → Py.span p (a +:+ b) = String.length a + Py.span p b.
Proof.
  induction a as [|x a IH]; [reflexivity|]. rewrite app_cons. simpl.
  intros [Hx Ha]%andb_true_iff. rewrite Hx, IH by exact Ha. reflexivity.
Qed.

Lemma span_le p s : Py.span p s ≤ String.length s.
Proof. induction s as [|c s IH]; simpl; [lia|]. destruct (p c); lia. Qed.

(** ** The matcher *)

Lemma first_some_app {A B} (k : A → option B) l1 l2 :
  first_some k (l1 ++ l2)
  = match first_some k l1 with Some y => Some y | None => first_some k l2 end.
Proof.
  induction l1 as [|x l1 IH]; simpl; [reflexivity|].
  destruct (k x); [reflexivity | exact IH].
Qed.

Lemma first_some_flat_map {A B C} (k : B → option C) (f : A → list B) l :
  first_some k (flat_map f l) = first_some (λ x, first_some k (f x)) l.
Proof.
  induction l as [|x l IH]; simpl; [reflexivity|].
  rewrite first_some_app, IH. reflexivity.
Qed.

Lemma first_some_map {A B C} (k : B → option C) (f : A → B) l :
  first_some k (map f l) = first_some (λ x, k (f x)) l.
Proof.
  induction l as [|x l IH]; simpl; [reflexivity|]. rewrite IH. reflexivity.
Qed.

Lemma first_some_ext {A B} (k k' : A → option B) l :
  (∀ x, In x l → k x = k' x) → first_some k l = first_some k' l.
Proof.
  induction l as [|x l IH]; simpl; intros H; [reflexivity|].
  rewrite (H x) by auto. destruct (k' x); [reflexivity|]. apply IH. auto.
Qed.

Lemma first_some_none {A B} (k : A → option B) l :
  (∀ x, In x l → k x = None) → first_some k l = None.
Proof.
  induction l as [|x l IH]; simpl; intros H; [reflexivity|].
  rewrite (H x) by auto. apply IH. auto.
Qed.

Lemma head_first_some {A} (l : list A) : head l = first_some Some l.
Proof. destruct l; reflexivity. Qed.

(** The equations of backtracking with a continuation. *)

Section FirstMatch.
Context {A : Type} (ic : bool) (k : mstate → option A).

Lemma first_match_eps st : first_match ic Eps st k = k st.
Proof. unfold first_match. simpl. destruct (k st); reflexivity. Qed.

Lemma first_match_seq a b st :
  first_match ic (Seq a b) st k
  = first_match ic a st (λ st1, first_match ic b st1 k).
Proof. unfold first_match. simpl. apply first_some_flat_map. Qed.

Lemma first_match_alt a b st :
  first_match ic (Alt a b) st k
  = match first_match ic a st k with
    | Some y => Some y
    | None => first_match ic b st k
    end.
Proof. unfold first_match. simpl. apply first_some_app. Qed.

Lemma first_match_group i a st :
  first_match ic (Group i a) st k
  = first_match ic a st (λ st', k (with_group i st st')).
Proof. unfold first_match. simpl. apply first_some_map. Qed.

Lemma first_match_lit l st :
  first_match ic (Lit l) st k
  = match eat ic l (prev st) (rest st) with
    | Some (pv, t) => k (MState pv t (caps st))
    | None => None
    end.
Proof.
  unfold first_match. simpl.
  destruct (eat ic l (prev st) (rest st)) as [[pv t]|]; simpl; [|reflexivity].
  destruct (k _); reflexivity.
Qed.

Lemma first_match_cls p st :
  first_match ic (Cls p) st k
  = match rest st with
    | String c t => if p c then k (MState (Some c) t (caps st)) else None
    | EmptyString => None
    end.
Proof.
  unfold first_match. simpl. destruct (rest st) as [|c t]; [reflexivity|].
  destruct (p c); simpl; [|reflexivity]. destruct (k _); reflexivity.
Qed.

End FirstMatch.

(** Repetition of a class. *)

Lemma advance_0 st : advance 0 st = st.
Proof. destruct st as [pv [|c t] cs]; reflexivity. Qed.

Lemma advance_S n pv c t cs :
  advance (S n) (MState pv (String c t) cs) = advance n (MState (Some c) t cs).
Proof. reflexivity. Qed.

Lemma advance_app a b pv cs :
  advance (String.length a) (MState pv (a +:+ b) cs) = MState (Py.last_or pv a) b cs.
Proof.
  revert pv; induction a as [|x a IH]; intros pv.
  - rewrite app_empty_l. apply advance_0.
  - rewrite app_cons. simpl String.length. rewrite advance_S. apply IH.
Qed.

Lemma caps_advance n st : caps (advance n st) = caps st.
Proof.
  revert st; induction n as [|n IH]; intros [pv s cs]; [rewrite advance_0; reflexivity|].
  destruct s as [|c t]; [reflexivity|]. rewrite advance_S, IH. reflexivity.
Qed.

Lemma run_lengths_greedy_S n :
  run_lengths true (S n) = S n :: run_lengths true n.
Proof.
  unfold run_lengths.
  replace (seq 0 (S (S n))) with (seq 0 (S n) ++ [S n]).
  - rewrite rev_app_distr. reflexivity.
  - rewrite (seq_S (S n) 0). reflexivity.
Qed.

Lemma run_lengths_greedy_shift n :
  run_lengths true (S n) = map S (run_lengths true n) ++ [0].
Proof.
  unfold run_lengths.
  change (seq 0 (S (S n))) with (0 :: seq 1 (S n)).
  rewrite <- seq_shift, map_rev. reflexivity.
Qed.

Lemma run_lengths_lazy_shift n :
  run_lengths false (S n) = 0 :: map S (run_lengths false n).
Proof.
  unfold run_lengths.
  change (seq 0 (S (S n))) with (0 :: seq 1 (S n)).
  rewrite <- seq_shift. reflexivity.
Qed.

Lemma star_iter_cls ic g p fuel st :
  Py.span p (rest st) ≤ fuel →
  star_iter g (rmatch ic (Cls p)) fuel st
  = map (λ n, advance n st) (run_lengths g (Py.span p (rest st))).
Proof.
  revert st; induction fuel as [|fuel IH]; intros [pv s cs] Hf; cbn [rest] in *.
  - assert (H0 : Py.span p s = 0) by lia.
    rewrite H0. destruct g; reflexivity.
  - cbn [star_iter rmatch rest caps]. destruct s as [|c t].
    + destruct g; reflexivity.
    + cbn [Py.span] in *. destruct (p c) eqn:Hp.
      * cbn [flat_map rest String.length].
        assert (Hlt : (String.length t <? S (String.length t)) = true)
          by (apply Nat.ltb_lt; lia).
        rewrite Hlt, app_nil_r.
        rewrite IH by (cbn [rest]; lia). cbn [rest].
        destruct g.
        -- rewrite run_lengths_greedy_shift, map_app, map_map. reflexivity.
        -- rewrite run_lengths_lazy_shift. cbn [map]. rewrite map_map. reflexivity.
      * destruct g; reflexivity.
Qed.

Lemma rmatch_star_cls ic g p st :
  rmatch ic (Star g (Cls p)) st
  = map (λ n, advance n st) (run_lengths g (Py.span p (rest st))).
Proof.
  change (rmatch ic (Star g (Cls p)) st)
    with (star_iter g (rmatch ic (Cls p)) (String.length (rest st)) st).
  apply star_iter_cls, span_le.
Qed.

Lemma first_match_star_cls {A} ic (k : mstate → option A) g p st :
  first_match ic (Star g (Cls p)) st k
  = first_some (λ n, k (advance n st)) (run_lengths g (Py.span p (rest st))).
Proof. unfold first_match. rewrite rmatch_star_cls. apply first_some_map. Qed.

(** A greedy repetition first tries the longest run. *)
Lemma first_some_greedy {B} (f : nat → option B) n y :
  f n = Some y → first_some f (run_lengths true n) = Some y.
Proof.
  intros H. destruct n as [|n].
  - simpl. rewrite H. reflexivity.
  - unfold run_lengths. rewrite seq_S, rev_app_distr. simpl. rewrite H. reflexivity.
Qed.

(** A lazy repetition stops at the first run on which the rest succeeds. *)
Lemma first_some_lazy {B} (f : nat → option B) n n0 y :
  n0 ≤ n → (∀ j, j < n0 → f j = None) → f n0 = Some y →
  first_some f (run_lengths false n) = Some y.
Proof.
  intros Hle Hnone Hy. unfold run_lengths.
  replace (S n) with (n0 + S (n - n0)) by lia.
  rewrite seq_app, first_some_app.
  rewrite first_some_none.
  - simpl. rewrite Hy. reflexivity.
  - intros x [_ Hx]%in_seq. apply Hnone. lia.
Qed.

Lemma first_some_run_none {B} (f : nat → option B) g n :
  (∀ j, j ≤ n → f j = None) → first_some f (run_lengths g n) = None.
Proof.
  intros H. apply first_some_none. intros x Hx. apply H.
  destruct g; unfold run_lengths in Hx.
  - apply in_rev, in_seq in Hx. lia.
  - apply in_seq in Hx. lia.
Qed.

(** Literals. *)

Lemma eqb_ci_refl ic a : Chr.eqb_ci ic a a = true.
Proof. unfold Chr.eqb_ci. destruct ic; apply Ascii.eqb_refl. Qed.

Lemma eat_same ic l pv t : eat ic l pv (l +:+ t) = Some (Py.last_or pv l, t).
Proof.
  revert pv; induction l as [|a l IH]; intros pv; [reflexivity|].
  rewrite app_cons. cbn [eat Py.last_or]. rewrite eqb_ci_refl. apply IH.
Qed.

Lemma eat_ci l l' pv t :
  Py.lower l' = Py.lower l → eat true l pv (l' +:+ t) = Some (Py.last_or pv l', t).
Proof.
  revert l' pv; induction l as [|a l IH]; intros [|a' l'] pv H; try discriminate.
  - reflexivity.
  - simpl in H. injection H as Ha Hl. rewrite app_cons. cbn [eat].
    unfold Chr.eqb_ci. rewrite Ha, Ascii.eqb_refl. cbn [Py.last_or]. apply IH, Hl.
Qed.

Lemma eat_inv ic l pv s pv' t :
  eat ic l pv s = Some (pv', t) →
  ∃ l', s = l' +:+ t ∧ String.length l' = String.length l
        ∧ (if ic then Py.lower l' = Py.lower l else l' = l)
        ∧ pv' = Py.last_or pv l'.
Proof.
  revert pv s; induction l as [|a l IH]; intros pv s H.
  - injection H as -> ->. exists EmptyString. destruct ic; auto.
  - destruct s as [|c s]; [discriminate|]. cbn [eat] in H.
    destruct (Chr.eqb_ci ic a c) eqn:E; [|discriminate].
    apply IH in H as (l' & -> & Hlen & Heq & ->).
    exists (String c l'). rewrite app_cons. simpl. repeat split; auto.
    unfold Chr.eqb_ci in E. destruct ic.
    + apply Ascii.eqb_eq in E. rewrite Heq, E. reflexivity.
    + apply Ascii.eqb_eq in E. rewrite Heq, E. reflexivity.
Qed.

(** A literal does not match where the first characters differ. *)
Lemma eat_head_differs ic a l pv c t :
  Chr.eqb_ci ic a c = false → eat ic (String a l) pv (String c t) = None.
Proof. intros H. cbn [eat]. rewrite H. reflexivity. Qed.

Lemma eat_empty_text ic a l pv : eat ic (String a l) pv EmptyString = None.
Proof. reflexivity. Qed.

Lemma consumed_app a b pv cs pv' cs' :
  consumed (MState pv (a +:+ b) cs) (MState pv' b cs') = a.
Proof.
  unfold consumed. cbn [rest].
  replace (String.length (a +:+ b) - String.length b) with (String.length a)
    by (rewrite length_app; lia).
  apply take_app.
Qed.

(** ** The scan of a text *)

Lemma head_rmatch ic r st : head (rmatch ic r st) = first_match ic r st Some.
Proof. apply head_first_some. Qed.

Lemma scan_gap ic r pos pv c t :
  first_match ic r (start_state pv (String c t)) Some = None →
  scan ic r 0 pos pv (String c t) = Gap c :: scan ic r 0 (S pos) (Some c) t.
Proof.
  rewrite <- head_rmatch. intros H. cbn [scan].
  destruct (rmatch ic r (start_state pv (String c t))); [reflexivity | discriminate].
Qed.

Lemma scan_end ic r pos pv :
  first_match ic r (start_state pv EmptyString) Some = None →
  scan ic r 0 pos pv EmptyString = [].
Proof.
  rewrite <- head_rmatch. intros H. cbn [scan].
  destruct (rmatch ic r (start_state pv EmptyString)); [reflexivity | discriminate].
Qed.

Lemma scan_skip ic r a s pos pv :
  scan ic r (String.length a) pos pv (a +:+ s)
  = scan ic r 0 (pos + String.length a) (Py.last_or pv a) s.
Proof.
  revert pos pv; induction a as [|x a IH]; intros pos pv.
  - rewrite app_empty_l, Nat.add_0_r. reflexivity.
  - rewrite app_cons. cbn [String.length scan Py.last_or]. rewrite IH.
    f_equal. lia.
Qed.

(** A match found at the current position is reported, and the scan goes
    on after it. *)
Lemma scan_hit ic r pos pv x m s st' :
  first_match ic r (start_state pv (String x m +:+ s)) Some = Some st' →
  rest st' = s →
  scan ic r 0 pos pv (String x m +:+ s)
  = Hit (Match pos (String x m) (caps st'))
    :: scan ic r 0 (pos + String.length (String x m)) (Py.last_or pv (String x m)) s.
Proof.
  rewrite <- head_rmatch. intros H Hrest. rewrite app_cons. cbn [scan].
  rewrite app_cons in H.
  destruct (rmatch ic r (start_state pv (String x (m +:+ s)))) as [|st1 l];
    [discriminate|].
  injection H as ->. rewrite Hrest.
  assert (Hlen : (String.length s <? String.length (String x (m +:+ s))) = true).
  { apply Nat.ltb_lt. simpl. rewrite length_app. lia. }
  rewrite Hlen.
  assert (Htxt : mk_match pos (String x (m +:+ s)) st' = Match pos (String x m) (caps st')).
  { unfold mk_match. rewrite Hrest. f_equal.
    rewrite <- app_cons.
    replace (String.length (String x m +:+ s) - String.length s)
      with (String.length (String x m)) by (rewrite length_app; lia).
    apply take_app. }
  rewrite Htxt. cbn [m_text]. f_equal.
  replace (String.length (String x m) - 1) with (String.length m)
    by (simpl; lia).
  rewrite scan_skip. cbn [Py.last_or String.length]. f_equal. lia.
Qed.

(** A prefix in which no match starts is passed character by character. *)
Lemma scan_gaps ic r pre s pos pv :
  (∀ a b, pre = a +:+ b → b ≠ EmptyString →
     first_match ic r (start_state (Py.last_or pv a) (b +:+ s)) Some = None) →
  scan ic r 0 pos pv (pre +:+ s)
  = map Gap (list_ascii_of_string pre)
    ++ scan ic r 0 (pos + String.length pre) (Py.last_or pv pre) s.
Proof.
  revert pos pv; induction pre as [|c pre IH]; intros pos pv H.
  - rewrite app_empty_l, Nat.add_0_r. reflexivity.
  - rewrite app_cons, scan_gap.
    + cbn [list_ascii_of_string map app String.length Py.last_or].
      rewrite IH.
      * replace (pos + S (String.length pre)) with (S pos + String.length pre) by lia.
        reflexivity.
      * intros a b -> Hb. apply (H (String c a) b); [reflexivity | exact Hb].
    + rewrite <- app_cons. apply (H EmptyString (String c pre)); [reflexivity | discriminate].
Qed.

Lemma join_gaps f a (l : list seg) :
  Py.join (seg_text f <$> (map Gap (list_ascii_of_string a) ++ l))
  = a +:+ Py.join (seg_text f <$> l).
Proof.
  induction a as [|c a IH]; [reflexivity|].
  cbn [list_ascii_of_string map app fmap list_fmap]. 
  change (Py.join (seg_text f (Gap c) :: (seg_text f <$> (map Gap (list_ascii_of_string a) ++ l))))
    with (String c (Py.join (seg_text f <$> (map Gap (list_ascii_of_string a) ++ l)))).
  rewrite IH. reflexivity.
Qed.



(** ** Characters without case *)

Ltac by_cases_on c :=
  destruct c as [[] [] [] [] [] [] [] []]; vm_compute; intuition (try discriminate; try reflexivity).

Lemma lower_percent c : Chr.lower c = "%"%char → c = "%"%char.
Proof. by_cases_on c. Qed.

Lemma eqb_ci_percent ic c : Chr.eqb_ci ic "%" c = (c =? "%")%char.
Proof.
  unfold Chr.eqb_ci. destruct ic; [|apply Ascii.eqb_sym].
  destruct (Ascii.eqb_spec c "%") as [->|Hne]; [reflexivity|].
  apply Ascii.eqb_neq. intros H. apply Hne, lower_percent. symmetry. exact H.
Qed.

(** ** What a match reads *)

Lemma reaches_refl st : reaches st st.
Proof. exists EmptyString. reflexivity. Qed.

Lemma reaches_trans st1 st2 st3 : reaches st1 st2 → reaches st2 st3 → reaches st1 st3.
Proof.
  intros [w1 H1] [w2 H2]. exists (w1 +:+ w2). rewrite H1, H2, app_assoc. reflexivity.
Qed.

Lemma star_iter_reaches g (step : mstate → list mstate) :
  (∀ st st', In st' (step st) → reaches st st') →
  ∀ fuel st st', In st' (star_iter g step fuel st) → reaches st st'.
Proof.
  intros Hstep. induction fuel as [|fuel IH]; intros st st' Hin.
  - destruct Hin as [<-|[]]. apply reaches_refl.
  - cbn [star_iter] in Hin.
    assert (Hmore : In st' (flat_map
              (λ st1, if String.length (rest st1) <? String.length (rest st)
                      then star_iter g step fuel st1 else []) (step st))
            → reaches st st').
    { intros (st1 & H1 & H2)%in_flat_map.
      destruct (String.length (rest st1) <? String.length (rest st)); [|destruct H2].
      eapply reaches_trans; [apply Hstep, H1 | apply IH, H2]. }
    destruct g.
    + apply in_app_or in Hin as [Hin|[<-|[]]]; [auto | apply reaches_refl].
    + destruct Hin as [<-|Hin]; [apply reaches_refl | auto].
Qed.

Lemma eat_reaches ic l pv s pv' t : eat ic l pv s = Some (pv', t) → ∃ w, s = w +:+ t.
Proof. intros (l' & -> & _)%eat_inv. eauto. Qed.

Lemma rmatch_reaches ic r : ∀ st st', In st' (rmatch ic r st) → reaches st st'.
Proof.
  induction r as [|p|l|a IHa b IHb|a IHa b IHb|g a IHa|i a IHa|i| | |];
    intros st st' Hin; cbn [rmatch] in Hin.
  - destruct Hin as [<-|[]]. apply reaches_refl.
  - destruct (rest st) as [|c t] eqn:E; [destruct Hin|].
    destruct (p c); [|destruct Hin]. destruct Hin as [<-|[]].
    exists (String c EmptyString). rewrite E. reflexivity.
  - destruct (eat ic l (prev st) (rest st)) as [[pv t]|] eqn:E; [|destruct Hin].
    destruct Hin as [<-|[]]. apply eat_reaches in E as [w E]. exists w. exact E.
  - apply in_flat_map in Hin as (st1 & H1 & H2).
    eapply reaches_trans; [apply IHa, H1 | apply IHb, H2].
  - apply in_app_or in Hin as [Hin|Hin]; auto.
  - eapply star_iter_reaches; [exact IHa | exact Hin].
  - apply in_map_iff in Hin as (st1 & <- & H1). apply IHa in H1 as [w Hw].
    exists w. exact Hw.
  - destruct (cap i (caps st)) as [l|]; [|destruct Hin].
    destruct (eat ic l (prev st) (rest st)) as [[pv t]|] eqn:E; [|destruct Hin].
    destruct Hin as [<-|[]]. apply eat_reaches in E as [w E]. exists w. exact E.
  - destruct (prev st); [destruct Hin|]. destruct Hin as [<-|[]]. apply reaches_refl.
  - destruct (rest st) as [|c [|c' t]];
      repeat match goal with
             | H : In _ (match ?x with _ => _ end) |- _ => destruct x
             | H : In _ (if ?x then _ else _) |- _ => destruct x
             end;
      try (destruct Hin as [<-|[]]; apply reaches_refl); try destruct Hin.
  - destruct (xorb _ _); [|destruct Hin]. destruct Hin as [<-|[]]. apply reaches_refl.
Qed.

Lemma needs_lit l : needs l (Lit l).
Proof.
  intros st st' Hin. cbn [rmatch] in Hin.
  destruct (eat true l (prev st) (rest st)) as [[pv t]|] eqn:E; [|destruct Hin].
  apply eat_inv in E as (l' & E & _ & Hl & _).
  exists EmptyString, l', t. split; [exact E | exact Hl].
Qed.

Lemma needs_seq_l l a b : needs l a → needs l (Seq a b).
Proof.
  intros Ha st st' Hin. cbn [rmatch] in Hin.
  apply in_flat_map in Hin as (st1 & H1 & _). eapply Ha, H1.
Qed.

Lemma needs_seq_r l a b : needs l b → needs l (Seq a b).
Proof.
  intros Hb st st' Hin. cbn [rmatch] in Hin.
  apply in_flat_map in Hin as (st1 & H1 & H2).
  apply rmatch_reaches in H1 as [w Hw].
  apply Hb in H2 as (x & l' & y & E & Hl).
  exists (w +:+ x), l', y. split; [|exact Hl].
  rewrite Hw, E, app_assoc. reflexivity.
Qed.

Lemma needs_group l i a : needs l a → needs l (Group i a).
Proof.
  intros Ha st st' Hin. cbn [rmatch] in Hin.
  apply in_map_iff in Hin as (st1 & _ & H1). eapply Ha, H1.
Qed.



(** ** The condition translator *)

Ltac by_clauses eq1 H2 :=
  rewrite eq1;
  match goal with
  | |- ?f ?cond ?ve ?st (inspect ?x) = match ?x with Some _ => _ | None => ?nb end =>
      let H1 := fresh "H1" in
      assert (H1 : ∀ o (e : x = o),
                 f cond ve st (exist _ o e)
                 = match o with Some result => result | None => nb end);
      [ intros [r|] e; simpl; [reflexivity | apply H2] | apply H1 ]
  end.

(** The fixed-point equation of the fourth script's translator. *)
Lemma v4_translate_unfold cond var_expr st :
  V4.translate_condition_to_liquid cond var_expr st =
  match V4.translate_forms (Py.strip cond) var_expr (V4.note_vars (Py.strip cond) st) with
  | Some result => result
  | None =>
      if V4.is_elseif (Py.strip cond) then
        V4.as_elseif
          (V4.translate_condition_to_liquid
             (Py.strip (Py.drop 7 (Py.strip cond))) var_expr
             (V4.note_vars (Py.strip cond) st))
      else ("<!-- Untranslated condition: " +:+ cond +:+ " -->",
            V4.note_vars (Py.strip cond) st)
  end.
Proof.
  assert (H2 : ∀ (b : bool) (e' : V4.is_elseif (Py.strip cond) = b) e,
    V4.translate_condition_to_liquid_unfold_clause_1_clause_2 cond (exist _ b e') var_expr st e
    = if b then
        V4.as_elseif
          (V4.translate_condition_to_liquid
             (Py.strip (Py.drop 7 (Py.strip cond))) var_expr
             (V4.note_vars (Py.strip cond) st))
      else ("<!-- Untranslated condition: " +:+ cond +:+ " -->",
            V4.note_vars (Py.strip cond) st))
    by (intros [|] e' e; reflexivity).
  by_clauses V4.translate_condition_to_liquid_equation_1 H2.
Qed.

(** The fixed-point equation of the third script's translator. *)
Lemma v3_translate_unfold cond var_expr st :
  V3.translate_condition_to_liquid cond var_expr st =
  match V3.translate_forms (Py.strip cond) var_expr (V3.note_vars (Py.strip cond) st) with
  | Some result => result
  | None =>
      if V3.is_elseif (Py.strip cond) then
        V3.as_elseif
          (V3.translate_condition_to_liquid
             (Py.strip (Py.drop 7 (Py.strip cond))) var_expr
             (V3.note_vars (Py.strip cond) st))
      else ("<!-- Untranslated condition: " +:+ cond +:+ " -->",
            V3.note_vars (Py.strip cond) st)
  end.
Proof.
  assert (H2 : ∀ (b : bool) (e' : V3.is_elseif (Py.strip cond) = b) e,
    V3.translate_condition_to_liquid_unfold_clause_1_clause_2 cond (exist _ b e') var_expr st e
    = if b then
        V3.as_elseif
          (V3.translate_condition_to_liquid
             (Py.strip (Py.drop 7 (Py.strip cond))) var_expr
             (V3.note_vars (Py.strip cond) st))
      else ("<!-- Untranslated condition: " +:+ cond +:+ " -->",
            V3.note_vars (Py.strip cond) st))
    by (intros [|] e' e; reflexivity).
  by_clauses V3.translate_condition_to_liquid_equation_1 H2.
Qed.

(** *** Lengths of trimmed and cut texts *)

Lemma length_lstrip s : String.length (Py.lstrip s) ≤ String.length s.
Proof. induction s as [|c s IH]; simpl; [lia|]. destruct (Chr.is_space c); simpl; lia. Qed.

Lemma length_rstrip s : String.length (Py.rstrip s) ≤ String.length s.
Proof.
  induction s as [|c s IH]; simpl; [lia|].
  destruct (Py.rstrip s); destruct (Chr.is_space c); simpl in *; lia.
Qed.

Lemma length_strip s : String.length (Py.strip s) ≤ String.length s.
Proof. unfold Py.strip. etrans; [apply length_rstrip | apply length_lstrip]. Qed.

Lemma length_drop n s : String.length (Py.drop n s) = String.length s - n.
Proof. revert s; induction n as [|n IH]; intros [|c s]; simpl; auto. Qed.

Lemma length_lower s : String.length (Py.lower s) = String.length s.
Proof. induction s as [|c s IH]; simpl; auto. Qed.

Lemma prefix_length p s : String.prefix p s = true → String.length p ≤ String.length s.
Proof.
  revert s; induction p as [|a p IH]; intros [|c s]; simpl; try lia; try discriminate.
  destruct (ascii_dec a c); [|discriminate]. intros H. apply IH in H. lia.
Qed.

(** The text that follows the keyword is shorter than the condition. *)
Lemma elseif_inner_shorter cond :
  V4.is_elseif (Py.strip cond) = true →
  String.length (Py.strip (Py.drop 7 (Py.strip cond))) < String.length cond.
Proof.
  intros H. unfold V4.is_elseif, Py.startswith in H. apply prefix_length in H.
  rewrite length_lower in H. simpl in H.
  pose proof (length_strip (Py.drop 7 (Py.strip cond))) as H1.
  rewrite length_drop in H1. pose proof (length_strip cond). lia.
Qed.

(** C10. The condition translators of the two scripts are the same function:
    on every condition, mapping and state of the warnings they return the
    same text and the same final state, that is, the same appends to
    [warnings] and the same insertions into [covered_vars]. *)
Theorem translate_v3_equals_v4 (cond : string) (var_expr : gmap string string)
  (st : tstate) :
  V3.translate_condition_to_liquid cond var_expr st
  = V4.translate_condition_to_liquid cond var_expr st.
Proof.
  remember (String.length cond) as n eqn:Hn.
  revert cond st Hn.
  induction n as [n IH] using lt_wf_ind; intros cond st Hn.
  rewrite v3_translate_unfold, v4_translate_unfold.
  change (V3.translate_forms (Py.strip cond) var_expr (V3.note_vars (Py.strip cond) st))
    with (V4.translate_forms (Py.strip cond) var_expr (V4.note_vars (Py.strip cond) st)).
  destruct (V4.translate_forms _ _ _) as [r|]; [reflexivity|].
  change (V3.is_elseif (Py.strip cond)) with (V4.is_elseif (Py.strip cond)).
  destruct (V4.is_elseif (Py.strip cond)) eqn:He; [|reflexivity].
  apply elseif_inner_shorter in He.
  change (V3.note_vars (Py.strip cond) st) with (V4.note_vars (Py.strip cond) st).
  rewrite (IH (String.length (Py.strip (Py.drop 7 (Py.strip cond))))) by (subst; auto).
  reflexivity.
Qed.

(** *** The covered set only grows *)

Lemma note_var_covered st v : covered_vars (V4.note_var st v) = covered_vars st.
Proof. unfold V4.note_var. destruct (_ && _); reflexivity. Qed.

Lemma note_vars_covered cond_l st :
  covered_vars (V4.note_vars cond_l st) = covered_vars st.
Proof.
  unfold V4.note_vars. generalize (findall1 true var_ref cond_l) as vs.
  intros vs; revert st; induction vs as [|v vs IH]; intros st; simpl; [reflexivity|].
  rewrite IH. apply note_var_covered.
Qed.

Lemma learn_expr_covered var_expr var_name st :
  covered_vars st ⊆ covered_vars (V4.learn_expr var_expr var_name st).2.
Proof. unfold V4.learn_expr. case_bool_decide; simpl; set_solver. Qed.

Lemma translate_forms_covered cond_l var_expr st r :
  V4.translate_forms cond_l var_expr st = Some r →
  covered_vars st ⊆ covered_vars r.2.
Proof.
  unfold V4.translate_forms. intros H.
  repeat match type of H with
  | match search ?ic ?p ?s with _ => _ end = _ => destruct (search ic p s)
  end; try discriminate;
  match type of H with
  | context [V4.learn_expr ?ve ?v ?st] =>
      pose proof (learn_expr_covered ve v st) as Hc;
      destruct (V4.learn_expr ve v st) as [e st']
  end; inversion H; subst; exact Hc.
Qed.

Lemma translate_covered cond var_expr st :
  covered_vars st ⊆ covered_vars (V4.translate_condition_to_liquid cond var_expr st).2.
Proof.
  remember (String.length cond) as n eqn:Hn.
  revert cond st Hn.
  induction n as [n IH] using lt_wf_ind; intros cond st Hn.
  rewrite v4_translate_unfold.
  destruct (V4.translate_forms _ _ _) as [r|] eqn:Hf.
  - apply translate_forms_covered in Hf. rewrite note_vars_covered in Hf. exact Hf.
  - destruct (V4.is_elseif (Py.strip cond)) eqn:He; simpl.
    + apply elseif_inner_shorter in He.
      etrans; [|eapply (IH _ ltac:(subst; exact He)); reflexivity].
      rewrite note_vars_covered. reflexivity.
    + rewrite note_vars_covered. reflexivity.
Qed.

Lemma repl_covered var_expr m st :
  covered_vars st ⊆ covered_vars (V4.repl var_expr m st).2.
Proof.
  unfold V4.repl.
  pose proof (translate_covered (Py.strip (group_or_empty m 1)) var_expr st) as H.
  destruct (V4.translate_condition_to_liquid _ _ _) as [cond_liquid st'].
  repeat match goal with |- context [if ?b then _ else _] => destruct b end; exact H.
Qed.

Lemma sub_segs_covered (f : re_match → tstate → string * tstate) :
  (∀ m st, covered_vars st ⊆ covered_vars (f m st).2) →
  ∀ l st, covered_vars st ⊆ covered_vars (sub_segs f l st).2.
Proof.
  intros Hf l; induction l as [|[c|m] l IH]; intros st; simpl.
  - reflexivity.
  - specialize (IH st). destruct (sub_segs f l st); exact IH.
  - specialize (Hf m st). destruct (f m st) as [x st1].
    specialize (IH st1). destruct (sub_segs f l st1). simpl in *. set_solver.
Qed.

Lemma learn_var_covered ajo expr single acc var :
  acc.2 ⊆ (V4.learn_var ajo expr single acc var).2.
Proof.
  unfold V4.learn_var. destruct acc as [ve cov].
  repeat match goal with |- context [if ?b then _ else _] => destruct b end;
    simpl; set_solver.
Qed.

Lemma learn_vars_covered ajo expr single vars acc :
  acc.2 ⊆ (foldl (V4.learn_var ajo expr single) acc vars).2.
Proof.
  revert acc; induction vars as [|x l IH]; intros acc; simpl; [reflexivity|].
  etrans; [|apply IH]. apply learn_var_covered.
Qed.

Lemma learn_row_covered acc r : acc.2 ⊆ (V4.learn_row acc r).2.
Proof.
  unfold V4.learn_row.
  destruct (findall1 false var_ref (SFMC r)) as [|v vs]; [reflexivity|].
  apply learn_vars_covered.
Qed.

(** C8. The covered set grows monotonically.  Whatever the condition, the
    mapping and the state of the warnings, the covered set after a call of
    the condition translator contains the covered set before it; the same
    holds for the conversion of a whole document, which is the only pass
    that calls the translator, and for every row read by the mapping
    extraction, which is the only other place that writes the set. *)
Theorem covered_set_monotone (cond html_text : string)
  (var_expr : gmap string string) (st : tstate)
  (acc : gmap string string * gset string) (r : row) :
  covered_vars st ⊆ covered_vars (V4.translate_condition_to_liquid cond var_expr st).2
  ∧ covered_vars st ⊆ covered_vars (V4.convert_ampscript_if_blocks html_text var_expr st).2
  ∧ acc.2 ⊆ (V4.learn_row acc r).2.
Proof.
  split; [apply translate_covered|]. split; [|apply learn_row_covered].
  unfold V4.convert_ampscript_if_blocks, sub_st.
  apply sub_segs_covered. intros m st'. apply repl_covered.
Qed.


(** ** Literal replacements *)

(** On that row the pattern compiles and is found twice. *)
Lemma blank_target_example :
  V4.literal_step (λ _, None) (Some ("hello world, HELLOWORLD", 0, 0))
    (Row "Hello   World" " ")
  = Some ("hello world, HELLOWORLD", 2, 0).
Proof. vm_compute. reflexivity. Qed.

(** ** Mapping extraction *)

Lemma learn_vars_multi ajo expr vars acc :
  (foldl (V4.learn_var ajo expr false) acc vars).1 = acc.1.
Proof.
  revert acc; induction vars as [|x l IH]; intros acc; simpl; [reflexivity|].
  rewrite IH. unfold V4.learn_var. destruct acc as [ve cov].
  rewrite andb_false_r.
  repeat match goal with |- context [if ?b then _ else _] => destruct b end; reflexivity.
Qed.

(** In the fourth script a row that names more than one variable (names
    compared in lower case) leaves the variable mapping as it was, whatever
    its target cell holds. *)
Lemma v4_ambiguous_row_adds_no_mapping (acc : gmap string string * gset string)
  (r : row) :
  size (V4.unique_vars (findall1 false var_ref (SFMC r))) ≠ 1 →
  (V4.learn_row acc r).1 = acc.1.
Proof.
  intros H. unfold V4.learn_row.
  destruct (findall1 false var_ref (SFMC r)) as [|v vs] eqn:E; [reflexivity|].
  apply Nat.eqb_neq in H. rewrite H. apply learn_vars_multi.
Qed.

Lemma v4_ambiguous_row_example :
  (V4.extract_var_expressions
     [Row "@The@PlanName" "{% let PlanLegalName = (profile.plan.name) %}"]).1 = ∅.
Proof. vm_compute. reflexivity. Qed.

(** C2, on the third script.  The row whose source is the article variable
    followed by the plan-name variable, with a clean binding declaration as
    target, gives both variables an entry in the variable mapping: the
    third script has no test on the number of variables of a row. *)
Theorem v3_two_variable_row_is_mapped :
  let var_expr :=
    (V3.extract_var_expressions
       [Row "@The@PlanName" "{% let PlanLegalName = (profile.plan.name) %}"]).1 in
  var_expr !! "the" = Some "PlanLegalName"
  ∧ var_expr !! "planname" = Some "PlanLegalName".
Proof. vm_compute. split; reflexivity. Qed.

(** ** Conversion of blocks *)

(** Once both prints are found somewhere in the then-branch, the result of
    [repl] does not depend on anything else the branch holds. *)
Lemma repl_article_case var_expr m st :
  V4.found true (Lit "%%=v(@the)=%%") (group_or_empty m 2) = true →
  V4.found true (Lit "%%=v(@planname)=%%") (group_or_empty m 2) = true →
  (V4.repl var_expr m st).1
  = (V4.translate_condition_to_liquid (Py.strip (group_or_empty m 1)) var_expr st).1
    +:+ V4.the_plan
    +:+ (if V4.nonblank (group_or_empty m 4)
         then "{% else %}" +:+ group_or_empty m 4 else "")
    +:+ "{%/if%}".
Proof.
  intros H1 H2. unfold V4.repl.
  destruct (V4.translate_condition_to_liquid _ _ _) as [cond_liquid st'].
  rewrite H1, H2. reflexivity.
Qed.

(** C1, on the code.  A block whose then-branch holds the print of the
    article variable immediately followed by the print of the plan-name
    variable, between other words, is converted to the opening tag, the
    conditional article construct and the closing tag: the words around the
    pair are lost.  The same happens when the two prints are apart. *)
Theorem article_case_drops_the_then_branch :
  (V4.convert_ampscript_if_blocks
     "%%[IF @x THEN]%%Dear %%=v(@the)=%%%%=v(@planName)=%% team%%[ENDIF]%%"
     ∅ (TState [] ∅)).1
  = "{% if x %}" +:+ V4.the_plan +:+ "{%/if%}"
  ∧ (V4.convert_ampscript_if_blocks
       "%%[IF @x THEN]%%%%=v(@planName)=%% and %%=v(@the)=%%%%[ENDIF]%%"
       ∅ (TState [] ∅)).1
    = "{% if x %}" +:+ V4.the_plan +:+ "{%/if%}".
Proof. vm_compute. split; reflexivity. Qed.

(** ** Prints *)


(** ** Commenting *)

(** C5, counterexample.  The attribute is at the start of the second line,
    so that its token is on line 2, and the fragment is recorded at line 1,
    the line of the white space before the attribute name. *)
Lemma attribute_recorded_at_line_of_leading_space :
  let doc := "<img" +:+ Py.newline +:+ "src='%%=v(@x)=%%'>" in
  Py.slice 10 21 doc = "%%=v(@x)=%%"
  ∧ V4.line_of doc 10 = 2
  ∧ (V4.neutralize_attributes doc).2 = [(1, "%%=v(@x)=%%")].
Proof. vm_compute. repeat split; reflexivity. Qed.

(** C6, counterexample.  A declaration whose expression holds a percent
    sign is a binding declaration for the mapping extraction, which reads
    its name, but the commenting pass does not hoist it: it stays inside
    the comment.  And a block that holds nothing but a declaration still
    gets a comment, for its delimiters. *)
Lemma declaration_with_percent_not_hoisted :
  V4.cell_expr "{% let x = a % b %}" = Some "x"
  ∧ V4.comment_ampscript_with_hoist "%%[ {% let x = a % b %} ]%%"
    = ("<!-- %%[ {% let x = a % b %} ]%% -->", [(1, "%%[ {% let x = a % b %} ]%%")])
  ∧ V4.comment_ampscript_with_hoist "%%[{% let y = 1 %}]%%"
    = ("{% let y = 1 %}<!-- %%[]%% -->", [(1, "%%[]%%")]).
Proof. vm_compute. repeat split; reflexivity. Qed.

(** ** The print pass on a token *)

Lemma is_word_not_paren c : Chr.is_word c = true → Chr.eqb_ci true ")" c = false.
Proof. by_cases_on c. Qed.



Lemma all_app_inv p a b : Py.all p (a +:+ b) = true → Py.all p a = true ∧ Py.all p b = true.
Proof. rewrite all_app. apply andb_true_iff. Qed.

Lemma print_sub_pos_free var_expr p p' t cs :
  V4.print_sub var_expr (Match p t cs) = V4.print_sub var_expr (Match p' t cs).
Proof. reflexivity. Qed.



(** ** Occurrences of a text *)

Lemma lower_app a b : Py.lower (a +:+ b) = Py.lower a +:+ Py.lower b.
Proof. induction a as [|x a IH]; [reflexivity|]. rewrite app_cons. simpl. rewrite IH. reflexivity. Qed.

Lemma prefix_app l t : String.prefix l (l +:+ t) = true.
Proof.
  induction l as [|a l IH]; [destruct t; reflexivity|].
  rewrite app_cons. simpl. destruct (ascii_dec a a); [exact IH | congruence].
Qed.

Lemma contains_prefix sub s : String.prefix sub s = true → Py.contains sub s = true.
Proof. intros H. destruct s; cbn [Py.contains]; rewrite H; reflexivity. Qed.

Lemma contains_cons sub c s : Py.contains sub s = true → Py.contains sub (String c s) = true.
Proof. intros H. cbn [Py.contains]. rewrite H. apply orb_true_r. Qed.

Lemma contains_app_r sub a b : Py.contains sub b = true → Py.contains sub (a +:+ b) = true.
Proof.
  intros H. induction a as [|x a IH]; [exact H|].
  rewrite app_cons. apply contains_cons, IH.
Qed.

Lemma contains_middle sub a b : Py.contains sub (a +:+ sub +:+ b) = true.
Proof. apply contains_app_r, contains_prefix, prefix_app. Qed.

Lemma contains_suffix sub a b : Py.contains sub (a +:+ b) = false → Py.contains sub b = false.
Proof.
  intros H. destruct (Py.contains sub b) eqn:E; [|reflexivity].
  rewrite (contains_app_r sub a b E) in H. discriminate.
Qed.

(** A pattern finds nothing in a text that lacks a literal it needs. *)
Lemma no_match_without l r pv s :
  needs l r → Py.contains (Py.lower l) (Py.lower s) = false →
  first_match true r (start_state pv s) Some = None.
Proof.
  intros Hneeds Hs. rewrite <- head_rmatch.
  destruct (rmatch true r (start_state pv s)) as [|st' rs] eqn:E; [reflexivity|].
  destruct (Hneeds (start_state pv s) st') as (a & l' & b & Ha & Hl).
  { rewrite E. left. reflexivity. }
  cbn [start_state rest] in Ha. subst s.
  rewrite !lower_app, Hl, contains_middle in Hs. discriminate.
Qed.

Lemma scan_nothing ic r s pos pv :
  (∀ a b pv', s = a +:+ b → first_match ic r (start_state pv' b) Some = None) →
  scan ic r 0 pos pv s = map Gap (list_ascii_of_string s).
Proof.
  intros H. rewrite <- (app_empty_r s) at 1. rewrite scan_gaps.
  - rewrite scan_end; [apply app_nil_r|]. apply (H s EmptyString). symmetry. apply app_empty_r.
  - intros a b -> _. rewrite app_empty_r. apply (H a b). reflexivity.
Qed.

Lemma sub_segs_gaps {S} (f : re_match → S → string * S) s σ :
  sub_segs f (map Gap (list_ascii_of_string s)) σ = (s, σ).
Proof.
  induction s as [|c s IH]; [reflexivity|].
  cbn [list_ascii_of_string map sub_segs]. rewrite IH. reflexivity.
Qed.



(** ** Texts with and without percent signs *)

Lemma app_eq_app (a1 a2 b1 b2 : string) :
  a1 +:+ a2 = b1 +:+ b2 →
  (∃ m, a1 = b1 +:+ m ∧ b2 = m +:+ a2) ∨ (∃ m, b1 = a1 +:+ m ∧ a2 = m +:+ b2).
Proof.
  revert b1; induction a1 as [|x a1 IH]; intros b1 H.
  - right. exists b1. split; [reflexivity | exact H].
  - destruct b1 as [|y b1].
    + left. exists (String x a1). split; [reflexivity | symmetry; exact H].
    + rewrite !app_cons in H. injection H as -> H.
      destruct (IH b1 H) as [(m & -> & ->)|(m & -> & ->)]; [left | right]; exists m; auto.
Qed.

(** A clean prefix of a text is passed before its first percent sign. *)
Lemma skip_clean p x t r :
  Py.all not_percent p = true →
  x +:+ String "%" t = p +:+ r →
  ∃ x', x = p +:+ x' ∧ x' +:+ String "%" t = r.
Proof.
  revert x; induction p as [|c p IH]; intros x Hp H.
  - exists x. split; [reflexivity | exact H].
  - cbn [Py.all] in Hp. apply andb_true_iff in Hp as [Hc Hp].
    destruct x as [|y x]; rewrite !app_cons in H.
    + rewrite app_empty_l in H. injection H as <- _. discriminate.
    + injection H as -> H. destruct (IH x Hp H) as (x' & -> & Hx').
      exists x'. split; [reflexivity | exact Hx'].
Qed.

Lemma clean_has_no_percent a t :
  Py.all not_percent (a +:+ String "%" t) = false.
Proof.
  induction a as [|c a IH]; [reflexivity|].
  rewrite app_cons. cbn [Py.all]. rewrite IH. apply andb_false_r.
Qed.

Lemma clean_suffix a b : Py.all not_percent (a +:+ b) = true → Py.all not_percent b = true.
Proof. intros H. apply all_app_inv in H. tauto. Qed.

(** Where a print opener can be in a text made of clean text around one
    bracketed block: only at the closer of the block, and then what
    follows it is clean. *)
Ltac norm_app H := rewrite ?app_cons, ?app_empty_l in H.

Lemma opener_only_at_closer pre body post x y :
  Py.all not_percent pre = true →
  Py.all not_percent post = true →
  Py.contains "%%=" body = false →
  pre +:+ "%%[" +:+ body +:+ "]%%" +:+ post = x +:+ "%%=" +:+ y →
  Py.all not_percent y = true.
Proof.
  intros Hpre Hpost Hbody H. symmetry in H.
  apply (skip_clean pre x) in H as (x1 & -> & H); [|exact Hpre].
  destruct x1 as [|c1 [|c2 [|c3 x4]]]; norm_app H; try discriminate H.
  injection H as -> -> -> H.
  apply app_eq_app in H as [(m & -> & H)|(m & Hb & H)].
  - (* the opener starts after the body *)
    destruct m as [|c1 [|c2 [|c3 m]]]; norm_app H; try discriminate H.
    + injection H as _ H. rewrite H in Hpost.
      cbn [Py.all] in Hpost. apply andb_true_iff in Hpost. tauto.
    + injection H as _ _ H. rewrite H in Hpost. discriminate.
    + injection H as _ _ _ H. rewrite H in Hpost.
      rewrite clean_has_no_percent in Hpost. discriminate.
  - (* the opener starts inside the body *)
    destruct m as [|c1 [|c2 [|c3 m]]]; norm_app H; try discriminate H.
    injection H as E1 E2 E3 H. subst c1 c2 c3 body.
    pose proof (contains_middle "%%=" x4 m) as Hin. norm_app Hin.
    congruence.
Qed.

(** ** The neutralisation of attributes, where there is nothing to do *)

Lemma hits_gaps l rest : hits (map Gap l ++ rest) = hits rest.
Proof. induction l as [|c l IH]; [reflexivity | exact IH]. Qed.

Lemma hits_only_gaps l : hits (map Gap l) = [].
Proof. rewrite <- (app_nil_r (map Gap l)). apply hits_gaps. Qed.

Lemma in_rmatch_seq ic a b st st' :
  In st' (rmatch ic (Seq a b) st) →
  ∃ st1, In st1 (rmatch ic a st) ∧ In st' (rmatch ic b st1).
Proof. intros H. cbn [rmatch] in H. apply in_flat_map in H. exact H. Qed.

Lemma in_rmatch_group ic i a st st' :
  In st' (rmatch ic (Group i a) st) → ∃ st1, In st1 (rmatch ic a st) ∧ rest st' = rest st1.
Proof.
  intros H. cbn [rmatch] in H. apply in_map_iff in H as (st1 & <- & H1).
  exists st1. split; [exact H1 | reflexivity].
Qed.

Lemma in_rmatch_lit ic l st st' :
  In st' (rmatch ic (Lit l) st) →
  ∃ l', rest st = l' +:+ rest st' ∧ (if ic then Py.lower l' = Py.lower l else l' = l).
Proof.
  intros H. cbn [rmatch] in H.
  destruct (eat ic l (prev st) (rest st)) as [[pv t]|] eqn:E; [|destruct H].
  destruct H as [<-|[]]. apply eat_inv in E as (l' & E & _ & Hl & _).
  exists l'. split; [exact E | exact Hl].
Qed.

(** What [attr_token_re] reads holds a print opener and, after it, a
    print closer. *)
Lemma attr_token_shape st st' :
  In st' (rmatch false V4.attr_token_re st) →
  ∃ u w z, rest st = u +:+ "%%=" +:+ w +:+ "=%%" +:+ z.
Proof.
  unfold V4.attr_token_re. cbn [seqs]. intros Hin.
  apply in_rmatch_seq in Hin as (st1 & H1 & Hin).
  apply in_rmatch_seq in Hin as (st2 & H2 & Hin).
  apply in_rmatch_seq in Hin as (st3 & H3 & _).
  apply in_rmatch_group in H3 as (st4 & H3 & _).
  apply in_rmatch_seq in H3 as (sa & Ha & H3).
  apply in_rmatch_seq in H3 as (sb & Hb & Hc).
  apply rmatch_reaches in H1 as [w1 E1].
  apply rmatch_reaches in H2 as [w2 E2].
  apply rmatch_reaches in Hb as [w Eb].
  apply in_rmatch_lit in Ha as (la & Ea & ->).
  apply in_rmatch_lit in Hc as (lc & Ec & ->).
  exists (w1 +:+ w2), w, (rest st4).
  rewrite E1, E2, Ea, Eb, Ec, !app_assoc. reflexivity.
Qed.

(** A text made of clean text around one bracketed block without a print
    opener holds no attribute to neutralise. *)
Lemma no_attribute_token pre body post :
  Py.all not_percent pre = true →
  Py.all not_percent post = true →
  Py.contains "%%=" body = false →
  finditer false V4.attr_token_re (pre +:+ "%%[" +:+ body +:+ "]%%" +:+ post) = [].
Proof.
  intros Hpre Hpost Hbody. unfold finditer, segments.
  rewrite scan_nothing; [apply hits_only_gaps|].
  intros a b pv' E. rewrite <- head_rmatch.
  destruct (rmatch false V4.attr_token_re (start_state pv' b)) as [|st' l] eqn:Er;
    [reflexivity|].
  destruct (attr_token_shape (start_state pv' b) st') as (u & w & z & Eb).
  { rewrite Er. left. reflexivity. }
  cbn [start_state rest] in Eb. subst b.
  assert (E' : pre +:+ "%%[" +:+ body +:+ "]%%" +:+ post
               = (a +:+ u) +:+ "%%=" +:+ (w +:+ "=%%" +:+ z))
    by (rewrite E, app_assoc; reflexivity).
  apply opener_only_at_closer in E'; [|assumption..].
  rewrite all_app in E'. apply andb_true_iff in E' as [_ E']. discriminate E'.
Qed.

Lemma neutralize_nothing pre body post :
  Py.all not_percent pre = true →
  Py.all not_percent post = true →
  Py.contains "%%=" body = false →
  V4.neutralize_attributes (pre +:+ "%%[" +:+ body +:+ "]%%" +:+ post)
  = (pre +:+ "%%[" +:+ body +:+ "]%%" +:+ post, []).
Proof.
  intros Hpre Hpost Hbody. unfold V4.neutralize_attributes.
  rewrite no_attribute_token by assumption.
  cbn [foldl app Py.join fold_right Py.drop]. rewrite app_empty_r. reflexivity.
Qed.

(** ** Where a literal can start *)

Lemma prefix_cons a l b s :
  String.prefix (String a l) (String b s) = (a =? b)%char && String.prefix l s.
Proof.
  cbn [String.prefix]. destruct (ascii_dec a b) as [->|Hne].
  - rewrite Ascii.eqb_refl. reflexivity.
  - apply Ascii.eqb_neq in Hne. rewrite Hne. reflexivity.
Qed.

(** A literal read without regard to case is, in lower case, a prefix
    of the text in lower case. *)
Lemma eat_prefix_lower l pv s pv' t :
  eat true l pv s = Some (pv', t) → String.prefix (Py.lower l) (Py.lower s) = true.
Proof.
  intros (l' & -> & _ & Hl & _)%eat_inv.
  rewrite lower_app, Hl. apply prefix_app.
Qed.

(** A literal that starts in a text and goes on beyond a character it
    does not hold is altogether inside the text. *)
Lemma prefix_straddle l b c r :
  Py.all (λ a, negb (a =? c)%char) l = true →
  String.prefix l (b +:+ String c r) = true → String.prefix l b = true.
Proof.
  revert b; induction l as [|a l IH]; intros b Hl H; [destruct b; reflexivity|].
  cbn [Py.all] in Hl. apply andb_true_iff in Hl as [Ha Hl].
  destruct b as [|x b].
  - rewrite app_empty_l, prefix_cons in H. apply andb_true_iff in H as [H _].
    rewrite H in Ha. discriminate.
  - rewrite app_cons, prefix_cons in H. rewrite prefix_cons.
    apply andb_true_iff in H as [-> H]. apply IH; assumption.
Qed.

Lemma prefix_straddle_end l b : String.prefix l (b +:+ EmptyString) = String.prefix l b.
Proof. rewrite app_empty_r. reflexivity. Qed.

(** No script element starts in a text that does not hold its opener and
    stops at a percent sign or at the end. *)
Lemma no_script_start a b r pv :
  Py.contains "<script" (Py.lower (a +:+ b)) = false →
  clean_stop r →
  eat true "<script" pv (b +:+ r) = None.
Proof.
  intros Hc Hr. destruct (eat true "<script" pv (b +:+ r)) as [[pv' t]|] eqn:E;
    [|reflexivity].
  apply eat_prefix_lower in E. rewrite lower_app in E, Hc.
  apply contains_suffix in Hc.
  assert (Hp : String.prefix "<script" (Py.lower b) = true).
  { destruct Hr as [->|[t' ->]].
    - rewrite prefix_straddle_end in E. exact E.
    - apply (prefix_straddle _ _ "%" (Py.lower t')); [reflexivity | exact E]. }
  apply contains_prefix in Hp. congruence.
Qed.

(** The head of a clean text is no percent sign. *)
Lemma clean_head c t : Py.all not_percent (String c t) = true → (c =? "%")%char = false.
Proof.
  cbn [Py.all]. intros [H _]%andb_true_iff. unfold not_percent in H.
  apply negb_true_iff in H. exact H.
Qed.

(** ** The pattern of the fragments, in and around one bracketed block *)

(** No fragment starts at a character of a clean text without the opener
    of a script element. *)
Lemma block_re_not_in_clean a b r pv :
  Py.all not_percent (a +:+ b) = true →
  Py.contains "<script" (Py.lower (a +:+ b)) = false →
  clean_stop r → b ≠ EmptyString →
  first_match true V4.block_re (start_state pv (b +:+ r)) Some = None.
Proof.
  intros Hclean Hscript Hr Hb.
  destruct b as [|c b]; [congruence|].
  apply clean_suffix, clean_head in Hclean.
  assert (Hpc : Chr.eqb_ci true "%" c = false) by (rewrite eqb_ci_percent; exact Hclean).
  unfold V4.block_re. cbn [seqs].
  rewrite first_match_group, !first_match_alt, !first_match_seq, !first_match_lit.
  cbn [start_state prev rest].
  rewrite (no_script_start a (String c b) r pv Hscript Hr).
  rewrite app_cons, !eat_head_differs by exact Hpc. reflexivity.
Qed.

Lemma span_any s : Py.span any s = String.length s.
Proof. induction s as [|c s IH]; [reflexivity|]. cbn [Py.span any String.length]. rewrite IH. reflexivity. Qed.

(** A position inside a text cuts it in two. *)
Lemma advance_inside j a b pv cs :
  j < String.length a →
  ∃ c a2, advance j (MState pv (a +:+ b) cs)
          = MState (Py.last_or pv (Py.take j a)) (String c a2 +:+ b) cs
          ∧ Py.drop j a = String c a2.
Proof.
  revert a pv; induction j as [|j IH]; intros [|x a] pv Hj; simpl in Hj; try lia.
  - exists x, a. rewrite advance_0. split; reflexivity.
  - destruct (IH a (Some x)) as (c & a2 & E & Ed); [lia|].
    exists c, a2. rewrite app_cons, advance_S, E. split; [reflexivity | exact Ed].
Qed.

Lemma drop_suffix j a : ∃ u, a = u +:+ Py.drop j a.
Proof.
  revert a; induction j as [|j IH]; intros a.
  - exists EmptyString. reflexivity.
  - destruct a as [|x a]; [exists EmptyString; reflexivity|].
    destruct (IH a) as [u Hu]. exists (String x u). rewrite app_cons. cbn [Py.drop].
    rewrite <- Hu. reflexivity.
Qed.

(** The closer of a block does not start inside a body without a
    bracket followed by a percent sign. *)
Lemma no_closer_inside c a2 u r pv :
  Py.contains "]%" (u +:+ String c a2) = false →
  eat true "]%%" pv (String c a2 +:+ "]%%" +:+ r) = None.
Proof.
  intros H. apply contains_suffix in H.
  rewrite app_cons. cbn [eat].
  destruct (Chr.eqb_ci true "]" c) eqn:Ec; [|reflexivity].
  destruct a2 as [|c2 a2].
  - reflexivity.
  - rewrite app_cons. cbn [eat]. rewrite eqb_ci_percent.
    destruct (c2 =? "%")%char eqn:E2; [|reflexivity].
    apply Ascii.eqb_eq in E2. subst c2.
    assert (c = "]"%char) by (revert Ec; by_cases_on c).
    subst c. rewrite contains_prefix in H by (destruct a2; reflexivity). discriminate H.
Qed.

(** At a bracketed block whose body holds no bracket followed by a
    percent sign, the pattern reads the block to its closer. *)
Lemma block_re_at_block pv body r :
  Py.contains "]%" body = false →
  first_match true V4.block_re (start_state pv ("%%[" +:+ body +:+ "]%%" +:+ r)) Some
  = Some (MState (Some "%"%char) r [(1, "%%[" +:+ body +:+ "]%%")]).
Proof.
  intros Hbody. unfold V4.block_re, start_state. cbn [seqs].
  rewrite first_match_group, first_match_alt.
  rewrite first_match_seq, first_match_lit. cbn [prev rest].
  change (eat true "%%=" pv ("%%[" +:+ body +:+ "]%%" +:+ r)) with (@None (option ascii * string)).
  rewrite first_match_alt, first_match_seq, first_match_lit. cbn [prev rest caps].
  rewrite eat_same, first_match_seq. unfold dot.
  rewrite first_match_star_cls. cbn [rest].
  rewrite span_any.
  rewrite (first_some_lazy _ _ (String.length body)
             (with_group 1 (MState pv ("%%[" +:+ body +:+ "]%%" +:+ r) [])
                (MState (Some "%"%char) r []))).
  - unfold with_group. cbn [prev rest caps]. rewrite <- !app_assoc, consumed_app.
    rewrite !app_assoc. reflexivity.
  - rewrite length_app. lia.
  - intros j Hj. rewrite first_match_lit.
    destruct (advance_inside j body ("]%%" +:+ r) (Py.last_or pv "%%[") [] Hj)
      as (c & a2 & -> & Ed).
    cbn [prev rest]. destruct (drop_suffix j body) as [u Hu]. rewrite Ed in Hu.
    rewrite Hu in Hbody. rewrite (no_closer_inside c a2 u r _ Hbody). reflexivity.
  - rewrite advance_app, first_match_lit. cbn [prev rest caps].
    rewrite eat_same. reflexivity.
Qed.

(** ** The second loop on a text with one bracketed block *)

Lemma block_re_not_at_end pv :
  first_match true V4.block_re (start_state pv EmptyString) Some = None.
Proof.
  unfold V4.block_re. cbn [seqs].
  rewrite first_match_group, !first_match_alt, !first_match_seq, !first_match_lit.
  reflexivity.
Qed.

Lemma hits_hit m l : hits (Hit m :: l) = m :: hits l.
Proof. reflexivity. Qed.

Lemma finditer_one_block pre body post :
  Py.all not_percent pre = true → Py.all not_percent post = true →
  Py.contains "<script" (Py.lower pre) = false →
  Py.contains "<script" (Py.lower post) = false →
  Py.contains "]%" body = false →
  finditer true V4.block_re (pre +:+ "%%[" +:+ body +:+ "]%%" +:+ post)
  = [Match (String.length pre) ("%%[" +:+ body +:+ "]%%")
       [(1, "%%[" +:+ body +:+ "]%%")]].
Proof.
  intros Hpre Hpost Hspre Hspost Hbody. unfold finditer, segments.
  rewrite scan_gaps.
  - rewrite hits_gaps.
    assert (E : "%%[" +:+ body +:+ "]%%" +:+ post
                = String "%" ("%[" +:+ body +:+ "]%%") +:+ post)
      by (rewrite !app_cons, app_empty_l, !app_assoc; reflexivity).
    rewrite E.
    rewrite (scan_hit true V4.block_re _ _ _ _ _
               (MState (Some "%"%char) post [(1, "%%[" +:+ body +:+ "]%%")])).
    + rewrite scan_nothing.
      * rewrite hits_hit, hits_only_gaps. reflexivity.
      * intros a b pv' ->. destruct b as [|c b]; [apply block_re_not_at_end|].
        rewrite <- (app_empty_r (String c b)).
        apply (block_re_not_in_clean a); [assumption.. | left; reflexivity | discriminate].
    + rewrite <- E. apply block_re_at_block, Hbody.
    + reflexivity.
  - intros a b -> Hb.
    apply (block_re_not_in_clean a); [assumption.. | right; eauto | exact Hb].
Qed.

Lemma join_app l1 l2 : Py.join (l1 ++ l2) = Py.join l1 +:+ Py.join l2.
Proof.
  induction l1 as [|x l1 IH]; [reflexivity|].
  cbn [app Py.join fold_right]. fold (Py.join (l1 ++ l2)). fold (Py.join l1).
  rewrite IH, app_assoc. reflexivity.
Qed.

Lemma join_one s : Py.join [s] = s.
Proof. apply app_empty_r. Qed.

Lemma drop_add a n s : Py.drop (String.length a + n) (a +:+ s) = Py.drop n s.
Proof. induction a as [|x a IH]; [reflexivity|]. rewrite app_cons. exact IH. Qed.

(** On a text made of clean text around one bracketed block, the second
    loop copies the text before the block, puts the declarations found in
    the block, then the comment with the rest of the block if the rest is
    not blank, and copies the text after the block. *)
Lemma comment_blocks_one pre body post commented :
  Py.all not_percent pre = true → Py.all not_percent post = true →
  Py.contains "<script" (Py.lower pre) = false →
  Py.contains "<script" (Py.lower post) = false →
  Py.contains "]%" body = false →
  V4.comment_blocks (pre +:+ "%%[" +:+ body +:+ "]%%" +:+ post) commented
  = let full := "%%[" +:+ body +:+ "]%%" in
    let lets := findall0 true V4.hoist_let_re full in
    let cleaned := sub true V4.hoist_let_re (λ _, EmptyString) full in
    if V4.nonblank cleaned
    then (pre +:+ Py.join lets +:+ "<!-- " +:+ cleaned +:+ " -->" +:+ post,
          commented ++ [(V4.find_line (pre +:+ "%%[" +:+ body +:+ "]%%" +:+ post)
                           (String.length pre),
                         Py.strip cleaned)])
    else (pre +:+ Py.join lets +:+ post, commented).
Proof.
  intros Hpre Hpost Hspre Hspost Hbody. unfold V4.comment_blocks.
  rewrite finditer_one_block by assumption.
  cbn [foldl V4.block_step m_start]. 
  change (group_or_empty _ 1) with ("%%[" +:+ body +:+ "]%%").
  change (Py.startswith "%%=" ("%%[" +:+ body +:+ "]%%")) with false. cbv iota.
  assert (Hstart : Py.startswith "%%[" (Py.lower ("%%[" +:+ body +:+ "]%%")) = true).
  { rewrite lower_app. apply prefix_app. }
  rewrite Hstart. cbn [orb]. cbv zeta.
  assert (Hslice : Py.slice 0 (String.length pre)
                     (pre +:+ "%%[" +:+ body +:+ "]%%" +:+ post) = pre).
  { unfold Py.slice. rewrite Nat.sub_0_r. apply take_app. }
  assert (Hdrop : Py.drop (m_end (Match (String.length pre) ("%%[" +:+ body +:+ "]%%")
                                    [(1, "%%[" +:+ body +:+ "]%%")]))
                    (pre +:+ "%%[" +:+ body +:+ "]%%" +:+ post) = post).
  { unfold m_end. cbn [m_start m_text]. rewrite drop_add.
    replace ("%%[" +:+ body +:+ "]%%" +:+ post)
      with (("%%[" +:+ body +:+ "]%%") +:+ post) by (rewrite !app_assoc; reflexivity).
    apply drop_app. }
  destruct (V4.nonblank _); rewrite Hslice, Hdrop, !join_app, !join_one;
    cbn [app Py.join fold_right]; rewrite ?app_empty_l, ?app_assoc; reflexivity.
Qed.

(** ** Declarations inside a fragment *)

Lemma lower_brace c : Chr.lower c = "{"%char → c = "{"%char.
Proof. by_cases_on c. Qed.

Lemma prefix_empty s : String.prefix EmptyString s = true.
Proof. destruct s; reflexivity. Qed.

(** The opener of a declaration, read without regard to case, is the
    opener itself. *)
Lemma eat_let_opener pv s pv' t :
  eat true "{%" pv s = Some (pv', t) → String.prefix "{%" s = true.
Proof.
  intros (l' & -> & _ & Hl & _)%eat_inv.
  destruct l' as [|c1 [|c2 [|c3 l']]]; try discriminate Hl.
  cbn [Py.lower] in Hl. injection Hl as H1 H2.
  apply lower_brace in H1. apply lower_percent in H2. subst c1 c2.
  rewrite !app_cons, !prefix_cons, !Ascii.eqb_refl. apply prefix_empty.
Qed.

Lemma hoist_needs_opener pv s :
  String.prefix "{%" s = false →
  first_match true V4.hoist_let_re (start_state pv s) Some = None.
Proof.
  intros H. unfold V4.hoist_let_re. cbn [seqs].
  rewrite first_match_seq, first_match_lit. cbn [start_state prev rest].
  destruct (eat true "{%" pv s) as [[pv' t]|] eqn:E; [|reflexivity].
  apply eat_let_opener in E. congruence.
Qed.

Lemma contains_no_prefix sub a b :
  Py.contains sub (a +:+ b) = false → String.prefix sub b = false.
Proof.
  intros H%contains_suffix. destruct (String.prefix sub b) eqn:E; [|reflexivity].
  apply contains_prefix in E. congruence.
Qed.

(** In a text without the opener of a declaration there is nothing to
    hoist. *)
Lemma hoist_scan_nothing s pos pv :
  Py.contains "{%" s = false →
  scan true V4.hoist_let_re 0 pos pv s = map Gap (list_ascii_of_string s).
Proof.
  intros H. apply scan_nothing. intros a b pv' ->.
  apply hoist_needs_opener. apply (contains_no_prefix _ a), H.
Qed.

Lemma join_only_gaps f s : Py.join (seg_text f <$> map Gap (list_ascii_of_string s)) = s.
Proof.
  rewrite <- (app_nil_r (map Gap _)), join_gaps. apply app_empty_r.
Qed.


(** ** Occurrences of a pair of characters across a cut *)

Lemma pair_after x y a b :
  Py.all (λ c, negb (c =? x)%char) a = true →
  Py.contains (String x (String y EmptyString)) (a +:+ b)
  = Py.contains (String x (String y EmptyString)) b.
Proof.
  induction a as [|c a IH]; [reflexivity|].
  cbn [Py.all]. intros [Hc Ha]%andb_true_iff. rewrite app_cons.
  cbn [Py.contains]. rewrite prefix_cons.
  apply negb_true_iff in Hc. rewrite Ascii.eqb_sym, Hc. cbn [andb orb].
  rewrite <- IH by exact Ha. destruct (a +:+ b); reflexivity.
Qed.

Lemma contains_unfold sub c s :
  Py.contains sub (String c s) = String.prefix sub (String c s) || Py.contains sub s.
Proof. destruct s; reflexivity. Qed.

Lemma pair_before x y a b :
  String.prefix (String y EmptyString) b = false →
  Py.contains (String x (String y EmptyString)) b = false →
  Py.contains (String x (String y EmptyString)) (a +:+ b)
  = Py.contains (String x (String y EmptyString)) a.
Proof.
  intros Hy Hb. induction a as [|c a IH].
  - rewrite app_empty_l, Hb. reflexivity.
  - rewrite app_cons, !contains_unfold, IH. f_equal.
    rewrite !prefix_cons. destruct (x =? c)%char; [|reflexivity]. cbn [andb].
    destruct a as [|c' a].
    + rewrite app_empty_l, Hy. reflexivity.
    + rewrite app_cons, !prefix_cons, !prefix_empty. reflexivity.
Qed.


(** ** Blank and trimmed texts *)

Lemma rstrip_keeps a b :
  b ≠ EmptyString → Py.rstrip b = b → Py.rstrip (a +:+ b) = a +:+ b.
Proof.
  intros Hb Hr. induction a as [|c a IH]; [exact Hr|].
  rewrite app_cons. cbn [Py.rstrip]. rewrite IH.
  destruct (a +:+ b) eqn:E; [|reflexivity].
  destruct a; [|discriminate E]. rewrite app_empty_l in E. congruence.
Qed.

(** A bracketed block is its own trimmed text. *)
Lemma strip_block body :
  Py.strip ("%%[" +:+ body +:+ "]%%") = "%%[" +:+ body +:+ "]%%".
Proof.
  unfold Py.strip.
  change (Py.lstrip ("%%[" +:+ body +:+ "]%%")) with ("%%[" +:+ body +:+ "]%%").
  rewrite <- app_assoc. apply rstrip_keeps; [discriminate | reflexivity].
Qed.

Lemma nonblank_block body : V4.nonblank ("%%[" +:+ body +:+ "]%%") = true.
Proof. unfold V4.nonblank. rewrite strip_block. reflexivity. Qed.

(** ** A block without its closer *)




(** ** A declaration inside a block *)

Lemma lower_l_not_space c : Chr.lower c = "l"%char → Chr.is_space c = false.
Proof. by_cases_on c. Qed.

Lemma none_of_percent c : none_of ["%"%char] c = not_percent c.
Proof. unfold none_of, one_of, not_percent. cbn [existsb]. rewrite orb_false_r. reflexivity. Qed.

Lemma span_ext p q s : (∀ c, p c = q c) → Py.span p s = Py.span q s.
Proof.
  intros H. induction s as [|c s IH]; [reflexivity|].
  cbn [Py.span]. rewrite H, IH. reflexivity.
Qed.

Lemma span_stops p a c t :
  Py.all p a = true → p c = false → Py.span p (a +:+ String c t) = String.length a.
Proof.
  intros Ha Hc. rewrite span_all by exact Ha. cbn [Py.span]. rewrite Hc. lia.
Qed.

(** The pattern of the declarations, tried at a declaration whose
    expression starts with a character that is no white space and holds no
    percent sign, reads exactly the declaration. *)
Lemma hoist_let_at pv w0 kw s w1 x e r :
  Py.all Chr.is_space w0 = true →
  Py.lower kw = "let" →
  Py.all Chr.is_space (String s w1) = true →
  Chr.is_space x = false →
  Py.all not_percent (String x e) = true →
  first_match true V4.hoist_let_re
    (start_state pv ("{%" +:+ w0 +:+ kw +:+ String s w1 +:+ String x e +:+ "%}" +:+ r)) Some
  = Some (MState (Some "}"%char) r []).
Proof.
  intros Hw0 Hkw Hw1 Hx He.
  destruct kw as [|k1 [|k2 [|k3 [|k4 kw]]]]; try discriminate Hkw.
  assert (Hk1 : Chr.is_space k1 = false).
  { cbn [Py.lower] in Hkw. injection Hkw as H1 _ _. apply lower_l_not_space, H1. }
  cbn [Py.all] in Hw1, He.
  apply andb_true_iff in Hw1 as [Hs Hw1]. apply andb_true_iff in He as [Hxp He].
  unfold V4.hoist_let_re, start_state. cbn [seqs].
  rewrite first_match_seq, first_match_lit. cbn [prev rest caps].
  rewrite eat_same, first_match_seq. unfold spaces0, space.
  rewrite first_match_star_cls. cbn [rest].
  rewrite !(app_cons k1), (span_stops _ w0 k1) by assumption.
  apply first_some_greedy. rewrite advance_app.
  rewrite first_match_seq, first_match_lit. cbn [prev rest caps].
  rewrite <- !(app_cons k1).
  change (String k1 (String k2 (String k3 "" +:+ String s w1 +:+ String x e +:+ "%}" +:+ r)))
    with (String k1 (String k2 (String k3 "")) +:+ String s w1 +:+ String x e +:+ "%}" +:+ r).
  rewrite (eat_ci "let" (String k1 (String k2 (String k3 "")))) by exact Hkw.
  unfold spaces1, Plus, space.
  rewrite !first_match_seq, first_match_cls. cbn [rest caps].
  rewrite app_cons, Hs, first_match_star_cls. cbn [rest].
  rewrite !(app_cons x), (span_stops _ w1 x) by assumption.
  apply first_some_greedy. rewrite advance_app.
  rewrite !first_match_seq, first_match_cls. cbn [rest caps].
  rewrite none_of_percent, Hxp, first_match_star_cls. cbn [rest].
  rewrite (span_ext _ not_percent) by apply none_of_percent.
  change ("%}" +:+ r) with (String "%" ("}" +:+ r)).
  rewrite (span_stops _ e "%") by (assumption || reflexivity).
  apply first_some_greedy. rewrite advance_app, first_match_lit. cbn [prev rest caps].
  change (String "%" ("}" +:+ r)) with ("%}" +:+ r).
  rewrite eat_same. reflexivity.
Qed.

Lemma prefix_pair_cut x y b s :
  b ≠ EmptyString →
  String.prefix (String x (String y EmptyString)) b = false →
  String.prefix (String y EmptyString) s = false →
  String.prefix (String x (String y EmptyString)) (b +:+ s) = false.
Proof.
  intros Hb Hp Hs. destruct b as [|c [|c' b]]; [congruence| |].
  - rewrite app_cons, app_empty_l, prefix_cons, Hs. apply andb_false_r.
  - rewrite !app_cons, !prefix_cons, prefix_empty.
    rewrite !prefix_cons, prefix_empty in Hp. exact Hp.
Qed.

(** The scan of a block for declarations, when its body holds one
    declaration and no other opener of a declaration. *)
Lemma hoist_segments_one b1 b2 w0 kw s w1 x e :
  Py.all Chr.is_space w0 = true →
  Py.lower kw = "let" →
  Py.all Chr.is_space (String s w1) = true →
  Chr.is_space x = false →
  Py.all not_percent (String x e) = true →
  Py.contains "{%" b1 = false →
  Py.contains "{%" b2 = false →
  ∃ pos,
    segments true V4.hoist_let_re
      ("%%[" +:+ (b1 +:+ ("{%" +:+ w0 +:+ kw +:+ String s w1 +:+ String x e +:+ "%}") +:+ b2)
       +:+ "]%%")
    = map Gap (list_ascii_of_string ("%%[" +:+ b1))
      ++ Hit (Match pos ("{%" +:+ w0 +:+ kw +:+ String s w1 +:+ String x e +:+ "%}") [])
         :: map Gap (list_ascii_of_string (b2 +:+ "]%%")).
Proof.
  intros Hw0 Hkw Hw1 Hx He Hb1 Hb2.
  set (tail := "%" +:+ w0 +:+ kw +:+ String s w1 +:+ String x e +:+ "%}").
  change ("{%" +:+ w0 +:+ kw +:+ String s w1 +:+ String x e +:+ "%}") with (String "{" tail).
  assert (Hmatch : ∀ pv, first_match true V4.hoist_let_re
                     (start_state pv (String "{" tail +:+ b2 +:+ "]%%")) Some
                   = Some (MState (Some "}"%char) (b2 +:+ "]%%") [])).
  { intros pv. rewrite <- (hoist_let_at pv w0 kw s w1 x e (b2 +:+ "]%%")) by assumption.
    f_equal. f_equal. unfold tail.
    repeat (progress (rewrite ?app_assoc, ?app_cons, ?app_empty_l)). reflexivity. }
  assert (Hopen : Py.contains "{%" ("%%[" +:+ b1) = false)
    by (rewrite pair_after by reflexivity; exact Hb1).
  assert (Hclose : Py.contains "{%" (b2 +:+ "]%%") = false)
    by (rewrite pair_before by reflexivity; exact Hb2).
  exists (0 + String.length ("%%[" +:+ b1)). unfold segments.
  replace ("%%[" +:+ (b1 +:+ String "{" tail +:+ b2) +:+ "]%%")
    with (("%%[" +:+ b1) +:+ String "{" tail +:+ b2 +:+ "]%%")
    by (rewrite !app_assoc; reflexivity).
  rewrite scan_gaps.
  - f_equal.
    rewrite (scan_hit true V4.hoist_let_re _ _ _ _ _ _ (Hmatch _) eq_refl).
    cbn [caps]. f_equal. apply hoist_scan_nothing, Hclose.
  - intros a b E Hb. apply hoist_needs_opener, prefix_pair_cut.
    + exact Hb.
    + apply (contains_no_prefix _ a). rewrite <- E. exact Hopen.
    + reflexivity.
Qed.

Lemma hoist_one_declaration b1 b2 w0 kw s w1 x e :
  Py.all Chr.is_space w0 = true →
  Py.lower kw = "let" →
  Py.all Chr.is_space (String s w1) = true →
  Chr.is_space x = false →
  Py.all not_percent (String x e) = true →
  Py.contains "{%" b1 = false →
  Py.contains "{%" b2 = false →
  findall0 true V4.hoist_let_re
    ("%%[" +:+ (b1 +:+ ("{%" +:+ w0 +:+ kw +:+ String s w1 +:+ String x e +:+ "%}") +:+ b2)
     +:+ "]%%")
  = ["{%" +:+ w0 +:+ kw +:+ String s w1 +:+ String x e +:+ "%}"]
  ∧ sub true V4.hoist_let_re (λ _, EmptyString)
      ("%%[" +:+ (b1 +:+ ("{%" +:+ w0 +:+ kw +:+ String s w1 +:+ String x e +:+ "%}") +:+ b2)
       +:+ "]%%")
    = "%%[" +:+ (b1 +:+ b2) +:+ "]%%".
Proof.
  intros Hw0 Hkw Hw1 Hx He Hb1 Hb2.
  destruct (hoist_segments_one b1 b2 w0 kw s w1 x e) as [pos Hsegs]; try assumption.
  unfold findall0, finditer, sub. rewrite Hsegs. split.
  - rewrite hits_gaps, hits_hit, hits_only_gaps. reflexivity.
  - rewrite join_gaps, fmap_cons. cbn [seg_text Py.join fold_right].
    fold (Py.join (seg_text (λ _, EmptyString) <$> map Gap (list_ascii_of_string (b2 +:+ "]%%")))).
    rewrite join_only_gaps, app_empty_l, !app_assoc. reflexivity.
Qed.

(** ** Hoisting *)

(** The third script has no first loop; on a text with one bracketed
    block its loop does what the second loop of the fourth script does. *)
Lemma v3_comment_one pre body post :
  Py.all not_percent pre = true → Py.all not_percent post = true →
  Py.contains "<script" (Py.lower pre) = false →
  Py.contains "<script" (Py.lower post) = false →
  Py.contains "]%" body = false →
  V3.comment_ampscript_with_hoist (pre +:+ "%%[" +:+ body +:+ "]%%" +:+ post)
  = V4.comment_blocks (pre +:+ "%%[" +:+ body +:+ "]%%" +:+ post) [].
Proof.
  intros Hpre Hpost Hspre Hspost Hbody.
  unfold V3.comment_ampscript_with_hoist, V4.comment_blocks.
  change V3.block_re with V4.block_re.
  rewrite finditer_one_block by assumption.
  cbn [foldl V3.block_step V4.block_step m_start].
  change (group_or_empty _ 1) with ("%%[" +:+ body +:+ "]%%").
  change (Py.startswith "%%=" ("%%[" +:+ body +:+ "]%%")) with false. cbv iota.
  assert (Hstart : Py.startswith "%%[" (Py.lower ("%%[" +:+ body +:+ "]%%")) = true).
  { rewrite lower_app. apply prefix_app. }
  rewrite Hstart. cbn [orb]. cbv zeta.
  change V3.hoist_let_re with V4.hoist_let_re.
  change V3.nonblank with V4.nonblank.
  change V3.find_line with V4.find_line.
  destruct (V4.nonblank _); rewrite <- ?app_assoc; reflexivity.
Qed.

(** X1.  Take a document made of text without percent signs
    and without the opener of a script element, around one bracketed
    block whose body holds one binding declaration: the opener, white
    space or none, the keyword in any case, white space, an expression
    that starts with a character that is no white space and holds no
    percent sign, and the closer; let the body hold no other opener of a
    declaration, no print opener and no bracket followed by a percent
    sign.  Then the commenting pass of either script puts the
    declaration, character for character, just before an HTML comment
    that holds the block without the declaration, and records the block
    without the declaration with the line number that [find_line] gives
    for the index at which the block starts (which is the line of the
    block only as far as [find_line] counts lines; see X20).  The
    comment is there also when the body is nothing but the declaration:
    the delimiters of the block remain. *)
Theorem declaration_without_percent_is_hoisted
  (pre b1 b2 post w0 kw w1 e : string) (s x : ascii) :
  let decl := "{%" +:+ w0 +:+ kw +:+ String s w1 +:+ String x e +:+ "%}" in
  let doc := pre +:+ "%%[" +:+ (b1 +:+ decl +:+ b2) +:+ "]%%" +:+ post in
  let rest_of_block := "%%[" +:+ (b1 +:+ b2) +:+ "]%%" in
  Py.all not_percent pre = true → Py.all not_percent post = true →
  Py.contains "<script" (Py.lower pre) = false →
  Py.contains "<script" (Py.lower post) = false →
  Py.all Chr.is_space w0 = true →
  Py.lower kw = "let" →
  Py.all Chr.is_space (String s w1) = true →
  Chr.is_space x = false →
  Py.all not_percent (String x e) = true →
  Py.contains "{%" b1 = false → Py.contains "{%" b2 = false →
  Py.contains "%%=" (b1 +:+ decl +:+ b2) = false →
  Py.contains "]%" (b1 +:+ decl +:+ b2) = false →
  V4.comment_ampscript_with_hoist doc
  = (pre +:+ decl +:+ "<!-- " +:+ rest_of_block +:+ " -->" +:+ post,
     [(V4.find_line doc (String.length pre), rest_of_block)])
  ∧ V3.comment_ampscript_with_hoist doc
    = (pre +:+ decl +:+ "<!-- " +:+ rest_of_block +:+ " -->" +:+ post,
       [(V3.find_line doc (String.length pre), rest_of_block)]).
Proof.
  intros decl doc rest_of_block Hpre Hpost Hspre Hspost Hw0 Hkw Hw1 Hx He Hb1 Hb2
    Hprint Hclose.
  assert (Hblocks : V4.comment_blocks doc []
                    = (pre +:+ decl +:+ "<!-- " +:+ rest_of_block +:+ " -->" +:+ post,
                       [(V4.find_line doc (String.length pre), rest_of_block)])).
  { subst doc rest_of_block decl. rewrite comment_blocks_one by assumption. cbv zeta.
    destruct (hoist_one_declaration b1 b2 w0 kw s w1 x e) as [-> ->]; try assumption.
    rewrite nonblank_block, strip_block, join_one. reflexivity. }
  split.
  - unfold V4.comment_ampscript_with_hoist. subst doc.
    rewrite neutralize_nothing by assumption. exact Hblocks.
  - subst doc. rewrite v3_comment_one by assumption. exact Hblocks.
Qed.

Lemma declaration_is_hoisted_witness :
  V4.comment_ampscript_with_hoist
    "<div>%%[ SET @a = 1 {% LET planName = profile.plan.name %} ]%%</div>"
  = ("<div>{% LET planName = profile.plan.name %}<!-- %%[ SET @a = 1  ]%% --></div>",
     [(1, "%%[ SET @a = 1  ]%%")])
  ∧ V3.comment_ampscript_with_hoist
      "<div>%%[ SET @a = 1 {% LET planName = profile.plan.name %} ]%%</div>"
    = ("<div>{% LET planName = profile.plan.name %}<!-- %%[ SET @a = 1  ]%% --></div>",
       [(1, "%%[ SET @a = 1  ]%%")]).
Proof.
  apply (declaration_without_percent_is_hoisted "<div>" " SET @a = 1 " " " "</div>"
           " " "LET" "" "lanName = profile.plan.name " " " "p"); reflexivity.
Defined.

(** ** Runs of characters *)

(** A run of characters of a class is passed before the first character
    that is not of the class. *)
Lemma skip_run (p : ascii → bool) pfx x c t r :
  Py.all p pfx = true → p c = false →
  x +:+ String c t = pfx +:+ r →
  ∃ x', x = pfx +:+ x' ∧ x' +:+ String c t = r.
Proof.
  revert x; induction pfx as [|d pfx IH]; intros x Hp Hc H.
  - exists x. split; [reflexivity | exact H].
  - cbn [Py.all] in Hp. apply andb_true_iff in Hp as [Hd Hp].
    destruct x as [|y x]; rewrite !app_cons in H.
    + rewrite app_empty_l in H. injection H as <- _. congruence.
    + injection H as -> H. destruct (IH x Hp Hc H) as (x' & -> & Hx').
      exists x'. split; [reflexivity | exact Hx'].
Qed.

(** Two texts that agree are cut at their first percent sign in the same
    way. *)
Lemma clean_prefix_unique p1 t1 p2 t2 :
  Py.all not_percent p1 = true → Py.all not_percent p2 = true →
  p1 +:+ String "%" t1 = p2 +:+ String "%" t2 → p1 = p2.
Proof.
  revert p2; induction p1 as [|c p1 IH]; intros [|d p2] H1 H2 H;
    rewrite ?app_cons, ?app_empty_l in H.
  - reflexivity.
  - injection H as <- _. discriminate H2.
  - injection H as -> _. discriminate H1.
  - injection H as -> H. f_equal.
    cbn [Py.all] in H1, H2.
    apply andb_true_iff in H1 as [_ H1]. apply andb_true_iff in H2 as [_ H2].
    apply IH; assumption.
Qed.

Lemma all_impl (p q : ascii → bool) s :
  (∀ c, p c = true → q c = true) → Py.all p s = true → Py.all q s = true.
Proof.
  intros H. induction s as [|c s IH]; [reflexivity|].
  cbn [Py.all]. intros [Hc Hs]%andb_true_iff. rewrite (H c Hc), IH by exact Hs. reflexivity.
Qed.

(** ** What the parts of a pattern read *)

Lemma in_rmatch_cls ic p st st' :
  In st' (rmatch ic (Cls p) st) → ∃ c, rest st = String c (rest st') ∧ p c = true.
Proof.
  intros H. cbn [rmatch] in H. destruct (rest st) as [|c t]; [destruct H|].
  destruct (p c) eqn:Hp; [|destruct H]. destruct H as [<-|[]].
  exists c. split; [reflexivity | exact Hp].
Qed.

Lemma advance_run p n pv s cs :
  n ≤ Py.span p s →
  ∃ w, s = w +:+ rest (advance n (MState pv s cs)) ∧ Py.all p w = true.
Proof.
  revert pv s; induction n as [|n IH]; intros pv s Hn.
  - exists EmptyString. rewrite advance_0. split; reflexivity.
  - destruct s as [|c s]; cbn [Py.span] in Hn; [lia|].
    destruct (p c) eqn:Hp; [|lia].
    destruct (IH (Some c) s) as (w & Hw & Hall); [lia|].
    exists (String c w). rewrite advance_S, app_cons, <- Hw. cbn [Py.all].
    rewrite Hp, Hall. split; reflexivity.
Qed.

Lemma run_lengths_le g m n : In n (run_lengths g m) → n ≤ m.
Proof.
  unfold run_lengths. destruct g; [intros H%in_rev|intros H]; apply in_seq in H; lia.
Qed.

Lemma in_rmatch_star_cls ic g p st st' :
  In st' (rmatch ic (Star g (Cls p)) st) →
  ∃ w, rest st = w +:+ rest st' ∧ Py.all p w = true.
Proof.
  rewrite rmatch_star_cls. intros (n & <- & Hn)%in_map_iff.
  apply run_lengths_le in Hn. destruct st as [pv s cs]. cbn [rest] in *.
  apply advance_run, Hn.
Qed.

(** ** The characters of an attribute *)

Lemma space_not_name c : Chr.is_space c = true → V4.attr_name_char c = false.
Proof. by_cases_on c. Qed.

Lemma space_not_percent c : Chr.is_space c = true → not_percent c = true.
Proof. by_cases_on c. Qed.

Lemma name_not_percent c : V4.attr_name_char c = true → not_percent c = true.
Proof. by_cases_on c. Qed.

Lemma quote_cases q : one_of [squote; dquote] q = true → q = squote ∨ q = dquote.
Proof.
  unfold one_of. cbn [existsb]. rewrite orb_false_r.
  intros [H|H]%orb_true_iff; apply Ascii.eqb_eq in H; auto.
Qed.

Lemma quote_not_name q : one_of [squote; dquote] q = true → V4.attr_name_char q = false.
Proof. intros [->| ->]%quote_cases; reflexivity. Qed.

Lemma quote_not_space q : one_of [squote; dquote] q = true → Chr.is_space q = false.
Proof. intros [->| ->]%quote_cases; reflexivity. Qed.

Lemma quote_not_percent q : one_of [squote; dquote] q = true → not_percent q = true.
Proof. intros [->| ->]%quote_cases; reflexivity. Qed.

(** ** The pattern of the attributes *)

(** What group 1 of [attr_token_re] reads: a character, a run of name
    characters, white space, the equals sign and white space. *)
Lemma attr_prefix_shape st st1 :
  In st1 (rmatch false
            (Group 1 (seqs [space; Plus true (Cls V4.attr_name_char); spaces0;
                            Lit "="; spaces0])) st) →
  ∃ c0 n1 w1 w2,
    rest st = String c0 (n1 +:+ w1 +:+ String "=" (w2 +:+ rest st1))
    ∧ Py.all V4.attr_name_char n1 = true
    ∧ Py.all Chr.is_space w1 = true ∧ Py.all Chr.is_space w2 = true.
Proof.
  cbn [seqs]. unfold Plus, spaces0, space.
  intros (s1 & H & ->)%in_rmatch_group.
  apply in_rmatch_seq in H as (sa & Ha & H).
  apply in_rmatch_seq in H as (sb & Hb & H).
  apply in_rmatch_seq in Hb as (sb1 & Hb1 & Hb).
  apply in_rmatch_seq in H as (sc & Hc & H).
  apply in_rmatch_seq in H as (sd & Hd & H).
  apply in_rmatch_cls in Ha as (c0 & Ea & _).
  apply in_rmatch_cls in Hb1 as (n & Eb1 & Hn).
  apply in_rmatch_star_cls in Hb as (w & Eb & Hw).
  apply in_rmatch_star_cls in Hc as (w1 & Ec & Hw1).
  apply in_rmatch_lit in Hd as (l & Ed & ->).
  apply in_rmatch_star_cls in H as (w2 & E & Hw2).
  exists c0, (String n w), w1, w2. repeat split; try assumption.
  - rewrite Ea, Eb1, Eb, Ec, Ed, E. rewrite !app_cons, app_empty_l. reflexivity.
  - cbn [Py.all]. rewrite Hn, Hw. reflexivity.
Qed.

Ltac norm_text_in H := repeat (progress (rewrite ?app_assoc, ?app_cons, ?app_empty_l in H)).
Ltac norm_text := repeat (progress (rewrite ?app_assoc, ?app_cons, ?app_empty_l)).

Ltac all_leaf :=
  first [ reflexivity | assumption
        | apply space_not_percent; assumption
        | apply name_not_percent; assumption
        | apply quote_not_percent; assumption
        | eapply all_impl; [|eassumption];
          first [exact name_not_percent | exact space_not_percent] ].
Ltac all_split :=
  repeat (progress (rewrite ?all_app; cbn [Py.all]));
  repeat (apply andb_true_iff; split); all_leaf.

(** No attribute is read from a character before the white space of an
    attribute whose value starts with the first percent sign of the
    text. *)
Lemma attr_not_before a b pv ws n name sp1 sp2 q t :
  Py.all not_percent (a +:+ b) = true → b ≠ EmptyString →
  Chr.is_space ws = true →
  Py.all V4.attr_name_char (String n name) = true →
  Py.all Chr.is_space sp1 = true → Py.all Chr.is_space sp2 = true →
  one_of [squote; dquote] q = true →
  first_match false V4.attr_token_re
    (start_state pv
       (b +:+ String ws (String n name +:+ sp1 +:+ String "=" (sp2 +:+ String q (String "%" t)))))
    Some = None.
Proof.
  intros Hclean Hb Hws Hname Hsp1 Hsp2 Hq. rewrite <- head_rmatch.
  destruct (rmatch false V4.attr_token_re _) as [|st' l] eqn:Er; [reflexivity|].
  exfalso.
  assert (Hin : In st' (rmatch false V4.attr_token_re
    (start_state pv
       (b +:+ String ws (String n name +:+ sp1 +:+ String "=" (sp2 +:+ String q (String "%" t)))))))
    by (rewrite Er; left; reflexivity).
  clear Er. unfold V4.attr_token_re in Hin. cbn [seqs] in Hin.
  apply in_rmatch_seq in Hin as (st1 & H1 & Hin).
  apply in_rmatch_seq in Hin as (st2 & H2 & Hin).
  apply in_rmatch_seq in Hin as (st3 & H3 & _).
  apply attr_prefix_shape in H1 as (c0 & n1 & w1 & w2 & E1 & Hn1 & Hw1 & Hw2).
  apply in_rmatch_group in H2 as (s2 & H2 & E2'). unfold quote in H2.
  apply in_rmatch_cls in H2 as (c & E2 & Hc). rewrite <- E2' in E2.
  apply in_rmatch_group in H3 as (s3 & H3 & _).
  apply in_rmatch_seq in H3 as (s4 & H3 & _).
  apply in_rmatch_lit in H3 as (l3 & E3 & ->).
  cbn [start_state rest] in E1. rewrite E2, E3 in E1.
  destruct b as [|c1 b]; [congruence|]. clear Hb.
  rewrite app_cons in E1. injection E1 as _ E1.
  apply clean_suffix in Hclean. cbn [Py.all] in Hclean.
  apply andb_true_iff in Hclean as [_ Hclean].
  cbn [Py.all] in Hname. apply andb_true_iff in Hname as [Hn Hname].
  (* the two sides are cut at their first percent sign *)
  assert (Ecut : b +:+ String ws (String n name +:+ sp1 +:+ String "=" (sp2 +:+ String q ""))
                 = n1 +:+ w1 +:+ String "=" (w2 +:+ String c "")).
  { apply (clean_prefix_unique _ t _ ("%=" +:+ rest s4)).
    - all_split.
    - all_split.
    - norm_text. norm_text_in E1. exact E1. }
  (* the run of name characters on the right is passed before the white space *)
  apply skip_run with (p := V4.attr_name_char) in Ecut as (x' & _ & Ecut);
    [|exact Hn1 | apply space_not_name, Hws].
  assert (Hnon : Py.all (λ c, negb (V4.attr_name_char c))
                   (w1 +:+ String "=" (w2 +:+ String c "")) = true).
  { assert (Hsp : ∀ d, Chr.is_space d = true → negb (V4.attr_name_char d) = true)
      by (intros d Hd; rewrite (space_not_name d Hd); reflexivity).
    repeat (progress (rewrite ?all_app; cbn [Py.all])).
    rewrite (all_impl Chr.is_space _ w1 Hsp Hw1), (all_impl Chr.is_space _ w2 Hsp Hw2).
    rewrite (quote_not_name c Hc). reflexivity. }
  rewrite <- Ecut, all_app in Hnon. apply andb_true_iff in Hnon as [_ Hnon].
  rewrite app_cons in Hnon. cbn [Py.all] in Hnon.
  rewrite Hn in Hnon. cbn [negb andb] in Hnon.
  rewrite andb_false_r in Hnon. discriminate.
Qed.

(** ** An attribute whose value is a print token *)

Lemma first_match_backref {A} ic (k : mstate → option A) i st :
  first_match ic (Backref i) st k
  = match cap i (caps st) with
    | Some l =>
        match eat ic l (prev st) (rest st) with
        | Some (pv, t) => k (MState pv t (caps st))
        | None => None
        end
    | None => None
    end.
Proof.
  unfold first_match. cbn [rmatch]. destruct (cap i (caps st)) as [l|]; [|reflexivity].
  destruct (eat ic l (prev st) (rest st)) as [[pv t]|]; [|reflexivity].
  cbn [first_some]. destruct (k _); reflexivity.
Qed.

(** The length of a run of a class that is followed by characters of
    another class and then by a character of neither. *)
Lemma span_then (p q : ascii → bool) a s c t :
  Py.all p a = true → Py.all q s = true →
  (∀ d, q d = true → p d = false) → p c = false →
  Py.span p (a +:+ s +:+ String c t) = String.length a.
Proof.
  intros Ha Hs Hq Hc. rewrite span_all by exact Ha.
  destruct s as [|d s].
  - rewrite app_empty_l. cbn [Py.span]. rewrite Hc. lia.
  - rewrite app_cons. cbn [Py.span Py.all] in *.
    apply andb_true_iff in Hs as [Hd _]. rewrite (Hq d Hd). lia.
Qed.

(** The closer of a print does not start inside a text without percent
    signs. *)
Lemma no_print_closer_inside c a pv r :
  Py.all not_percent (String c a) = true →
  eat false "=%%" pv (String c a +:+ "=%%" +:+ r) = None.
Proof.
  cbn [Py.all]. intros [_ Ha]%andb_true_iff. rewrite app_cons. cbn [eat].
  destruct (Chr.eqb_ci false "=" c); [|reflexivity].
  destruct a as [|c2 a].
  - reflexivity.
  - rewrite app_cons. cbn [eat]. rewrite eqb_ci_percent.
    cbn [Py.all] in Ha. apply andb_true_iff in Ha as [H2 _].
    unfold not_percent in H2. apply negb_true_iff in H2. rewrite H2. reflexivity.
Qed.

Lemma clean_drop j s : Py.all not_percent s = true → Py.all not_percent (Py.drop j s) = true.
Proof.
  intros H. destruct (drop_suffix j s) as [u Hu]. rewrite Hu in H.
  apply clean_suffix in H. exact H.
Qed.

(** The pattern of the attributes, tried at the white space before an
    attribute whose quoted value is a print token without percent signs
    inside, reads the attribute up to its closing quotation mark; its
    groups are the attribute up to the equals sign, the quotation mark and
    the token. *)
Lemma attr_token_at pv ws n name sp1 sp2 q body post :
  Chr.is_space ws = true →
  Py.all V4.attr_name_char (String n name) = true →
  Py.all Chr.is_space sp1 = true → Py.all Chr.is_space sp2 = true →
  one_of [squote; dquote] q = true →
  Py.all not_percent body = true →
  first_match false V4.attr_token_re
    (start_state pv
       (String ws (String n name +:+ sp1 +:+ String "=" sp2)
        +:+ String q (("%%=" +:+ body +:+ "=%%") +:+ String q post)))
    Some
  = Some (MState (Some q) post
            [(3, "%%=" +:+ body +:+ "=%%"); (2, String q "");
             (1, String ws (String n name +:+ sp1 +:+ String "=" sp2))]).
Proof.
  intros Hws Hname Hsp1 Hsp2 Hq Hbody.
  cbn [Py.all] in Hname. apply andb_true_iff in Hname as [Hn Hname].
  set (tok := "%%=" +:+ body +:+ "=%%").
  set (attr := String ws (String n name +:+ sp1 +:+ String "=" sp2)).
  set (value := String q (tok +:+ String q post)).
  assert (Etext : attr +:+ value
                  = String ws (String n (name +:+ sp1 +:+ String "=" (sp2 +:+ value)))).
  { unfold attr. norm_text. reflexivity. }
  unfold V4.attr_token_re, start_state. cbn [seqs].
  rewrite first_match_seq, first_match_group.
  (* group 1 *)
  rewrite first_match_seq. unfold space at 1. rewrite first_match_cls. cbn [rest caps].
  rewrite Etext, Hws.
  unfold Plus. rewrite !first_match_seq, first_match_cls. cbn [rest caps]. rewrite Hn.
  rewrite first_match_star_cls. cbn [rest].
  rewrite (span_then _ Chr.is_space name sp1 "=")
    by (assumption || reflexivity || exact space_not_name).
  apply first_some_greedy. rewrite advance_app.
  rewrite first_match_seq.
  unfold spaces0 at 1, space. rewrite first_match_star_cls. cbn [rest].
  rewrite (span_stops _ sp1 "=") by (assumption || reflexivity).
  apply first_some_greedy. rewrite advance_app.
  rewrite first_match_seq, first_match_lit. cbn [prev rest caps eat].
  rewrite eqb_ci_refl.
  unfold spaces0 at 1, space. rewrite first_match_star_cls. cbn [rest].
  assert (Espan : Py.span Chr.is_space (sp2 +:+ value) = String.length sp2)
    by (apply span_stops; [assumption | apply quote_not_space, Hq]).
  rewrite Espan. apply first_some_greedy. rewrite advance_app.
  unfold with_group at 1. cbn [prev rest caps].
  rewrite <- Etext, consumed_app.
  (* group 2 *)
  rewrite first_match_seq, first_match_group. unfold quote.
  rewrite first_match_cls. cbn [rest caps]. unfold value at 1. rewrite Hq.
  unfold with_group at 1. cbn [prev rest caps].
  change value with (String q "" +:+ tok +:+ String q post).
  rewrite consumed_app.
  (* group 3 *)
  rewrite first_match_seq, first_match_group, first_match_seq, first_match_lit.
  cbn [prev rest caps].
  replace (tok +:+ String q post) with ("%%=" +:+ body +:+ "=%%" +:+ String q post)
    by (unfold tok; rewrite !app_assoc; reflexivity).
  rewrite eat_same, first_match_seq. unfold dot.
  rewrite first_match_star_cls. cbn [rest]. rewrite span_any.
  apply (first_some_lazy _ _ (String.length body)).
  - rewrite length_app. lia.
  - intros j Hj. rewrite first_match_lit.
    destruct (advance_inside j body ("=%%" +:+ String q post) (Py.last_or (Some q) "%%=")
                [(2, String q ""); (1, attr)] Hj) as (c & a2 & -> & Ed).
    cbn [prev rest].
    rewrite no_print_closer_inside; [reflexivity|].
    rewrite <- Ed. apply clean_drop, Hbody.
  - rewrite advance_app, first_match_lit. cbn [prev rest caps].
    rewrite eat_same.
    unfold with_group. cbn [prev rest caps].
    replace ("%%=" +:+ body +:+ "=%%" +:+ String q post)
      with (tok +:+ String q post) by (unfold tok; rewrite !app_assoc; reflexivity).
    rewrite consumed_app.
    rewrite first_match_backref. cbn [prev rest caps].
    change (cap 2 ((3, tok) :: (2, String q "") :: (1, attr) :: []))
      with (Some (String q "")).
    cbn [eat]. rewrite eqb_ci_refl. reflexivity.
Qed.

(** No attribute is read in a text without percent signs. *)
Lemma attr_none_in_clean pv s :
  Py.all not_percent s = true →
  first_match false V4.attr_token_re (start_state pv s) Some = None.
Proof.
  intros Hs. rewrite <- head_rmatch.
  destruct (rmatch false V4.attr_token_re (start_state pv s)) as [|st' l] eqn:Er;
    [reflexivity|].
  destruct (attr_token_shape (start_state pv s) st') as (u & w & z & E).
  { rewrite Er. left. reflexivity. }
  cbn [start_state rest] in E. subst s.
  rewrite all_app in Hs. apply andb_true_iff in Hs as [_ Hs]. discriminate Hs.
Qed.

(** The attributes found in a text made of clean text around one
    attribute whose value is a print token. *)
Lemma finditer_one_attribute pre ws n name sp1 sp2 q body post :
  Py.all not_percent pre = true → Py.all not_percent post = true →
  Py.all not_percent body = true →
  Chr.is_space ws = true →
  Py.all V4.attr_name_char (String n name) = true →
  Py.all Chr.is_space sp1 = true → Py.all Chr.is_space sp2 = true →
  one_of [squote; dquote] q = true →
  finditer false V4.attr_token_re
    (pre +:+ String ws (String n name +:+ sp1 +:+ String "=" sp2)
     +:+ String q (("%%=" +:+ body +:+ "=%%") +:+ String q post))
  = [Match (String.length pre)
       (String ws (String n name +:+ sp1 +:+ String "=" sp2)
        +:+ String q (("%%=" +:+ body +:+ "=%%") +:+ String q ""))
       [(3, "%%=" +:+ body +:+ "=%%"); (2, String q "");
        (1, String ws (String n name +:+ sp1 +:+ String "=" sp2))]].
Proof.
  intros Hpre Hpost Hbody Hws Hname Hsp1 Hsp2 Hq.
  set (tok := "%%=" +:+ body +:+ "=%%").
  set (attr := String ws (String n name +:+ sp1 +:+ String "=" sp2)).
  assert (Hat : ∀ pv, first_match false V4.attr_token_re
                  (start_state pv (attr +:+ String q (tok +:+ String q post))) Some
                = Some (MState (Some q) post
                          [(3, tok); (2, String q ""); (1, attr)]))
    by (intros pv; apply attr_token_at; assumption).
  assert (Efull : attr +:+ String q (tok +:+ String q post)
                  = String ws ((String n name +:+ sp1 +:+ String "=" sp2)
                               +:+ String q (tok +:+ String q "")) +:+ post).
  { unfold attr. norm_text. reflexivity. }
  assert (Efull' : attr +:+ String q (tok +:+ String q "")
                   = String ws ((String n name +:+ sp1 +:+ String "=" sp2)
                                +:+ String q (tok +:+ String q ""))).
  { unfold attr. rewrite app_cons. reflexivity. }
  unfold finditer, segments. rewrite scan_gaps.
  - rewrite hits_gaps, Efull.
    rewrite (scan_hit false V4.attr_token_re _ _ _ _ _
               (MState (Some q) post [(3, tok); (2, String q ""); (1, attr)])).
    + rewrite scan_nothing.
      * rewrite hits_hit, hits_only_gaps. cbn [caps]. rewrite <- Efull'. reflexivity.
      * intros a b pv' ->. apply attr_none_in_clean.
        apply clean_suffix in Hpost. exact Hpost.
    + rewrite <- Efull. apply Hat.
    + reflexivity.
  - intros a b -> Hb.
    replace (b +:+ attr +:+ String q (tok +:+ String q post))
      with (b +:+ String ws (String n name +:+ sp1 +:+ String "="
                               (sp2 +:+ String q (String "%" ("%=" +:+ body +:+ "=%%"
                                                              +:+ String q post)))))
      by (unfold attr, tok; norm_text; reflexivity).
    apply (attr_not_before a); assumption.
Qed.

(** The first loop on a text made of clean text around one attribute
    whose value is a print token. *)
Lemma neutralize_one_attribute pre ws n name sp1 sp2 q body post :
  Py.all not_percent pre = true → Py.all not_percent post = true →
  Py.all not_percent body = true →
  Chr.is_space ws = true →
  Py.all V4.attr_name_char (String n name) = true →
  Py.all Chr.is_space sp1 = true → Py.all Chr.is_space sp2 = true →
  one_of [squote; dquote] q = true →
  V4.neutralize_attributes
    (pre +:+ String ws (String n name +:+ sp1 +:+ String "=" sp2)
     +:+ String q (("%%=" +:+ body +:+ "=%%") +:+ String q post))
  = (pre +:+ String ws (String n name +:+ sp1 +:+ String "=" sp2)
     +:+ String q (String q (" <!-- " +:+ ("%%=" +:+ body +:+ "=%%") +:+ " -->" +:+ post)),
     [(V4.line_of
         (pre +:+ String ws (String n name +:+ sp1 +:+ String "=" sp2)
          +:+ String q (("%%=" +:+ body +:+ "=%%") +:+ String q post))
         (String.length pre),
       "%%=" +:+ body +:+ "=%%")]).
Proof.
  intros Hpre Hpost Hbody Hws Hname Hsp1 Hsp2 Hq.
  unfold V4.neutralize_attributes.
  rewrite finditer_one_attribute by assumption.
  set (tok := "%%=" +:+ body +:+ "=%%").
  set (attr := String ws (String n name +:+ sp1 +:+ String "=" sp2)).
  cbn [foldl V4.attr_step m_start app].
  change (group_or_empty _ 1) with attr.
  change (group_or_empty _ 2) with (String q "").
  change (group_or_empty _ 3) with tok.
  assert (Hslice : Py.slice 0 (String.length pre)
                     (pre +:+ attr +:+ String q (tok +:+ String q post)) = pre).
  { unfold Py.slice. rewrite Nat.sub_0_r. apply take_app. }
  assert (Hdrop : Py.drop (m_end (Match (String.length pre)
                                    (attr +:+ String q (tok +:+ String q ""))
                                    [(3, tok); (2, String q ""); (1, attr)]))
                    (pre +:+ attr +:+ String q (tok +:+ String q post)) = post).
  { unfold m_end. cbn [m_start m_text]. rewrite drop_add.
    replace (attr +:+ String q (tok +:+ String q post))
      with ((attr +:+ String q (tok +:+ String q "")) +:+ post)
      by (norm_text; reflexivity).
    apply drop_app. }
  rewrite Hslice, Hdrop. f_equal.
  cbn [Py.join fold_right]. rewrite app_empty_r. f_equal.
  norm_text. reflexivity.
Qed.

(** ** A print token in clean text *)

Lemma no_closer_in_clean ic c a pv r :
  Py.all not_percent (String c a) = true →
  eat ic "=%%" pv (String c a +:+ "=%%" +:+ r) = None.
Proof.
  cbn [Py.all]. intros [_ Ha]%andb_true_iff. rewrite app_cons. cbn [eat].
  destruct (Chr.eqb_ci ic "=" c); [|reflexivity].
  destruct a as [|c2 a].
  - destruct ic; reflexivity.
  - rewrite app_cons. cbn [eat]. rewrite eqb_ci_percent.
    cbn [Py.all] in Ha. apply andb_true_iff in Ha as [H2 _].
    unfold not_percent in H2. apply negb_true_iff in H2. rewrite H2. reflexivity.
Qed.

(** At a print token with at least one character and no percent sign
    between its delimiters, the pattern of the fragments reads the
    token. *)
Lemma block_re_at_token pv b0 body r :
  Py.all not_percent (String b0 body) = true →
  first_match true V4.block_re
    (start_state pv ("%%=" +:+ String b0 body +:+ "=%%" +:+ r)) Some
  = Some (MState (Some "%"%char) r [(1, "%%=" +:+ String b0 body +:+ "=%%")]).
Proof.
  intros Hbody. unfold V4.block_re, start_state. cbn [seqs].
  rewrite first_match_group, first_match_alt.
  rewrite first_match_seq, first_match_lit. cbn [prev rest caps].
  rewrite eat_same, first_match_seq. unfold Plus, dot.
  rewrite first_match_seq, first_match_cls. cbn [rest caps any].
  rewrite app_cons, first_match_star_cls. cbn [rest]. rewrite span_any.
  rewrite (first_some_lazy _ _ (String.length body)
             (with_group 1 (MState pv ("%%=" +:+ String b0 (body +:+ "=%%" +:+ r)) [])
                (MState (Some "%"%char) r []))).
  - unfold with_group. cbn [prev rest caps].
    replace ("%%=" +:+ String b0 (body +:+ "=%%" +:+ r))
      with (("%%=" +:+ String b0 body +:+ "=%%") +:+ r) by (norm_text; reflexivity).
    rewrite consumed_app. reflexivity.
  - rewrite length_app. lia.
  - intros j Hj. rewrite first_match_lit.
    destruct (advance_inside j body ("=%%" +:+ r) (Some b0) [] Hj) as (c & a2 & -> & Ed).
    cbn [prev rest]. rewrite no_closer_in_clean; [reflexivity|].
    rewrite <- Ed. apply clean_drop.
    cbn [Py.all] in Hbody. apply andb_true_iff in Hbody as [_ Hbody]. exact Hbody.
  - rewrite advance_app, first_match_lit. cbn [prev rest caps].
    rewrite eat_same. reflexivity.
Qed.

Lemma finditer_one_token pre b0 body post :
  Py.all not_percent pre = true → Py.all not_percent post = true →
  Py.contains "<script" (Py.lower pre) = false →
  Py.contains "<script" (Py.lower post) = false →
  Py.all not_percent (String b0 body) = true →
  finditer true V4.block_re (pre +:+ "%%=" +:+ String b0 body +:+ "=%%" +:+ post)
  = [Match (String.length pre) ("%%=" +:+ String b0 body +:+ "=%%")
       [(1, "%%=" +:+ String b0 body +:+ "=%%")]].
Proof.
  intros Hpre Hpost Hspre Hspost Hbody. unfold finditer, segments.
  rewrite scan_gaps.
  - rewrite hits_gaps.
    assert (E : "%%=" +:+ String b0 body +:+ "=%%" +:+ post
                = String "%" ("%=" +:+ String b0 body +:+ "=%%") +:+ post)
      by (norm_text; reflexivity).
    rewrite E.
    rewrite (scan_hit true V4.block_re _ _ _ _ _
               (MState (Some "%"%char) post [(1, "%%=" +:+ String b0 body +:+ "=%%")])).
    + rewrite scan_nothing.
      * rewrite hits_hit, hits_only_gaps. reflexivity.
      * intros a b pv' ->. destruct b as [|c b]; [apply block_re_not_at_end|].
        rewrite <- (app_empty_r (String c b)).
        apply (block_re_not_in_clean a); [assumption.. | left; reflexivity | discriminate].
    + rewrite <- E. apply block_re_at_token, Hbody.
    + reflexivity.
  - intros a b -> Hb.
    apply (block_re_not_in_clean a); [assumption.. | right; eauto | exact Hb].
Qed.

(** The second loop of the fourth script on a text made of clean text
    around one print token: the token is wrapped in a comment and
    recorded. *)
Lemma comment_blocks_one_token pre b0 body post commented :
  Py.all not_percent pre = true → Py.all not_percent post = true →
  Py.contains "<script" (Py.lower pre) = false →
  Py.contains "<script" (Py.lower post) = false →
  Py.all not_percent (String b0 body) = true →
  V4.comment_blocks (pre +:+ "%%=" +:+ String b0 body +:+ "=%%" +:+ post) commented
  = (pre +:+ "<!-- " +:+ ("%%=" +:+ String b0 body +:+ "=%%") +:+ " -->" +:+ post,
     commented ++ [(V4.find_line (pre +:+ "%%=" +:+ String b0 body +:+ "=%%" +:+ post)
                      (String.length pre),
                    "%%=" +:+ String b0 body +:+ "=%%")]).
Proof.
  intros Hpre Hpost Hspre Hspost Hbody. unfold V4.comment_blocks.
  rewrite finditer_one_token by assumption.
  cbn [foldl V4.block_step m_start].
  change (group_or_empty _ 1) with ("%%=" +:+ String b0 body +:+ "=%%").
  assert (Hstart : Py.startswith "%%=" ("%%=" +:+ String b0 body +:+ "=%%") = true)
    by apply prefix_app.
  rewrite Hstart.
  assert (Hslice : Py.slice 0 (String.length pre)
                     (pre +:+ "%%=" +:+ String b0 body +:+ "=%%" +:+ post) = pre).
  { unfold Py.slice. rewrite Nat.sub_0_r. apply take_app. }
  assert (Hdrop : Py.drop (m_end (Match (String.length pre)
                                    ("%%=" +:+ String b0 body +:+ "=%%")
                                    [(1, "%%=" +:+ String b0 body +:+ "=%%")]))
                    (pre +:+ "%%=" +:+ String b0 body +:+ "=%%" +:+ post) = post).
  { unfold m_end. cbn [m_start m_text]. rewrite drop_add.
    replace ("%%=" +:+ String b0 body +:+ "=%%" +:+ post)
      with (("%%=" +:+ String b0 body +:+ "=%%") +:+ post) by (norm_text; reflexivity).
    apply drop_app. }
  rewrite Hslice, Hdrop, !join_app, !join_one.
  cbn [app Py.join fold_right]. rewrite ?app_empty_l, ?app_assoc. reflexivity.
Qed.

(** ** Occurrences of a literal across a cut *)

Lemma prefix_app_l l a b : String.prefix l a = true → String.prefix l (a +:+ b) = true.
Proof.
  revert a; induction l as [|x l IH]; intros a H; [apply prefix_empty|].
  destruct a as [|y a]; [discriminate H|].
  rewrite app_cons. rewrite prefix_cons in *.
  apply andb_true_iff in H as [-> H]. apply IH, H.
Qed.

(** A character that a literal does not hold cuts the text for it. *)
Lemma contains_app_stop x l a c r :
  Py.all (λ d, negb (d =? c)%char) (String x l) = true →
  Py.contains (String x l) (a +:+ String c r)
  = Py.contains (String x l) a || Py.contains (String x l) r.
Proof.
  intros Hl. induction a as [|y a IH].
  - rewrite app_empty_l, contains_unfold, prefix_cons.
    cbn [Py.all] in Hl. apply andb_true_iff in Hl as [Hx _].
    apply negb_true_iff in Hx. rewrite Hx. reflexivity.
  - rewrite app_cons, !contains_unfold, IH, orb_assoc. f_equal. f_equal.
    destruct (String.prefix (String x l) (String y a)) eqn:E.
    + rewrite <- app_cons. apply prefix_app_l, E.
    + destruct (String.prefix (String x l) (String y (a +:+ String c r))) eqn:E';
        [|reflexivity].
      rewrite <- app_cons in E'. apply prefix_straddle in E'; [congruence | exact Hl].
Qed.

(** A literal does not start in a text that lacks its first character. *)
Lemma contains_skip x l a b :
  Py.all (λ d, negb (d =? x)%char) a = true →
  Py.contains (String x l) (a +:+ b) = Py.contains (String x l) b.
Proof.
  induction a as [|c a IH]; [reflexivity|].
  cbn [Py.all]. intros [Hc Ha]%andb_true_iff. rewrite app_cons, contains_unfold.
  rewrite prefix_cons. apply negb_true_iff in Hc. rewrite Ascii.eqb_sym, Hc.
  cbn [andb orb]. apply IH, Ha.
Qed.

Lemma all_lower (p q : ascii → bool) s :
  (∀ c, p c = true → q (Chr.lower c) = true) →
  Py.all p s = true → Py.all q (Py.lower s) = true.
Proof.
  intros H. induction s as [|c s IH]; [reflexivity|].
  cbn [Py.all Py.lower]. intros [Hc Hs]%andb_true_iff.
  rewrite (H c Hc), IH by exact Hs. reflexivity.
Qed.

(** ** The text that the first loop leaves before and after a token *)

Lemma space_lower_outside_script c :
  Chr.is_space c = true →
  Py.all (λ d, negb (d =? Chr.lower c)%char) "<script" = true.
Proof. by_cases_on c. Qed.

Lemma name_lower_not_lt c :
  V4.attr_name_char c = true → negb (Chr.lower c =? "<")%char = true.
Proof. by_cases_on c. Qed.

Lemma space_lower_not_lt c :
  Chr.is_space c = true → negb (Chr.lower c =? "<")%char = true.
Proof. by_cases_on c. Qed.

Lemma quote_lower_not_lt q :
  one_of [squote; dquote] q = true → negb (Chr.lower q =? "<")%char = true.
Proof. intros [->| ->]%quote_cases; reflexivity. Qed.

(** The text up to the comment that the first loop puts after an
    attribute holds no opener of a script element when the text before
    the attribute holds none. *)
Lemma no_script_before_comment pre ws n name sp1 sp2 q :
  Py.contains "<script" (Py.lower pre) = false →
  Chr.is_space ws = true →
  Py.all V4.attr_name_char (String n name) = true →
  Py.all Chr.is_space sp1 = true → Py.all Chr.is_space sp2 = true →
  one_of [squote; dquote] q = true →
  Py.contains "<script"
    (Py.lower (pre +:+ String ws (String n name +:+ sp1 +:+ String "=" sp2)
               +:+ String q (String q " <!-- "))) = false.
Proof.
  intros Hpre Hws Hname Hsp1 Hsp2 Hq.
  rewrite lower_app, app_cons. cbn [Py.lower].
  rewrite contains_app_stop by (apply space_lower_outside_script, Hws).
  rewrite Hpre. cbn [orb].
  replace ((String n name +:+ sp1 +:+ String "=" sp2) +:+ String q (String q " <!-- "))
    with ((String n name +:+ sp1 +:+ String "=" (sp2 +:+ String q (String q ""))) +:+ " <!-- ")
    by (norm_text; reflexivity).
  rewrite lower_app, contains_skip; [reflexivity|].
  rewrite !lower_app. cbn [Py.lower]. rewrite lower_app. cbn [Py.lower].
  cbn [Py.all] in Hname. apply andb_true_iff in Hname as [Hn Hname].
  repeat (progress (rewrite ?all_app; cbn [Py.all])).
  rewrite (name_lower_not_lt n Hn), (quote_lower_not_lt q Hq).
  rewrite (all_lower _ _ name name_lower_not_lt Hname).
  rewrite (all_lower _ _ sp1 space_lower_not_lt Hsp1).
  rewrite (all_lower _ _ sp2 space_lower_not_lt Hsp2).
  reflexivity.
Qed.

Lemma no_script_after_comment post :
  Py.contains "<script" (Py.lower post) = false →
  Py.contains "<script" (Py.lower (" -->" +:+ post)) = false.
Proof.
  intros H. rewrite lower_app, contains_skip; [exact H | reflexivity].
Qed.

(** ** The commenting pass on attributes and on clean text *)

(** X2.  The first loop of the commenting pass, on a document made of
    text without percent signs around one attribute assignment (a
    white-space character, a name, the equals sign with white space or
    none around it) whose quoted value is a print token without percent
    signs between its delimiters: the value is emptied, a comment with the
    token follows the closing quotation mark, and the token is recorded
    with the line of the white-space character before the name. *)
Theorem attribute_token_is_neutralized
  (pre name sp1 sp2 body post : string) (ws n q : ascii) :
  let token := "%%=" +:+ body +:+ "=%%" in
  let attr := String ws (String n name +:+ sp1 +:+ String "=" sp2) in
  let doc := pre +:+ attr +:+ String q (token +:+ String q post) in
  Py.all not_percent pre = true → Py.all not_percent post = true →
  Py.all not_percent body = true →
  Chr.is_space ws = true →
  Py.all V4.attr_name_char (String n name) = true →
  Py.all Chr.is_space sp1 = true → Py.all Chr.is_space sp2 = true →
  one_of [squote; dquote] q = true →
  V4.neutralize_attributes doc
  = (pre +:+ attr +:+ String q (String q (" <!-- " +:+ token +:+ " -->" +:+ post)),
     [(V4.line_of doc (String.length pre), token)]).
Proof.
  intros token attr doc. subst token attr doc. apply neutralize_one_attribute.
Qed.

Lemma attribute_token_is_neutralized_witness :
  V4.neutralize_attributes ("<img" +:+ Py.newline +:+ " src='%%=v(@logo)=%%' alt='x'>")
  = ("<img" +:+ Py.newline +:+ " src='' <!-- %%=v(@logo)=%% --> alt='x'>",
     [(2, "%%=v(@logo)=%%")]).
Proof.
  apply (attribute_token_is_neutralized ("<img" +:+ Py.newline) "rc" "" "" "v(@logo)"
           " alt='x'>" " " "s" "'"); reflexivity.
Defined.

(** X3.  The whole commenting pass of the fourth script on such a
    document, when the token holds at least one character between its
    delimiters and the text around the attribute holds no opener of a
    script element: the second loop finds the token again inside the
    comment that the first loop wrote, wraps it in a second comment and
    records it a second time, with the line it has in the text that the
    first loop returned. *)
Theorem attribute_token_is_commented_twice
  (pre name sp1 sp2 body post : string) (ws n q b0 : ascii) :
  let token := "%%=" +:+ String b0 body +:+ "=%%" in
  let attr := String ws (String n name +:+ sp1 +:+ String "=" sp2) in
  let doc := pre +:+ attr +:+ String q (token +:+ String q post) in
  let before := pre +:+ attr +:+ String q (String q " <!-- ") in
  Py.all not_percent pre = true → Py.all not_percent post = true →
  Py.contains "<script" (Py.lower pre) = false →
  Py.contains "<script" (Py.lower post) = false →
  Py.all not_percent (String b0 body) = true →
  Chr.is_space ws = true →
  Py.all V4.attr_name_char (String n name) = true →
  Py.all Chr.is_space sp1 = true → Py.all Chr.is_space sp2 = true →
  one_of [squote; dquote] q = true →
  V4.comment_ampscript_with_hoist doc
  = (before +:+ "<!-- " +:+ token +:+ " -->" +:+ " -->" +:+ post,
     [(V4.line_of doc (String.length pre), token);
      (V4.find_line (before +:+ token +:+ " -->" +:+ post) (String.length before),
       token)]).
Proof.
  intros token attr doc before Hpre Hpost Hspre Hspost Hbody Hws Hname Hsp1 Hsp2 Hq.
  unfold V4.comment_ampscript_with_hoist. subst doc.
  unfold attr, token at 1.
  rewrite neutralize_one_attribute by assumption.
  fold attr. fold token.
  replace (pre +:+ attr +:+ String q (String q (" <!-- " +:+ token +:+ " -->" +:+ post)))
    with (before +:+ "%%=" +:+ String b0 body +:+ "=%%" +:+ " -->" +:+ post)
    by (unfold before, token; norm_text; reflexivity).
  rewrite (comment_blocks_one_token before b0 body (" -->" +:+ post)).
  - unfold token. cbn [app]. rewrite !app_assoc. reflexivity.
  - unfold before, attr.
    cbn [Py.all] in Hname. apply andb_true_iff in Hname as [Hn Hname]. all_split.
  - rewrite all_app. rewrite Hpost. reflexivity.
  - apply no_script_before_comment; assumption.
  - apply no_script_after_comment, Hspost.
  - exact Hbody.
Qed.

Lemma attribute_token_is_commented_twice_witness :
  V4.comment_ampscript_with_hoist ("<img" +:+ Py.newline +:+ " src='%%=v(@logo)=%%' alt='x'>")
  = ("<img" +:+ Py.newline +:+ " src='' <!-- <!-- %%=v(@logo)=%% --> --> alt='x'>",
     [(2, "%%=v(@logo)=%%"); (2, "%%=v(@logo)=%%")]).
Proof.
  apply (attribute_token_is_commented_twice ("<img" +:+ Py.newline) "rc" "" "" "(@logo)"
           " alt='x'>" " " "s" "'" "v"); reflexivity.
Defined.

(** X4.  A text without percent signs and without the opener of a script
    element goes through the commenting pass of either script unchanged,
    and nothing is recorded. *)
Theorem clean_text_is_left_alone (html_text : string) :
  Py.all not_percent html_text = true →
  Py.contains "<script" (Py.lower html_text) = false →
  V4.comment_ampscript_with_hoist html_text = (html_text, [])
  ∧ V3.comment_ampscript_with_hoist html_text = (html_text, []).
Proof.
  intros Hclean Hscript.
  assert (Hblocks : finditer true V4.block_re html_text = []).
  { unfold finditer, segments. rewrite scan_nothing; [apply hits_only_gaps|].
    intros a b pv' ->. destruct b as [|c b]; [apply block_re_not_at_end|].
    rewrite <- (app_empty_r (String c b)).
    apply (block_re_not_in_clean a); [assumption.. | left; reflexivity | discriminate]. }
  assert (Hattrs : finditer false V4.attr_token_re html_text = []).
  { unfold finditer, segments. rewrite scan_nothing; [apply hits_only_gaps|].
    intros a b pv' ->. apply attr_none_in_clean.
    apply clean_suffix in Hclean. exact Hclean. }
  split.
  - unfold V4.comment_ampscript_with_hoist, V4.neutralize_attributes, V4.comment_blocks.
    rewrite Hattrs. cbn [foldl app Py.join fold_right Py.drop]. rewrite app_empty_r.
    rewrite Hblocks. cbn [foldl app Py.join fold_right Py.drop]. rewrite app_empty_r.
    reflexivity.
  - unfold V3.comment_ampscript_with_hoist. change V3.block_re with V4.block_re.
    rewrite Hblocks. cbn [foldl app Py.join fold_right Py.drop]. rewrite app_empty_r.
    reflexivity.
Qed.

Lemma clean_text_is_left_alone_witness :
  V4.comment_ampscript_with_hoist "<p class='a'>Hello {{ profile.name }}</p>"
  = ("<p class='a'>Hello {{ profile.name }}</p>", [])
  ∧ V3.comment_ampscript_with_hoist "<p class='a'>Hello {{ profile.name }}</p>"
    = ("<p class='a'>Hello {{ profile.name }}</p>", []).
Proof.
  apply (clean_text_is_left_alone "<p class='a'>Hello {{ profile.name }}</p>"); reflexivity.
Defined.

(** ** A replacement that gives back what was matched *)

Lemma take_drop n s : Py.take n s +:+ Py.drop n s = s.
Proof.
  revert s; induction n as [|n IH]; intros [|c s]; try reflexivity.
  cbn [Py.take Py.drop]. rewrite app_cons, IH. reflexivity.
Qed.

Lemma length_take n s : n ≤ String.length s → String.length (Py.take n s) = n.
Proof.
  revert s; induction n as [|n IH]; intros [|c s] H; simpl in *; try lia.
  rewrite IH; lia.
Qed.

(** The text of a match that reads at least one character, followed by
    what the scan has left once it has skipped the rest of the match. *)
Lemma match_then_rest c t st' :
  (String.length (rest st') <? String.length (String c t)) = true →
  let m_txt := Py.take (String.length (String c t) - String.length (rest st')) (String c t) in
  m_txt +:+ Py.drop (String.length m_txt - 1) t = String c t.
Proof.
  intros Hlt. apply Nat.ltb_lt in Hlt. cbv zeta.
  set (n := String.length (String c t) - String.length (rest st')).
  assert (Hn : 1 ≤ n ≤ String.length (String c t)) by (unfold n; lia).
  rewrite length_take by lia.
  destruct n as [|n]; [lia|]. cbn [Py.take]. rewrite app_cons.
  replace (S n - 1) with n by lia. rewrite take_drop. reflexivity.
Qed.

(** The pieces of a scanned text, with every match standing for its own
    text, make up the text again. *)
Lemma scan_pieces ic r (f : re_match → string) :
  (∀ m, f m = m_text m) →
  ∀ s skip pos pv,
    Py.join (seg_text f <$> scan ic r skip pos pv s) = Py.drop skip s.
Proof.
  intros Hf. induction s as [|c t IH]; intros skip pos pv.
  - cbn [scan]. destruct skip as [|k].
    + destruct (rmatch ic r (start_state pv EmptyString)) as [|st' l]; [reflexivity|].
      rewrite fmap_cons. cbn [seg_text Py.join fold_right fmap list_fmap].
      rewrite Hf. reflexivity.
    + destruct (rmatch ic r (start_state pv EmptyString)); reflexivity.
  - cbn [scan]. destruct skip as [|k]; [|apply IH].
    assert (Hhit : ∀ st', (String.length (rest st') <? String.length (String c t)) = true →
              Py.join (seg_text f <$>
                (Hit (mk_match pos (String c t) st')
                 :: scan ic r (String.length (m_text (mk_match pos (String c t) st')) - 1)
                      (S pos) (Some c) t))
              = String c t).
    { intros st' Hlt. rewrite fmap_cons. cbn [seg_text Py.join fold_right].
      fold (Py.join (seg_text f <$>
              scan ic r (String.length (m_text (mk_match pos (String c t) st')) - 1)
                (S pos) (Some c) t)).
      rewrite IH, Hf. unfold mk_match. cbn [m_text].
      apply (match_then_rest c t st' Hlt). }
    assert (Hgap : Py.join (seg_text f <$> (Gap c :: scan ic r 0 (S pos) (Some c) t))
                   = String c t).
    { rewrite fmap_cons. cbn [seg_text Py.join fold_right].
      fold (Py.join (seg_text f <$> scan ic r 0 (S pos) (Some c) t)).
      rewrite IH. reflexivity. }
    cbn [Py.drop].
    destruct (rmatch ic r (start_state pv (String c t))) as [|st' l] eqn:Er; [exact Hgap|].
    destruct (String.length (rest st') <? String.length (String c t)) eqn:Hlt;
      [apply Hhit, Hlt|].
    rewrite fmap_cons. cbn [seg_text Py.join fold_right].
    rewrite Hf. unfold mk_match at 1. cbn [m_text].
    apply Nat.ltb_ge in Hlt.
    replace (String.length (String c t) - String.length (rest st')) with 0 by lia.
    rewrite take_0, app_empty_l.
    match goal with |- context [List.find ?p ?l] => destruct (List.find p l) as [st''|] eqn:Ef end.
    + apply find_some in Ef as [_ Ef]. apply Hhit, Ef.
    + exact Hgap.
Qed.

Lemma sub_with_own_text ic r (f : re_match → string) s :
  (∀ m, f m = m_text m) → sub ic r f s = s.
Proof. intros Hf. unfold sub, segments. apply (scan_pieces ic r f Hf s 0 0 None). Qed.

(** ** The print pass without a mapping *)

Lemma print_sub_unmapped var_expr m :
  var_expr !! Py.lower (group_or_empty m 1) = None →
  V4.print_sub var_expr m = m_text m.
Proof.
  intros H. unfold V4.print_sub, V4.resolve_expr. rewrite H. cbn [default].
  rewrite bool_decide_eq_false_2; [reflexivity|]. intros Hne. apply Hne. reflexivity.
Qed.

(** X5.  With an empty variable mapping the global print pass returns
    every document as it is, whatever print tokens it holds: a token whose
    variable has no entry is replaced by its own text. *)
Theorem print_pass_without_mapping (html_text : string) :
  V4.replace_all_prints html_text ∅ = html_text.
Proof.
  unfold V4.replace_all_prints. apply sub_with_own_text.
  intros m. apply print_sub_unmapped. apply lookup_empty.
Qed.

(** ** What the mapping extraction keeps true *)

Lemma lower_lower_char c : Chr.lower (Chr.lower c) = Chr.lower c.
Proof. by_cases_on c. Qed.

Lemma lower_lower s : Py.lower (Py.lower s) = Py.lower s.
Proof.
  induction s as [|c s IH]; [reflexivity|].
  cbn [Py.lower]. rewrite lower_lower_char, IH. reflexivity.
Qed.

(** A property of the mapping and the covered set that every step of the
    inner loop keeps is kept by the whole extraction. *)
Lemma extraction_invariant (P : gmap string string * gset string → Prop) :
  P (∅, ∅) →
  (∀ ajo expr single acc var, P acc → P (V4.learn_var ajo expr single acc var)) →
  ∀ df, P (V4.extract_var_expressions df).
Proof.
  intros H0 Hstep df. unfold V4.extract_var_expressions.
  assert (Hvars : ∀ ajo expr single vars acc,
            P acc → P (foldl (V4.learn_var ajo expr single) acc vars)).
  { intros ajo expr single vars.
    induction vars as [|x vars IHv]; intros acc Hacc; [exact Hacc|].
    cbn [foldl]. apply IHv, Hstep, Hacc. }
  assert (Hrows : ∀ acc, P acc → P (foldl V4.learn_row acc df)).
  { induction df as [|r df IH]; intros acc Hacc; [exact Hacc|].
    cbn [foldl]. apply IH. unfold V4.learn_row.
    destruct (findall1 false var_ref (SFMC r)) as [|v vs]; [exact Hacc|].
    apply Hvars, Hacc. }
  apply Hrows, H0.
Qed.

(** X6.  The reserved helper word is never learnt: whatever the sheet,
    the mapping returned by the extraction of the fourth script has no
    entry for [the], and the covered set does not hold it. *)
Theorem reserved_word_is_never_learnt (df : list row) :
  (V4.extract_var_expressions df).1 !! "the" = None
  ∧ "the" ∉ (V4.extract_var_expressions df).2.
Proof.
  apply (extraction_invariant (λ acc, acc.1 !! "the" = None ∧ "the" ∉ acc.2)).
  - split; [apply lookup_empty | set_solver].
  - intros ajo expr single [ve cov] var [Hve Hcov]. unfold V4.learn_var.
    case_bool_decide as Hres; [split; assumption|].
    assert (Hne : Py.lower var ≠ "the") by (unfold V4.RESERVED_SKIP in Hres; set_solver).
    cbn [fst snd] in *.
    destruct (V4.truthy expr && single); [|destruct (existsb _ _)]; cbn [fst snd].
    + split; [rewrite lookup_insert_ne by exact Hne; exact Hve | set_solver].
    + split; [exact Hve | set_solver].
    + split; assumption.
Qed.

(** The keys of the mapping are in the covered set. *)
Lemma mapped_is_covered (df : list row) (k : string) :
  is_Some ((V4.extract_var_expressions df).1 !! k) →
  k ∈ (V4.extract_var_expressions df).2.
Proof.
  revert k.
  apply (extraction_invariant (λ acc, ∀ k, is_Some (acc.1 !! k) → k ∈ acc.2)).
  - intros k [e H]. cbn [fst] in H. rewrite lookup_empty in H. discriminate.
  - intros ajo expr single [ve cov] var Hacc k. unfold V4.learn_var.
    cbn [fst snd] in Hacc.
    case_bool_decide as Hres; [apply Hacc|].
    destruct (V4.truthy expr && single); [|destruct (existsb _ _)]; cbn [fst snd].
    + destruct (decide (k = Py.lower var)) as [->|Hk]; [set_solver|].
      rewrite lookup_insert_ne by congruence. intros H. specialize (Hacc k H). set_solver.
    + intros H. specialize (Hacc k H). set_solver.
    + apply Hacc.
Qed.

(** X7.  Every entry of the mapping returned by the extraction of the
    fourth script is sound: its key is in lower case and belongs to the
    covered set, and its expression is not the empty text. *)
Theorem mapping_entries_are_sound (df : list row) (k e : string) :
  (V4.extract_var_expressions df).1 !! k = Some e →
  Py.lower k = k ∧ k ∈ (V4.extract_var_expressions df).2 ∧ e ≠ EmptyString.
Proof.
  revert k e.
  apply (extraction_invariant
           (λ acc, ∀ k e, acc.1 !! k = Some e →
                          Py.lower k = k ∧ k ∈ acc.2 ∧ e ≠ EmptyString)).
  - intros k e H. cbn [fst] in H. rewrite lookup_empty in H. discriminate.
  - intros ajo expr single [ve cov] var Hacc k e. unfold V4.learn_var.
    cbn [fst snd] in Hacc.
    case_bool_decide as Hres; [apply Hacc|].
    destruct (V4.truthy expr && single) eqn:Ht; [|destruct (existsb _ _)]; cbn [fst snd].
    + apply andb_true_iff in Ht as [Ht _].
      destruct (decide (k = Py.lower var)) as [->|Hk].
      * rewrite lookup_insert_eq. intros [= <-].
        split; [apply lower_lower|]. split; [set_solver|].
        destruct expr as [[|c x]|]; try discriminate Ht. discriminate.
      * rewrite lookup_insert_ne by congruence. intros H.
        destruct (Hacc k e H) as (H1 & H2 & H3). split; [exact H1|].
        split; [set_solver | exact H3].
    + intros H. destruct (Hacc k e H) as (H1 & H2 & H3). split; [exact H1|].
      split; [set_solver | exact H3].
    + apply Hacc.
Qed.

Lemma mapping_entries_are_sound_witness :
  Py.lower "planname" = "planname"
  ∧ "planname" ∈ (V4.extract_var_expressions
                    [Row "%%=v(@PlanName)=%%" "{{ profile.plan.name }}"]).2
  ∧ "profile.plan.name" ≠ EmptyString.
Proof.
  apply (mapping_entries_are_sound
           [Row "%%=v(@PlanName)=%%" "{{ profile.plan.name }}"] "planname"
           "profile.plan.name").
  vm_compute. reflexivity.
Defined.

(** X8.  A row changes the mapping at most at one key: in the fourth
    script the entry of a key after a row differs from the entry before it
    only if the source cell of the row names exactly one variable, names
    compared in lower case, and the key is that name. *)
Theorem row_changes_only_its_variable
  (acc : gmap string string * gset string) (r : row) (k : string) :
  (V4.learn_row acc r).1 !! k ≠ acc.1 !! k →
  V4.unique_vars (findall1 false var_ref (SFMC r)) = {[ k ]}.
Proof.
  intros Hdiff.
  destruct (decide (size (V4.unique_vars (findall1 false var_ref (SFMC r))) = 1))
    as [Hone|Hmany].
  - apply size_1_elem_of in Hone as [x Hx]. apply leibniz_equiv in Hx.
    rewrite Hx. f_equal.
    destruct (decide (x = k)) as [|Hxk]; [assumption|]. exfalso. apply Hdiff.
    unfold V4.learn_row.
    destruct (findall1 false var_ref (SFMC r)) as [|v vs] eqn:E; [reflexivity|].
    assert (Hall : ∀ y, y ∈ v :: vs → Py.lower y = x).
    { intros y Hy. unfold V4.unique_vars in Hx.
      assert (Py.lower y ∈ ({[ x ]} : gset string)); [|set_solver].
      rewrite <- Hx. apply elem_of_list_to_set, list_elem_of_fmap_2, Hy. }
    assert (Hvars : ∀ ajo expr single vars acc',
              (∀ y, y ∈ vars → Py.lower y = x) →
              (foldl (V4.learn_var ajo expr single) acc' vars).1 !! k = acc'.1 !! k).
    { intros ajo expr single vars.
      induction vars as [|y vars IH]; intros acc' Hall'; [reflexivity|].
      cbn [foldl]. rewrite IH by (intros z Hz; apply Hall'; set_solver).
      unfold V4.learn_var. destruct acc' as [ve cov].
      rewrite (Hall' y) by set_solver.
      case_bool_decide; [reflexivity|].
      destruct (_ && _); [|destruct (existsb _ _); reflexivity].
      cbn [fst]. apply lookup_insert_ne. exact Hxk. }
    apply Hvars, Hall.
  - exfalso. apply Hdiff. rewrite v4_ambiguous_row_adds_no_mapping by exact Hmany.
    reflexivity.
Qed.

Lemma row_changes_only_its_variable_witness :
  V4.unique_vars (findall1 false var_ref (SFMC (Row "%%=v(@Name)=%%" "{{ profile.name }}")))
  = {[ "name" ]}.
Proof.
  apply (row_changes_only_its_variable (∅, ∅) (Row "%%=v(@Name)=%%" "{{ profile.name }}")).
  vm_compute. discriminate.
Defined.

(** ** What is added to the warnings *)

(** The warnings of [st'] are those of [st] followed by names that, in
    lower case, are neither in the covered set [cov] nor among the names
    that are always safe. *)
Lemma note_var_warns cov st v :
  cov ⊆ covered_vars st →
  ∃ ws, warnings (V4.note_var st v) = warnings st ++ ws
        ∧ Forall (λ w, (Py.lower w ∉ cov) ∧ (Py.lower w ∉ V4.always_safe)) ws.
Proof.
  intros Hcov. unfold V4.note_var.
  destruct (bool_decide (Py.lower v ∉ covered_vars st)) eqn:E1;
    [destruct (bool_decide (Py.lower v ∉ V4.always_safe)) eqn:E2|]; cbn [andb].
  - apply bool_decide_eq_true in E1, E2. exists [v]. split; [reflexivity|].
    constructor; [|constructor]. split; [set_solver | exact E2].
  - exists []. rewrite app_nil_r. split; [reflexivity | constructor].
  - exists []. rewrite app_nil_r. split; [reflexivity | constructor].
Qed.

Lemma note_vars_warns cov cond_l st :
  cov ⊆ covered_vars st →
  ∃ ws, warnings (V4.note_vars cond_l st) = warnings st ++ ws
        ∧ Forall (λ w, (Py.lower w ∉ cov) ∧ (Py.lower w ∉ V4.always_safe)) ws.
Proof.
  unfold V4.note_vars. generalize (findall1 true var_ref cond_l) as vs.
  intros vs; revert st; induction vs as [|v vs IH]; intros st Hcov.
  - exists []. rewrite app_nil_r. split; [reflexivity | constructor].
  - cbn [foldl].
    destruct (note_var_warns cov st v Hcov) as (ws1 & E1 & H1).
    destruct (IH (V4.note_var st v)) as (ws2 & E2 & H2).
    { rewrite note_var_covered. exact Hcov. }
    exists (ws1 ++ ws2). rewrite E2, E1, <- List.app_assoc. split; [reflexivity|].
    apply Forall_app. split; assumption.
Qed.

Lemma learn_expr_warnings var_expr var_name st :
  warnings (V4.learn_expr var_expr var_name st).2 = warnings st.
Proof. unfold V4.learn_expr. case_bool_decide; reflexivity. Qed.

Lemma translate_forms_warnings cond_l var_expr st r :
  V4.translate_forms cond_l var_expr st = Some r → warnings r.2 = warnings st.
Proof.
  unfold V4.translate_forms. intros H.
  repeat match type of H with
  | match search ?ic ?p ?s with _ => _ end = _ => destruct (search ic p s)
  end; try discriminate;
  match type of H with
  | context [V4.learn_expr ?ve ?v ?st] =>
      pose proof (learn_expr_warnings ve v st) as Hw;
      destruct (V4.learn_expr ve v st) as [e st']
  end; inversion H; subst; exact Hw.
Qed.

Lemma translate_warns cov cond var_expr st :
  cov ⊆ covered_vars st →
  ∃ ws, warnings (V4.translate_condition_to_liquid cond var_expr st).2 = warnings st ++ ws
        ∧ Forall (λ w, (Py.lower w ∉ cov) ∧ (Py.lower w ∉ V4.always_safe)) ws.
Proof.
  remember (String.length cond) as n eqn:Hn.
  revert cond st Hn.
  induction n as [n IH] using lt_wf_ind; intros cond st Hn Hcov.
  rewrite v4_translate_unfold.
  destruct (note_vars_warns cov (Py.strip cond) st Hcov) as (ws1 & E1 & H1).
  destruct (V4.translate_forms _ _ _) as [r|] eqn:Hf.
  - apply translate_forms_warnings in Hf. exists ws1. rewrite Hf. split; assumption.
  - destruct (V4.is_elseif (Py.strip cond)) eqn:He.
    + apply elseif_inner_shorter in He. unfold V4.as_elseif. cbn [snd].
      destruct (IH _ ltac:(subst; exact He) (Py.strip (Py.drop 7 (Py.strip cond)))
                  (V4.note_vars (Py.strip cond) st) eq_refl) as (ws2 & E2 & H2).
      { rewrite note_vars_covered. exact Hcov. }
      exists (ws1 ++ ws2). rewrite E2, E1, <- List.app_assoc. split; [reflexivity|].
      apply Forall_app. split; assumption.
    + cbn [snd]. exists ws1. split; assumption.
Qed.

Lemma repl_warns cov var_expr m st :
  cov ⊆ covered_vars st →
  ∃ ws, warnings (V4.repl var_expr m st).2 = warnings st ++ ws
        ∧ Forall (λ w, (Py.lower w ∉ cov) ∧ (Py.lower w ∉ V4.always_safe)) ws.
Proof.
  intros Hcov. unfold V4.repl.
  pose proof (translate_warns cov (Py.strip (group_or_empty m 1)) var_expr st Hcov) as H.
  destruct (V4.translate_condition_to_liquid _ _ _) as [cond_liquid st'].
  repeat match goal with |- context [if ?b then _ else _] => destruct b end; exact H.
Qed.

Lemma convert_warns cov html_text var_expr st :
  cov ⊆ covered_vars st →
  ∃ ws, warnings (V4.convert_ampscript_if_blocks html_text var_expr st).2 = warnings st ++ ws
        ∧ Forall (λ w, (Py.lower w ∉ cov) ∧ (Py.lower w ∉ V4.always_safe)) ws.
Proof.
  unfold V4.convert_ampscript_if_blocks, sub_st.
  generalize (segments true V4.if_block html_text) as l.
  intros l; revert st; induction l as [|[c|m] l IH]; intros st Hcov; cbn [sub_segs].
  - exists []. rewrite app_nil_r. split; [reflexivity | constructor].
  - destruct (IH st Hcov) as (ws & E & H).
    destruct (sub_segs (V4.repl var_expr) l st) as [x st']. exists ws. split; assumption.
  - destruct (repl_warns cov var_expr m st Hcov) as (ws1 & E1 & H1).
    pose proof (repl_covered var_expr m st) as Hgrow.
    destruct (V4.repl var_expr m st) as [x st1]. cbn [snd] in *.
    destruct (IH st1) as (ws2 & E2 & H2); [set_solver|].
    destruct (sub_segs (V4.repl var_expr) l st1) as [y st2]. cbn [snd] in *.
    exists (ws1 ++ ws2). rewrite E2, E1, <- List.app_assoc. split; [reflexivity|].
    apply Forall_app. split; assumption.
Qed.

(** X9.  The warnings only grow, and only by names that need one: after
    the translation of a condition, and after the conversion of a whole
    document, the list of warnings is the list before it followed by
    names that, in lower case, are neither in the covered set as it was
    before the call nor among the four names that are always safe. *)
Theorem warnings_grow_by_uncovered_names (cond html_text : string)
  (var_expr : gmap string string) (st : tstate) :
  (∃ ws, warnings (V4.translate_condition_to_liquid cond var_expr st).2 = warnings st ++ ws
         ∧ Forall (λ w, (Py.lower w ∉ covered_vars st) ∧ (Py.lower w ∉ V4.always_safe)) ws)
  ∧ (∃ ws, warnings (V4.convert_ampscript_if_blocks html_text var_expr st).2
           = warnings st ++ ws
           ∧ Forall (λ w, (Py.lower w ∉ covered_vars st) ∧ (Py.lower w ∉ V4.always_safe)) ws).
Proof.
  split; [apply translate_warns | apply convert_warns]; reflexivity.
Qed.

(** ** Mapped variables and the warnings of a run *)

(** X10.  In a run of the pipeline of the fourth script no variable that
    has an entry in the mapping learnt from the sheet gets a warning:
    every name among the warnings of the result has, in lower case, no
    entry in the mapping and is none of the four names that are always
    safe. *)
Theorem mapped_variable_gets_no_warning
  (expand_template : string → option (re_match → string))
  (df : list row) (html final_html : string) (commented_blocks : list (nat * string))
  (total_found total_replaced : nat) (st : tstate) (w : string) :
  V4.pipeline expand_template df html
  = Some (final_html, commented_blocks, total_found, total_replaced, st) →
  w ∈ warnings st →
  (V4.extract_var_expressions df).1 !! Py.lower w = None
  ∧ Py.lower w ∉ V4.always_safe.
Proof.
  unfold V4.pipeline. intros Hrun Hw.
  pose proof (mapped_is_covered df (Py.lower w)) as Hentries.
  destruct (V4.extract_var_expressions df) as [var_expr covered]. cbn [fst snd] in *.
  destruct (convert_warns covered html var_expr (TState [] covered)) as (ws & E & Hws);
    [reflexivity|].
  destruct (V4.convert_ampscript_if_blocks html var_expr (TState [] covered))
    as [html_after_if st0].
  destruct (V4.literal_pass expand_template df html_after_if) as [[[work tf] tr]|];
    [|discriminate Hrun].
  cbn in Hrun.
  destruct (V4.comment_ampscript_with_hoist _) as [fh cb].
  injection Hrun as _ _ _ _ <-.
  cbn [snd warnings app] in E. rewrite E in Hw.
  rewrite Forall_forall in Hws. destruct (Hws w Hw) as [Hcov Hsafe].
  split; [|exact Hsafe].
  destruct (var_expr !! Py.lower w) as [e|] eqn:El; [|reflexivity].
  exfalso. apply Hcov, Hentries. eauto.
Qed.

Lemma mapped_variable_gets_no_warning_witness :
  (V4.extract_var_expressions [Row "%%=v(@Name)=%%" "{{ profile.name }}"]).1 !! Py.lower "Name"
  = Some "profile.name"
  ∧ (V4.extract_var_expressions [Row "%%=v(@Name)=%%" "{{ profile.name }}"]).1
      !! Py.lower "Tier" = None
  ∧ Py.lower "Tier" ∉ V4.always_safe.
Proof.
  split; [vm_compute; reflexivity|].
  apply (mapped_variable_gets_no_warning (λ t, Some (λ _, t))
           [Row "%%=v(@Name)=%%" "{{ profile.name }}"]
           "%%[IF @Name == 'x' THEN]%%a%%[ENDIF]%%%%[IF @Tier THEN]%%b%%[ENDIF]%%"
           "{% if profile.name == 'x' %}a{%/if%}{% if Tier %}b{%/if%}" [] 0 0
           (TState ["Tier"] {[ "name" ]}) "Tier").
  - vm_compute. reflexivity.
  - vm_compute. constructor.
Defined.

(** ** The order of the literal replacements *)

Lemma insert_row_perm r l : Permutation (V4.insert_row r l) (r :: l).
Proof.
  induction l as [|r' l IH]; [reflexivity|].
  cbn [V4.insert_row]. destruct (V4.sort_key r <? V4.sort_key r'); [|reflexivity].
  rewrite IH. apply perm_swap.
Qed.

Lemma insert_row_sorted r l :
  StronglySorted (λ a b, V4.sort_key b ≤ V4.sort_key a) l →
  StronglySorted (λ a b, V4.sort_key b ≤ V4.sort_key a) (V4.insert_row r l).
Proof.
  induction 1 as [|r' l Hl IH Hall]; [repeat constructor|].
  cbn [V4.insert_row]. destruct (V4.sort_key r <? V4.sort_key r') eqn:E.
  - apply Nat.ltb_lt in E. constructor; [exact IH|].
    rewrite (insert_row_perm r l). constructor; [lia | exact Hall].
  - apply Nat.ltb_ge in E. constructor; [constructor; assumption|].
    constructor; [exact E|].
    eapply Forall_impl; [exact Hall|]. cbn. intros a Ha. lia.
Qed.

Lemma insert_row_filter k r l :
  List.filter (λ a, V4.sort_key a =? k) (V4.insert_row r l)
  = List.filter (λ a, V4.sort_key a =? k) (r :: l).
Proof.
  induction l as [|r' l IH]; [reflexivity|].
  cbn [V4.insert_row]. destruct (V4.sort_key r <? V4.sort_key r') eqn:E; [|reflexivity].
  apply Nat.ltb_lt in E. cbn [List.filter] in *. rewrite IH.
  destruct (V4.sort_key r =? k) eqn:Er; [|reflexivity].
  apply Nat.eqb_eq in Er.
  destruct (V4.sort_key r' =? k) eqn:Er'; [|reflexivity].
  apply Nat.eqb_eq in Er'. lia.
Qed.

(** X11.  The rows of the sheet are applied longest source first: the
    sorted rows are the rows of the sheet in another order, the length of
    the trimmed source never grows from one row to a later one, and rows
    whose trimmed sources have the same length keep the order of the
    sheet. *)
Theorem rows_are_sorted_longest_first (df : list row) :
  Permutation (V4.sorted_rows df) df
  ∧ StronglySorted (λ a b, V4.sort_key b ≤ V4.sort_key a) (V4.sorted_rows df)
  ∧ ∀ k, List.filter (λ a, V4.sort_key a =? k) (V4.sorted_rows df)
         = List.filter (λ a, V4.sort_key a =? k) df.
Proof.
  unfold V4.sorted_rows. induction df as [|r df (Hperm & Hsorted & Hstable)].
  - repeat split; constructor.
  - cbn [foldr]. split; [|split].
    + rewrite insert_row_perm. constructor. exact Hperm.
    + apply insert_row_sorted, Hsorted.
    + intros k. rewrite insert_row_filter. cbn [List.filter]. rewrite Hstable. reflexivity.
Qed.

(** ** The counters of the literal pass *)

Section Counters.
Variable expand_template : string → option (re_match → string).

Lemma literal_step_counters acc r work total_found total_replaced :
  (∀ w f n, acc = Some (w, f, n) → n ≤ f) →
  V4.literal_step expand_template acc r = Some (work, total_found, total_replaced) →
  total_replaced ≤ total_found.
Proof.
  intros Hacc. unfold V4.literal_step.
  destruct acc as [[[w f] n]|]; [|discriminate].
  specialize (Hacc w f n eq_refl). cbn [mbind option_bind].
  destruct (Py.strip (SFMC r)) as [|c s]; [intros [= <- <- <-]; exact Hacc|].
  destruct (V4.build_flex_regex (String c s)) as [pattern|]; [|discriminate].
  cbn [mbind option_bind].
  destruct (finditer true pattern w) as [|m ms] eqn:Em; [intros [= <- <- <-]; exact Hacc|].
  destruct (Py.strip (AJO r)) as [|c' s'].
  - intros [= <- <- <-]. lia.
  - destruct (expand_template (String c' s')) as [f'|]; [|discriminate].
    cbn [mbind option_bind]. unfold subn. rewrite Em.
    intros [= <- <- <-]. lia.
Qed.

Lemma literal_steps_counters rows acc work total_found total_replaced :
  (∀ w f n, acc = Some (w, f, n) → n ≤ f) →
  foldl (V4.literal_step expand_template) acc rows
  = Some (work, total_found, total_replaced) →
  total_replaced ≤ total_found.
Proof.
  revert acc. induction rows as [|r rows IH]; intros acc Hacc H.
  - apply (Hacc _ _ _ H).
  - cbn [foldl] in H. apply (IH _ (λ w f n, literal_step_counters acc r w f n Hacc) H).
Qed.

End Counters.

(** X12.  When the literal pass returns, the number of substitutions it
    reports is at most the number of matches it reports, whatever the
    sheet and the document. *)
Theorem substitutions_never_exceed_matches
  (expand_template : string → option (re_match → string))
  (df : list row) (html_after_if work : string) (total_found total_replaced : nat) :
  V4.literal_pass expand_template df html_after_if
  = Some (work, total_found, total_replaced) →
  total_replaced ≤ total_found.
Proof.
  unfold V4.literal_pass. apply literal_steps_counters.
  intros w f n [= _ <- <-]. lia.
Qed.

Lemma substitutions_never_exceed_matches_witness : 2 ≤ 3.
Proof.
  apply (substitutions_never_exceed_matches (λ t, Some (λ _, t))
           [Row "x y" " "; Row "Hello   World" "Hi"] "hello world, HELLOWORLD x  Y"
           "Hi, Hi x  Y" 3 2).
  vm_compute. reflexivity.
Defined.

(** ** Conditions without a variable *)

Lemma lower_at c : Chr.lower c = "@"%char → c = "@"%char.
Proof. by_cases_on c. Qed.

Lemma contains_char_none x s :
  Py.all (λ d, negb (d =? x)%char) s = true → Py.contains (String x EmptyString) s = false.
Proof.
  induction s as [|c s IH]; [reflexivity|].
  cbn [Py.all]. intros [Hc Hs]%andb_true_iff. rewrite contains_unfold, prefix_cons.
  apply negb_true_iff in Hc. rewrite Ascii.eqb_sym, Hc. cbn [andb orb]. apply IH, Hs.
Qed.

Lemma all_lstrip p s : Py.all p s = true → Py.all p (Py.lstrip s) = true.
Proof.
  induction s as [|c s IH]; [reflexivity|].
  intros H. cbn [Py.lstrip]. destruct (Chr.is_space c); [|exact H].
  cbn [Py.all] in H. apply andb_true_iff in H as [_ H]. apply IH, H.
Qed.

Lemma all_rstrip p s : Py.all p s = true → Py.all p (Py.rstrip s) = true.
Proof.
  induction s as [|c s IH]; [reflexivity|].
  cbn [Py.all]. intros [Hc Hs]%andb_true_iff. cbn [Py.rstrip].
  specialize (IH Hs). destruct (Py.rstrip s) as [|d r].
  - destruct (Chr.is_space c); [reflexivity|]. cbn [Py.all]. rewrite Hc. reflexivity.
  - cbn [Py.all] in *. rewrite Hc, IH. reflexivity.
Qed.

Lemma all_strip p s : Py.all p s = true → Py.all p (Py.strip s) = true.
Proof. intros H. apply all_rstrip, all_lstrip, H. Qed.

(** A pattern that needs the at sign finds nothing in a text without
    one. *)
Lemma nothing_without_at r s :
  needs "@" r →
  Py.all (λ d, negb (d =? "@")%char) s = true →
  finditer true r s = [].
Proof.
  intros Hr Hs. unfold finditer, segments.
  rewrite scan_nothing; [apply hits_only_gaps|].
  intros a b pv' ->. apply (no_match_without "@"); [exact Hr|].
  change (Py.lower "@") with "@". apply contains_char_none.
  apply all_app_inv in Hs as [_ Hs].
  apply (all_lower (λ d, negb (d =? "@")%char)); [|exact Hs].
  intros c Hc. apply negb_true_iff in Hc. apply negb_true_iff.
  destruct (Chr.lower c =? "@")%char eqn:E; [|reflexivity].
  apply Ascii.eqb_eq, lower_at in E. subst c. discriminate Hc.
Qed.

Ltac needs_at :=
  repeat first [ apply needs_lit
               | apply needs_seq_l; apply needs_lit
               | apply needs_seq_r ].

Lemma forms_need_at :
  needs "@" var_ref ∧ needs "@" V4.re_not_empty ∧ needs "@" V4.re_empty
  ∧ needs "@" V4.re_contains ∧ needs "@" V4.re_cmp ∧ needs "@" V4.re_truthy.
Proof.
  unfold var_ref, V4.re_not_empty, V4.re_empty, V4.re_contains, V4.re_cmp, V4.re_truthy,
    V4.var_in_parens.
  cbn [seqs]. repeat split; needs_at.
Qed.

(** X13.  A condition that holds no at sign and does not begin, once
    trimmed and in lower case, with the keyword [elseif] and a blank is
    not translated: the result is the diagnostic comment around the
    condition as it was given, white space included, and the warnings and
    the covered set stay as they were. *)
Theorem condition_without_variable_is_left_as_comment
  (cond : string) (var_expr : gmap string string) (st : tstate) :
  Py.all (λ d, negb (d =? "@")%char) cond = true →
  V4.is_elseif (Py.strip cond) = false →
  V4.translate_condition_to_liquid cond var_expr st
  = ("<!-- Untranslated condition: " +:+ cond +:+ " -->", st).
Proof.
  intros Hat Helse. apply (all_strip _ cond) in Hat.
  destruct forms_need_at as (Hv & H1 & H2 & H3 & H4 & H5).
  rewrite v4_translate_unfold.
  assert (Hnote : V4.note_vars (Py.strip cond) st = st).
  { unfold V4.note_vars, findall1. rewrite (nothing_without_at _ _ Hv Hat). reflexivity. }
  rewrite Hnote. unfold V4.translate_forms, search.
  rewrite (nothing_without_at _ _ H1 Hat), (nothing_without_at _ _ H2 Hat),
    (nothing_without_at _ _ H3 Hat), (nothing_without_at _ _ H4 Hat),
    (nothing_without_at _ _ H5 Hat).
  cbn [head]. rewrite Helse. reflexivity.
Qed.

Lemma condition_without_variable_witness :
  V4.translate_condition_to_liquid " Now() > 5 " ∅ (TState [] ∅)
  = ("<!-- Untranslated condition:  Now() > 5  -->", TState [] ∅).
Proof.
  apply (condition_without_variable_is_left_as_comment " Now() > 5 " ∅ (TState [] ∅));
    reflexivity.
Defined.

(** ** The forms of a condition *)

Lemma space_lower c : Chr.is_space (Chr.lower c) = Chr.is_space c.
Proof. by_cases_on c. Qed.

Lemma space_not_word c : Chr.is_space c = true → Chr.is_word c = false.
Proof. by_cases_on c. Qed.

(** A pattern that matches at the start of a text is what a search
    reports. *)
Lemma search_at_start ic r x m t st' :
  first_match ic r (start_state None (String x m +:+ t)) Some = Some st' →
  rest st' = t →
  search ic r (String x m +:+ t) = Some (Match 0 (String x m) (caps st')).
Proof.
  intros H Hrest. unfold search, finditer, segments.
  rewrite (scan_hit ic r 0 None x m t st' H Hrest), hits_hit. reflexivity.
Qed.

(** White space ends where a keyword starts. *)
Lemma span_before_keyword w kw a l r :
  Py.all Chr.is_space w = true →
  Py.lower kw = Py.lower (String a l) →
  Chr.is_space a = false →
  Py.span Chr.is_space (w +:+ kw +:+ r) = String.length w.
Proof.
  intros Hw Hkw Ha. destruct kw as [|k kw]; [discriminate Hkw|].
  cbn [Py.lower] in Hkw. injection Hkw as Hk _.
  rewrite app_cons. apply span_stops; [exact Hw|].
  rewrite <- space_lower, Hk, space_lower. exact Ha.
Qed.

(** The first form, tried at the start of a condition that is written in
    it, reads the whole condition and captures the name. *)
Lemma not_empty_at kn w1 ke w2 w3 x X w4 :
  Py.lower kn = "not" → Py.lower ke = "empty" →
  Py.all Chr.is_space w1 = true → Py.all Chr.is_space w2 = true →
  Py.all Chr.is_space w3 = true → Py.all Chr.is_space w4 = true →
  Py.all Chr.is_word (String x X) = true →
  first_match true V4.re_not_empty
    (start_state None
       (kn +:+ w1 +:+ ke +:+ w2 +:+ String "(" (w3 +:+ String "@" (String x X +:+ w4 +:+ ")"))))
    Some
  = Some (MState (Some ")"%char) EmptyString [(1, String x X)]).
Proof.
  intros Hkn Hke Hw1 Hw2 Hw3 Hw4 Hword.
  cbn [Py.all] in Hword. apply andb_true_iff in Hword as [Hx HX].
  unfold V4.re_not_empty, V4.var_in_parens, start_state. cbn [seqs].
  rewrite first_match_seq, first_match_lit. cbn [prev rest caps].
  rewrite (eat_ci "not" kn) by exact Hkn.
  rewrite first_match_seq. unfold spaces0, space.
  rewrite first_match_star_cls. cbn [rest].
  rewrite (span_before_keyword w1 ke "e" "mpty") by (assumption || reflexivity).
  apply first_some_greedy. rewrite advance_app.
  rewrite first_match_seq, first_match_lit. cbn [prev rest caps].
  rewrite (eat_ci "empty" ke) by exact Hke.
  rewrite first_match_seq, first_match_star_cls. cbn [rest].
  rewrite (span_stops _ w2 "(") by (assumption || reflexivity).
  apply first_some_greedy. rewrite advance_app.
  rewrite first_match_seq, first_match_lit. cbn [prev rest caps eat].
  rewrite eqb_ci_refl.
  rewrite first_match_seq, first_match_star_cls. cbn [rest].
  rewrite (span_stops _ w3 "@") by (assumption || reflexivity).
  apply first_some_greedy. rewrite advance_app.
  rewrite first_match_seq, first_match_lit. cbn [prev rest caps eat].
  rewrite eqb_ci_refl.
  rewrite first_match_seq, first_match_group. unfold Plus, word.
  rewrite first_match_seq, first_match_cls. cbn [rest caps].
  rewrite app_cons, Hx, first_match_star_cls. cbn [rest].
  rewrite (span_then _ Chr.is_space X w4 ")")
    by (assumption || reflexivity || exact space_not_word).
  apply first_some_greedy. rewrite advance_app.
  unfold with_group. cbn [prev rest caps].
  rewrite <- app_cons, consumed_app.
  rewrite first_match_seq, first_match_star_cls. cbn [rest].
  rewrite (span_stops _ w4 ")") by (assumption || reflexivity).
  apply first_some_greedy. rewrite advance_app.
  rewrite first_match_lit. cbn [prev rest caps eat]. rewrite eqb_ci_refl. reflexivity.
Qed.

Lemma lower_n_not_space c : Chr.lower c = "n"%char → Chr.is_space c = false.
Proof. by_cases_on c. Qed.

(** A text that starts with a character that is no white space and ends
    with a text that trimming keeps is its own trimmed text. *)
Lemma strip_keeps c s b :
  Chr.is_space c = false → b ≠ EmptyString → Py.rstrip b = b →
  Py.strip (String c s +:+ b) = String c s +:+ b.
Proof.
  intros Hc Hb Hr. unfold Py.strip. rewrite app_cons. cbn [Py.lstrip]. rewrite Hc.
  rewrite <- app_cons. apply rstrip_keeps; assumption.
Qed.

Lemma search_whole ic r x m st' :
  first_match ic r (start_state None (String x m)) Some = Some st' →
  rest st' = EmptyString →
  search ic r (String x m) = Some (Match 0 (String x m) (caps st')).
Proof.
  intros H Hrest. rewrite <- (app_empty_r (String x m)) at 1.
  apply search_at_start; [rewrite app_empty_r; exact H | exact Hrest].
Qed.

(** X14.  The first form of a condition: the keyword NOT, the keyword
    EMPTY and a variable in parentheses, in any case and with white space
    or none between the parts.  The translation tests that the length of
    the resolved expression is positive: the mapped expression when the
    name, in lower case, has an entry, the name as written otherwise. *)
Theorem not_empty_form_is_translated
  (kn w1 ke w2 w3 X w4 : string) (var_expr : gmap string string) (st : tstate) :
  Py.lower kn = "not" → Py.lower ke = "empty" →
  Py.all Chr.is_space w1 = true → Py.all Chr.is_space w2 = true →
  Py.all Chr.is_space w3 = true → Py.all Chr.is_space w4 = true →
  X ≠ EmptyString → Py.all Chr.is_word X = true →
  (V4.translate_condition_to_liquid
     (kn +:+ w1 +:+ ke +:+ w2 +:+ "(" +:+ w3 +:+ "@" +:+ X +:+ w4 +:+ ")") var_expr st).1
  = "{% if length(" +:+ V4.resolve_expr X var_expr +:+ ") > 0 %}".
Proof.
  intros Hkn Hke Hw1 Hw2 Hw3 Hw4 HX Hword.
  destruct X as [|x X]; [congruence|]. clear HX.
  pose proof (not_empty_at kn w1 ke w2 w3 x X w4 Hkn Hke Hw1 Hw2 Hw3 Hw4 Hword) as Hmatch.
  change (kn +:+ w1 +:+ ke +:+ w2 +:+ "(" +:+ w3 +:+ "@" +:+ String x X +:+ w4 +:+ ")")
    with (kn +:+ w1 +:+ ke +:+ w2 +:+ String "(" (w3 +:+ String "@" (String x X +:+ w4 +:+ ")"))).
  set (tail := w1 +:+ ke +:+ w2 +:+ String "(" (w3 +:+ String "@" (String x X +:+ w4 +:+ ")")))
    in *.
  destruct kn as [|k kn]; [discriminate Hkn|].
  assert (Hk : Chr.is_space k = false).
  { cbn [Py.lower] in Hkn. injection Hkn as Hk _. apply lower_n_not_space, Hk. }
  assert (Hstrip : Py.strip (String k kn +:+ tail) = String k kn +:+ tail).
  { unfold tail.
    replace (String k kn +:+ w1 +:+ ke +:+ w2 +:+ String "(" (w3 +:+ String "@" (String x X +:+ w4 +:+ ")")))
      with (String k (kn +:+ w1 +:+ ke +:+ w2 +:+ String "(" (w3 +:+ String "@" (String x X +:+ w4)))
            +:+ ")") by (norm_text; reflexivity).
    apply strip_keeps; [exact Hk | discriminate | reflexivity]. }
  rewrite v4_translate_unfold, Hstrip. unfold V4.translate_forms.
  rewrite app_cons in Hmatch |- *.
  rewrite (search_whole true V4.re_not_empty _ _ _ Hmatch eq_refl).
  cbn [caps]. change (group_or_empty _ 1) with (String x X).
  unfold V4.learn_expr. case_bool_decide; reflexivity.
Qed.

Lemma not_empty_form_witness :
  (V4.translate_condition_to_liquid
     ("Not" +:+ " " +:+ "EMPTY" +:+ "" +:+ "(" +:+ " " +:+ "@" +:+ "FirstName" +:+ "" +:+ ")")
     {[ "firstname" := "profile.person.name.firstName" ]} (TState [] ∅)).1
  = "{% if length(" +:+ V4.resolve_expr "FirstName"
                          {[ "firstname" := "profile.person.name.firstName" ]}
    +:+ ") > 0 %}".
Proof.
  apply (not_empty_form_is_translated "Not" " " "EMPTY" "" " " "FirstName" "");
    (reflexivity || discriminate).
Defined.

(** ** A condition that is a variable alone *)

Lemma first_match_bol {A} ic (k : mstate → option A) st :
  first_match ic Bol st k = match prev st with None => k st | Some _ => None end.
Proof.
  unfold first_match. cbn [rmatch]. destruct (prev st); [reflexivity|].
  cbn [first_some]. destruct (k st); reflexivity.
Qed.

Lemma first_match_eol_end {A} ic (k : mstate → option A) pv cs :
  first_match ic Eol (MState pv EmptyString cs) k = k (MState pv EmptyString cs).
Proof. unfold first_match. cbn [rmatch rest first_some]. destruct (k _); reflexivity. Qed.

Lemma span_full p s : Py.all p s = true → Py.span p s = String.length s.
Proof.
  intros H. rewrite <- (app_empty_r s) at 1. rewrite span_all by exact H.
  cbn [Py.span]. lia.
Qed.

Lemma advance_all s pv cs :
  advance (String.length s) (MState pv s cs) = MState (Py.last_or pv s) EmptyString cs.
Proof.
  pose proof (advance_app s EmptyString pv cs) as H. rewrite app_empty_r in H. exact H.
Qed.

Lemma consumed_all s pv cs pv' cs' :
  consumed (MState pv s cs) (MState pv' EmptyString cs') = s.
Proof.
  pose proof (consumed_app s EmptyString pv cs pv' cs') as H.
  rewrite app_empty_r in H. exact H.
Qed.

Lemma rstrip_nospace s :
  Py.all (λ c, negb (Chr.is_space c)) s = true → Py.rstrip s = s.
Proof.
  induction s as [|c s IH]; [reflexivity|].
  cbn [Py.all]. intros [Hc Hs]%andb_true_iff. cbn [Py.rstrip]. rewrite (IH Hs).
  destruct s; [|reflexivity]. apply negb_true_iff in Hc. rewrite Hc. reflexivity.
Qed.

Lemma needs_alt l a b : needs l a → needs l b → needs l (Alt a b).
Proof.
  intros Ha Hb st st' Hin. cbn [rmatch] in Hin.
  apply in_app_or in Hin as [Hin|Hin]; [eapply Ha | eapply Hb]; exact Hin.
Qed.

(** A literal of two characters needs its second character. *)
Lemma needs_second a b : needs (String b EmptyString) (Lit (String a (String b EmptyString))).
Proof.
  intros st st' Hin. apply in_rmatch_lit in Hin as (l' & E & Hl).
  destruct l' as [|c1 [|c2 [|c3 l']]]; try discriminate Hl.
  cbn [Py.lower] in Hl. injection Hl as _ H2.
  exists (String c1 EmptyString), (String c2 EmptyString), (rest st').
  split; [exact E|]. cbn [Py.lower]. rewrite H2. reflexivity.
Qed.

Lemma lower_lparen c : Chr.lower c = "("%char → c = "("%char.
Proof. by_cases_on c. Qed.

Lemma lower_equals c : Chr.lower c = "="%char → c = "="%char.
Proof. by_cases_on c. Qed.

Lemma word_plain c :
  Chr.is_word c = true →
  negb (c =? "(")%char = true ∧ negb (c =? "=")%char = true
  ∧ negb (Chr.is_space c) = true.
Proof. by_cases_on c. Qed.

(** A pattern that needs a character without case finds nothing in a
    text that does not hold the character. *)
Lemma nothing_without_char x r s :
  (∀ c, Chr.lower c = x → c = x) → Chr.lower x = x →
  needs (String x EmptyString) r →
  Py.all (λ d, negb (d =? x)%char) s = true →
  finditer true r s = [].
Proof.
  intros Hx Hxx Hr Hs. unfold finditer, segments.
  rewrite scan_nothing; [apply hits_only_gaps|].
  intros a b pv' ->. apply (no_match_without (String x EmptyString)); [exact Hr|].
  cbn [Py.lower]. rewrite Hxx. apply contains_char_none.
  apply all_app_inv in Hs as [_ Hs].
  apply (all_lower (λ d, negb (d =? x)%char)); [|exact Hs].
  intros c Hc. apply negb_true_iff in Hc. apply negb_true_iff.
  destruct (Chr.lower c =? x)%char eqn:E; [|reflexivity].
  apply Ascii.eqb_eq, Hx in E. subst c. rewrite Ascii.eqb_refl in Hc. discriminate Hc.
Qed.

Lemma truthy_at x X :
  Py.all Chr.is_word (String x X) = true →
  first_match true V4.re_truthy (start_state None (String "@" (String x X))) Some
  = Some (MState (Py.last_or (Some x) X) EmptyString [(1, String x X)]).
Proof.
  cbn [Py.all]. intros [Hx HX]%andb_true_iff.
  unfold V4.re_truthy, start_state. cbn [seqs].
  rewrite first_match_seq, first_match_bol. cbn [prev].
  rewrite first_match_seq. unfold spaces0, space.
  rewrite first_match_star_cls. cbn [rest Py.span Chr.is_space].
  change (Chr.is_space "@") with false. cbv iota.
  apply first_some_greedy. rewrite advance_0.
  rewrite first_match_seq, first_match_lit. cbn [prev rest caps eat].
  rewrite eqb_ci_refl.
  rewrite first_match_seq, first_match_group. unfold Plus, word.
  rewrite first_match_seq, first_match_cls. cbn [rest caps]. rewrite Hx.
  rewrite first_match_star_cls. cbn [rest]. rewrite (span_full _ X HX).
  apply first_some_greedy.
  rewrite advance_all.
  unfold with_group. cbn [prev rest caps]. rewrite consumed_all.
  rewrite first_match_seq, first_match_star_cls. cbn [rest Py.span].
  apply first_some_greedy. rewrite advance_0.
  rewrite first_match_eol_end. reflexivity.
Qed.

(** X15.  The last form of a condition: a variable alone.  When the
    condition is the at sign followed by a name, the translation is the
    plain test of the resolved expression. *)
Theorem variable_alone_is_translated
  (X : string) (var_expr : gmap string string) (st : tstate) :
  X ≠ EmptyString → Py.all Chr.is_word X = true →
  (V4.translate_condition_to_liquid ("@" +:+ X) var_expr st).1
  = "{% if " +:+ V4.resolve_expr X var_expr +:+ " %}".
Proof.
  intros HX Hword. destruct X as [|x X]; [congruence|]. clear HX.
  change ("@" +:+ String x X) with (String "@" (String x X)).
  assert (Hplain : ∀ c, Chr.is_word c = true →
            negb (c =? "(")%char = true ∧ negb (c =? "=")%char = true
            ∧ negb (Chr.is_space c) = true) by exact word_plain.
  assert (Hat : ∀ q : ascii → bool, q "@"%char = true →
            (∀ c, Chr.is_word c = true → q c = true) →
            Py.all q (String "@" (String x X)) = true).
  { intros q Hq Himpl. change (Py.all q (String "@" (String x X)))
      with (q "@"%char && Py.all q (String x X)).
    rewrite Hq. apply (all_impl Chr.is_word); assumption. }
  assert (Hstrip : Py.strip (String "@" (String x X)) = String "@" (String x X)).
  { unfold Py.strip. cbn [Py.lstrip]. change (Chr.is_space "@") with false. cbv iota.
    apply rstrip_nospace, Hat; [reflexivity|]. intros c Hc. apply Hplain, Hc. }
  assert (Hparen : Py.all (λ d, negb (d =? "(")%char) (String "@" (String x X)) = true).
  { apply Hat; [reflexivity|]. intros c Hc. apply Hplain, Hc. }
  assert (Hequals : Py.all (λ d, negb (d =? "=")%char) (String "@" (String x X)) = true).
  { apply Hat; [reflexivity|]. intros c Hc. apply Hplain, Hc. }
  assert (H1 : needs "(" V4.re_not_empty ∧ needs "(" V4.re_empty ∧ needs "(" V4.re_contains).
  { unfold V4.re_not_empty, V4.re_empty, V4.re_contains, V4.var_in_parens. cbn [seqs].
    repeat split;
      repeat first [ apply needs_lit | apply needs_seq_l; apply needs_lit | apply needs_seq_r ]. }
  destruct H1 as (Hn1 & Hn2 & Hn3).
  assert (Hn4 : needs "=" V4.re_cmp).
  { unfold V4.re_cmp. cbn [seqs]. do 3 apply needs_seq_r.
    apply needs_seq_l, needs_group, needs_alt; apply needs_second. }
  rewrite v4_translate_unfold, Hstrip. unfold V4.translate_forms, search.
  rewrite (nothing_without_char "(" _ _ lower_lparen eq_refl Hn1 Hparen).
  rewrite (nothing_without_char "(" _ _ lower_lparen eq_refl Hn2 Hparen).
  rewrite (nothing_without_char "(" _ _ lower_lparen eq_refl Hn3 Hparen).
  rewrite (nothing_without_char "=" _ _ lower_equals eq_refl Hn4 Hequals).
  cbn [head].
  pose proof (search_whole true V4.re_truthy _ _ _ (truthy_at x X Hword) eq_refl) as Hs.
  unfold search in Hs. rewrite Hs.
  cbn [caps]. change (group_or_empty _ 1) with (String x X).
  unfold V4.learn_expr. case_bool_decide; reflexivity.
Qed.

Lemma variable_alone_witness :
  (V4.translate_condition_to_liquid ("@" +:+ "IsMember") ∅ (TState [] ∅)).1
  = "{% if " +:+ V4.resolve_expr "IsMember" ∅ +:+ " %}".
Proof.
  apply (variable_alone_is_translated "IsMember" ∅ (TState [] ∅));
    (reflexivity || discriminate).
Defined.

(** ** Texts cut at a character, and trailing white space *)

(** Two texts that agree are cut in the same way at the first character
    outside a class. *)
Lemma run_prefix_unique (p : ascii → bool) c p1 t1 p2 t2 :
  p c = false → Py.all p p1 = true → Py.all p p2 = true →
  p1 +:+ String c t1 = p2 +:+ String c t2 → p1 = p2.
Proof.
  intros Hc. revert p2; induction p1 as [|a p1 IH]; intros [|b p2] H1 H2 H;
    rewrite ?app_cons, ?app_empty_l in H.
  - reflexivity.
  - injection H as <- _. cbn [Py.all] in H2. rewrite Hc in H2. discriminate H2.
  - injection H as -> _. cbn [Py.all] in H1. rewrite Hc in H1. discriminate H1.
  - injection H as -> H. f_equal.
    cbn [Py.all] in H1, H2.
    apply andb_true_iff in H1 as [_ H1]. apply andb_true_iff in H2 as [_ H2].
    apply IH; assumption.
Qed.

Lemma rstrip_spaces s : Py.all Chr.is_space s = true → Py.rstrip s = EmptyString.
Proof.
  induction s as [|c s IH]; [reflexivity|].
  cbn [Py.all]. intros [Hc Hs]%andb_true_iff. cbn [Py.rstrip].
  rewrite (IH Hs), Hc. reflexivity.
Qed.

Lemma rstrip_app_spaces u s :
  Py.all Chr.is_space s = true → Py.rstrip (u +:+ s) = Py.rstrip u.
Proof.
  intros Hs. induction u as [|c u IH]; [apply rstrip_spaces, Hs|].
  rewrite app_cons. cbn [Py.rstrip]. rewrite IH. reflexivity.
Qed.

(** A trimmed text has no suffix of white space. *)
Lemma no_blank_suffix u s :
  Py.rstrip (u +:+ s) = u +:+ s → Py.all Chr.is_space s = true → s = EmptyString.
Proof.
  intros Hr Hs. rewrite rstrip_app_spaces in Hr by exact Hs.
  pose proof (length_rstrip u) as Hlen. rewrite Hr, length_app in Hlen.
  destruct s; [reflexivity | simpl in Hlen; lia].
Qed.

Lemma app_inj_length_r x t y k :
  String.length t = String.length k → x +:+ t = y +:+ k → x = y ∧ t = k.
Proof.
  intros Hlen. revert y; induction x as [|a x IH]; intros [|b y] H;
    rewrite ?app_cons, ?app_empty_l in H.
  - split; [reflexivity | exact H].
  - exfalso. rewrite H in Hlen. simpl in Hlen. rewrite length_app in Hlen. lia.
  - exfalso. rewrite <- H in Hlen. simpl in Hlen. rewrite length_app in Hlen. lia.
  - injection H as -> H. destruct (IH y H) as [-> ->]. split; reflexivity.
Qed.

(** A text in a class, read through the lower case. *)
Lemma all_of_lower (p q : ascii → bool) s :
  (∀ c, q (Chr.lower c) = true → p c = true) →
  Py.all q (Py.lower s) = true → Py.all p s = true.
Proof.
  intros H. induction s as [|c s IH]; [reflexivity|].
  cbn [Py.all Py.lower]. intros [Hc Hs]%andb_true_iff.
  rewrite (H c Hc), IH by exact Hs. reflexivity.
Qed.

Lemma lower_rbracket c : Chr.lower c = "]"%char → c = "]"%char.
Proof. by_cases_on c. Qed.

Lemma lower_lbracket c : Chr.lower c = "["%char → c = "["%char.
Proof. by_cases_on c. Qed.

Lemma not_rbracket_of_lower c :
  negb (Chr.lower c =? "]")%char = true → negb (c =? "]")%char = true.
Proof. by_cases_on c. Qed.

Lemma not_space_of_lower c :
  negb (Chr.is_space (Chr.lower c)) = true → negb (Chr.is_space c) = true.
Proof. rewrite space_lower. auto. Qed.

Lemma space_not_rbracket c : Chr.is_space c = true → negb (c =? "]")%char = true.
Proof. by_cases_on c. Qed.

(** The opener of a block, read without regard to case, is the opener
    itself. *)
Lemma eat_block_opener pv s pv' t :
  eat true "%%[" pv s = Some (pv', t) → String.prefix "%%[" s = true.
Proof.
  intros (l' & -> & _ & Hl & _)%eat_inv.
  destruct l' as [|c1 [|c2 [|c3 [|c4 l']]]]; try discriminate Hl.
  cbn [Py.lower] in Hl. injection Hl as H1 H2 H3.
  apply lower_percent in H1, H2. apply lower_lbracket in H3. subst c1 c2 c3.
  rewrite !app_cons, !prefix_cons, !Ascii.eqb_refl. apply prefix_empty.
Qed.

(** The opener of a block does not start inside a text that does not
    hold it, even when an opener follows the text. *)
Lemma no_opener_before_opener u b r :
  Py.contains "%%[" (u +:+ b) = false → b ≠ EmptyString →
  String.prefix "%%[" (b +:+ "%%[" +:+ r) = false.
Proof.
  intros H Hb. apply contains_no_prefix in H.
  destruct b as [|c1 [|c2 [|c3 b]]]; [congruence| | |].
  - rewrite app_cons, app_empty_l. change ("%%[" +:+ r) with (String "%" (String "%" (String "[" r))).
    rewrite !prefix_cons. change ("[" =? "%")%char with false.
    rewrite andb_false_l, !andb_false_r. reflexivity.
  - rewrite !app_cons, app_empty_l. change ("%%[" +:+ r) with (String "%" (String "%" (String "[" r))).
    rewrite !prefix_cons. change ("[" =? "%")%char with false.
    rewrite andb_false_l, !andb_false_r. reflexivity.
  - rewrite !app_cons, !prefix_cons, prefix_empty.
    rewrite !prefix_cons, prefix_empty in H. exact H.
Qed.

(** ** Where the parts of a block cannot end *)

Lemma first_match_nothing {A} ic r st (k : mstate → option A) :
  (∀ st', ¬ In st' (rmatch ic r st)) → first_match ic r st k = None.
Proof.
  intros H. unfold first_match. destruct (rmatch ic r st) as [|st' l]; [reflexivity|].
  exfalso. apply (H st'). left. reflexivity.
Qed.

Lemma in_opener st st' :
  In st' (rmatch true (Lit "%%[") st) → String.prefix "%%[" (rest st) = true.
Proof.
  intros H. cbn [rmatch] in H.
  destruct (eat true "%%[" (prev st) (rest st)) as [[pv t]|] eqn:E; [|destruct H].
  apply eat_block_opener in E. exact E.
Qed.

Lemma in_closer st st' :
  In st' (rmatch true (Lit "]%%") st) → ∃ t, rest st = String "]" t.
Proof.
  intros (l' & E & Hl)%in_rmatch_lit.
  destruct l' as [|c1 l']; [discriminate Hl|].
  cbn [Py.lower] in Hl. injection Hl as H1 _. apply lower_rbracket in H1. subst c1.
  rewrite E, app_cons. eauto.
Qed.

(** What the optional keyword and the white space before the closer of
    the opener read: white space alone, or white space, the keyword and
    white space. *)
Lemma before_closer_shape rest_re st st' :
  In st' (rmatch true
            (Seq (Opt true (Seq spaces1 (Lit "THEN")))
                 (Seq spaces0 (Seq (Lit "]%%") rest_re))) st) →
  ∃ a t, rest st = a +:+ String "]" t
         ∧ Py.all (λ c, negb (c =? "]")%char) a = true
         ∧ (Py.all Chr.is_space a = true
            ∨ ∃ w kw w', a = w +:+ kw +:+ w' ∧ Py.all Chr.is_space w = true
                         ∧ Py.lower kw = "then" ∧ Py.all Chr.is_space w' = true).
Proof.
  intros Hin.
  apply in_rmatch_seq in Hin as (s1 & H1 & Hin).
  apply in_rmatch_seq in Hin as (s2 & H2 & Hin).
  apply in_rmatch_seq in Hin as (s3 & H3 & _).
  unfold spaces0, space in H2. apply in_rmatch_star_cls in H2 as (w' & E2 & Hw').
  apply in_closer in H3 as [t E3].
  assert (Hsp : ∀ s, Py.all Chr.is_space s = true →
            Py.all (λ c, negb (c =? "]")%char) s = true)
    by (intros s; apply all_impl, space_not_rbracket).
  unfold Opt in H1. cbn [rmatch] in H1. apply in_app_or in H1 as [H1|[<-|[]]].
  - change (In s1 (rmatch true (Seq spaces1 (Lit "THEN")) st)) in H1.
    apply in_rmatch_seq in H1 as (sa & Ha & H1).
    unfold spaces1, Plus, space in Ha.
    apply in_rmatch_seq in Ha as (sb & Hb & Ha).
    apply in_rmatch_cls in Hb as (sp & Eb & Hsp1).
    apply in_rmatch_star_cls in Ha as (w & Ea & Hw).
    apply in_rmatch_lit in H1 as (kw & E1 & Hkw).
    change (Py.lower "THEN") with "then" in Hkw.
    exists (String sp w +:+ kw +:+ w'), t. split; [|split].
    + rewrite Eb, Ea, E1, E2, E3. norm_text. reflexivity.
    + rewrite !all_app. cbn [Py.all].
      rewrite (space_not_rbracket sp Hsp1), (Hsp w Hw), (Hsp w' Hw'). cbn [andb].
      rewrite andb_true_r.
      apply (all_of_lower _ (λ c, negb (c =? "]")%char)); [exact not_rbracket_of_lower|].
      rewrite Hkw. reflexivity.
    + right. exists (String sp w), kw, w'. repeat split; try assumption.
      cbn [Py.all]. rewrite Hsp1, Hw. reflexivity.
  - exists w', t. split; [|split].
    + rewrite E2, E3. reflexivity.
    + apply Hsp, Hw'.
    + left. exact Hw'.
Qed.

(** The lazy group of the condition does not stop before the end of a
    trimmed condition without closing bracket. *)
Lemma condition_not_cut_short {A} rest_re st u s w2 kthen w3 z (k : mstate → option A) :
  rest st = s +:+ w2 +:+ kthen +:+ w3 +:+ String "]" z →
  s ≠ EmptyString →
  Py.rstrip (u +:+ s) = u +:+ s →
  Py.all (λ c, negb (c =? "]")%char) s = true →
  Py.all Chr.is_space w2 = true → Py.all Chr.is_space w3 = true →
  Py.lower kthen = "then" →
  first_match true
    (Seq (Opt true (Seq spaces1 (Lit "THEN")))
         (Seq spaces0 (Seq (Lit "]%%") rest_re))) st k = None.
Proof.
  intros Hrest Hs Htrim Hclean Hw2 Hw3 Hkthen. apply first_match_nothing. intros st' Hin.
  apply before_closer_shape in Hin as (a & t & E & Ha & Hshape).
  assert (Hsp : ∀ s, Py.all Chr.is_space s = true →
            Py.all (λ c, negb (c =? "]")%char) s = true)
    by (intros s0; apply all_impl, space_not_rbracket).
  assert (Hkclean : Py.all (λ c, negb (c =? "]")%char) kthen = true).
  { apply (all_of_lower _ (λ c, negb (c =? "]")%char)); [exact not_rbracket_of_lower|].
    rewrite Hkthen. reflexivity. }
  assert (Hknospace : Py.all (λ c, negb (Chr.is_space c)) kthen = true).
  { apply (all_of_lower _ (λ c, negb (Chr.is_space c))); [exact not_space_of_lower|].
    rewrite Hkthen. reflexivity. }
  assert (Ea : ((s +:+ w2) +:+ kthen) +:+ w3 = a).
  { apply (run_prefix_unique (λ c, negb (c =? "]")%char) "]" _ z _ t); [reflexivity | | exact Ha |].
    - rewrite !all_app, Hclean, Hkclean, (Hsp w2 Hw2), (Hsp w3 Hw3). reflexivity.
    - rewrite <- E, Hrest. norm_text. reflexivity. }
  assert (Hkne : kthen ≠ EmptyString) by (intros ->; discriminate Hkthen).
  destruct Hshape as [Hblank|(w & kw & w' & -> & Hw & Hkw & Hw')].
  - (* white space alone *)
    rewrite <- Ea in Hblank.
    apply all_app_inv in Hblank as [Hblank _]. apply all_app_inv in Hblank as [Hblank _].
    apply all_app_inv in Hblank as [Hblank _].
    apply (no_blank_suffix u s Htrim) in Hblank. congruence.
  - (* white space, the keyword and white space *)
    assert (Hkwnospace : Py.all (λ c, negb (Chr.is_space c)) kw = true).
    { apply (all_of_lower _ (λ c, negb (Chr.is_space c))); [exact not_space_of_lower|].
      rewrite Hkw. reflexivity. }
    assert (Hkwne : kw ≠ EmptyString) by (intros ->; discriminate Hkw).
    assert (E1 : Py.rstrip (((s +:+ w2) +:+ kthen) +:+ w3) = (s +:+ w2) +:+ kthen).
    { rewrite rstrip_app_spaces by exact Hw3.
      apply rstrip_keeps; [exact Hkne | apply rstrip_nospace, Hknospace]. }
    assert (E2 : Py.rstrip (w +:+ kw +:+ w') = w +:+ kw).
    { rewrite <- app_assoc, rstrip_app_spaces by exact Hw'.
      apply rstrip_keeps; [exact Hkwne | apply rstrip_nospace, Hkwnospace]. }
    rewrite Ea, E2 in E1. symmetry in E1.
    apply app_inj_length_r in E1 as [E3 _].
    + assert (Hblank : Py.all Chr.is_space s = true).
      { rewrite <- E3 in Hw. apply all_app_inv in Hw as [Hw _]. exact Hw. }
      apply (no_blank_suffix u s Htrim) in Hblank. congruence.
    + rewrite <- (length_lower kthen), <- (length_lower kw), Hkthen, Hkw. reflexivity.
Qed.

(** The lazy group of the then-branch does not stop before the end of a
    branch that holds no opener of a block. *)
Lemma branch_not_cut_short {A} st u b r (k : mstate → option A) :
  rest st = b +:+ "%%[" +:+ r →
  b ≠ EmptyString →
  Py.contains "%%[" (u +:+ b) = false →
  first_match true
    (Seq (Group 3 (Opt true (seqs [Lit "%%["; spaces0; Lit "ELSE"; spaces0; Lit "]%%";
                                   Group 4 (Star false dot)])))
         V4.endif_closer) st k = None.
Proof.
  intros Hrest Hb Hthen. apply first_match_nothing. intros st' Hin.
  assert (Hno : String.prefix "%%[" (rest st) = false)
    by (rewrite Hrest; apply (no_opener_before_opener u); assumption).
  apply in_rmatch_seq in Hin as (s1 & H1 & Hin).
  apply in_rmatch_group in H1 as (sg & H1 & Eg).
  unfold Opt in H1. cbn [rmatch seqs] in H1. apply in_app_or in H1 as [H1|[<-|[]]].
  - apply in_flat_map in H1 as (sa & Ha & _).
    apply in_opener in Ha. congruence.
  - unfold V4.endif_closer in Hin. cbn [seqs] in Hin.
    apply in_rmatch_seq in Hin as (sa & Ha & _).
    apply in_opener in Ha. rewrite Eg in Ha. congruence.
Qed.

(** ** The pattern of a block at a block *)

Lemma first_some_run0 {B} (f : nat → option B) g : first_some f (run_lengths g 0) = f 0.
Proof. destruct g; cbn; destruct (f 0); reflexivity. Qed.

Lemma first_match_alt_left {A} ic a b st (k : mstate → option A) y :
  first_match ic a st k = Some y → first_match ic (Alt a b) st k = Some y.
Proof. intros H. rewrite first_match_alt, H. reflexivity. Qed.

Lemma span_at_keyword kw a l r :
  Py.lower kw = Py.lower (String a l) → Chr.is_space a = false →
  Py.span Chr.is_space (kw +:+ r) = 0.
Proof.
  intros Hkw Ha.
  pose proof (span_before_keyword EmptyString kw a l r eq_refl Hkw Ha) as H.
  rewrite app_empty_l in H. exact H.
Qed.

(** White space that is not there: the repetition reads nothing and the
    rest of the pattern goes on from the same place. *)
Lemma first_match_no_space {A} ic g st (k : mstate → option A) :
  Py.span Chr.is_space (rest st) = 0 →
  first_match ic (Star g (Cls Chr.is_space)) st k = k st.
Proof.
  intros H. rewrite first_match_star_cls, H, first_some_run0, advance_0. reflexivity.
Qed.

Lemma eat_else_at_endif kendif pv r :
  Py.lower kendif = "endif" → eat true "ELSE" pv (kendif +:+ r) = None.
Proof.
  intros Hk. destruct (eat true "ELSE" pv (kendif +:+ r)) as [[pv' t]|] eqn:E; [|reflexivity].
  apply eat_inv in E as (l' & E & _ & Hl & _). exfalso.
  destruct kendif as [|k1 [|k2 kendif]]; try discriminate Hk.
  destruct l' as [|l1 [|l2 l']]; try discriminate Hl.
  rewrite !app_cons in E. injection E as -> -> _.
  cbn [Py.lower] in Hk, Hl. injection Hk as _ Hk2 _. injection Hl as _ Hl2 _.
  rewrite Hk2 in Hl2. discriminate Hl2.
Qed.

Lemma consumed_nothing st : consumed st st = EmptyString.
Proof. unfold consumed. rewrite Nat.sub_diag. apply take_0. Qed.

Lemma lower_e_not_space c : Chr.lower c = "e"%char → Chr.is_space c = false.
Proof. by_cases_on c. Qed.

Lemma lower_i_not_space c : Chr.lower c = "i"%char → Chr.is_space c = false.
Proof. by_cases_on c. Qed.

(** Two texts that agree are cut in the same way where their runs of a
    class end. *)
Lemma run_prefix_unique2 (p : ascii → bool) c1 c2 p1 t1 p2 t2 :
  p c1 = false → p c2 = false → Py.all p p1 = true → Py.all p p2 = true →
  p1 +:+ String c1 t1 = p2 +:+ String c2 t2 → p1 = p2 ∧ String c1 t1 = String c2 t2.
Proof.
  intros Hc1 Hc2. revert p2; induction p1 as [|a p1 IH]; intros [|b p2] H1 H2 H;
    rewrite ?app_cons, ?app_empty_l in H.
  - split; [reflexivity | exact H].
  - injection H as <- _. cbn [Py.all] in H2. rewrite Hc1 in H2. discriminate H2.
  - injection H as -> _. cbn [Py.all] in H1. rewrite Hc2 in H1. discriminate H1.
  - injection H as -> H.
    cbn [Py.all] in H1, H2.
    apply andb_true_iff in H1 as [_ H1]. apply andb_true_iff in H2 as [_ H2].
    destruct (IH p2 H1 H2 H) as [-> E]. split; [reflexivity | exact E].
Qed.

(** The marker of the else-branch is not read at the closer of the
    block. *)
Lemma else_not_at_endif {A} rest_re pv w4 kendif r cs (k : mstate → option A) :
  Py.all Chr.is_space w4 = true → Py.lower kendif = "endif" →
  first_match true (Seq (Lit "%%[") (Seq spaces0 (Seq (Lit "ELSE") rest_re)))
    (MState pv ("%%[" +:+ w4 +:+ kendif +:+ r) cs) k = None.
Proof.
  intros Hw4 Hk. apply first_match_nothing. intros st' Hin.
  apply in_rmatch_seq in Hin as (s1 & H1 & Hin).
  cbn [rmatch prev rest caps] in H1. rewrite eat_same in H1. destruct H1 as [<-|[]].
  apply in_rmatch_seq in Hin as (s2 & H2 & Hin).
  apply in_rmatch_seq in Hin as (s3 & H3 & _).
  unfold spaces0, space in H2. apply in_rmatch_star_cls in H2 as (w & E2 & Hw).
  apply in_rmatch_lit in H3 as (l' & E3 & Hl). cbn [rest] in E2.
  rewrite E3 in E2.
  destruct kendif as [|k1 [|k2 kendif]]; try discriminate Hk.
  destruct l' as [|l1 [|l2 l']]; try discriminate Hl.
  cbn [Py.lower] in Hk, Hl. injection Hk as Hk1 Hk2 _. injection Hl as Hl1 Hl2 _.
  rewrite !app_cons in E2.
  apply (run_prefix_unique2 Chr.is_space) in E2 as [_ E2];
    [| apply lower_e_not_space, Hk1 | apply lower_e_not_space, Hl1 | exact Hw4 | exact Hw].
  injection E2 as _ E2 _. rewrite E2, Hl2 in Hk2. discriminate Hk2.
Qed.

(** The opener of a block with its condition and a THEN keyword: the
    lazy group of the condition reads the trimmed condition, and the rest
    of the pattern goes on after the closing bracket of the opener. *)
Lemma if_opener_at {A} rest_re pv w0 kif s1 w1 c0 cond' s2 w2 kthen w3 r
  (k : mstate → option A) y :
  Py.lower kif = "if" → Py.lower kthen = "then" →
  Py.all Chr.is_space w0 = true →
  Chr.is_space s1 = true → Py.all Chr.is_space w1 = true →
  Chr.is_space s2 = true → Py.all Chr.is_space w2 = true →
  Py.all Chr.is_space w3 = true →
  Chr.is_space c0 = false →
  Py.rstrip (String c0 cond') = String c0 cond' →
  Py.all (λ c, negb (c =? "]")%char) (String c0 cond') = true →
  first_match true rest_re (MState (Some "%"%char) r [(1, String c0 cond')]) k = Some y →
  first_match true
    (Seq (Lit "%%[") (Seq spaces0 (Seq (Lit "IF") (Seq spaces1
       (Seq (Group 1 (Plus false dot))
          (Seq (Opt true (Seq spaces1 (Lit "THEN")))
             (Seq spaces0 (Seq (Lit "]%%") rest_re))))))))
    (MState pv
       ("%%[" +:+ w0 +:+ kif +:+ String s1 (w1 +:+ String c0 (cond' +:+ String s2 (w2 +:+
        kthen +:+ w3 +:+ String "]" (String "%" (String "%" r)))))) []) k
  = Some y.
Proof.
  intros Hkif Hkthen Hw0 Hs1 Hw1 Hs2 Hw2 Hw3 Hc0 Htrim Hclean Hrest.
  rewrite first_match_seq, first_match_lit. cbn [prev rest caps]. rewrite eat_same.
  rewrite first_match_seq. unfold spaces0, space. rewrite first_match_star_cls. cbn [rest].
  rewrite (span_before_keyword w0 kif "i" "f")
    by first [assumption | reflexivity].
  apply first_some_greedy. rewrite advance_app.
  rewrite first_match_seq, first_match_lit. cbn [prev rest caps].
  rewrite (eat_ci "IF" kif) by exact Hkif.
  unfold spaces1, Plus, space.
  rewrite first_match_seq, first_match_seq, first_match_cls. cbn [rest caps]. rewrite Hs1.
  rewrite first_match_star_cls. cbn [rest]. rewrite (span_stops _ w1 c0) by assumption.
  apply first_some_greedy. rewrite advance_app.
  rewrite first_match_seq, first_match_group. unfold dot.
  rewrite first_match_seq, first_match_cls. cbn [rest caps any].
  rewrite first_match_star_cls. cbn [rest]. rewrite span_any.
  apply (first_some_lazy _ _ (String.length cond')).
  { rewrite length_app. lia. }
  { intros j Hj.
    destruct (advance_inside j cond'
                (String s2 (w2 +:+ kthen +:+ w3 +:+ String "]" (String "%" (String "%" r))))
                (Some c0) [] Hj) as (c & a2 & E & Ed).
    rewrite E. destruct (drop_suffix j cond') as [u Hu]. rewrite Ed in Hu.
    apply (condition_not_cut_short _ _ (String c0 u) (String c a2) (String s2 w2) kthen w3
             (String "%" (String "%" r))).
    - reflexivity.
    - discriminate.
    - rewrite app_cons, <- Hu. exact Htrim.
    - rewrite Hu in Hclean. cbn [Py.all] in Hclean.
      apply andb_true_iff in Hclean as [_ Hclean].
      apply all_app_inv in Hclean as [_ Hclean]. exact Hclean.
    - cbn [Py.all]. rewrite Hs2, Hw2. reflexivity.
    - exact Hw3.
    - exact Hkthen. }
  rewrite advance_app.
  unfold with_group at 1. cbn [prev rest caps].
  rewrite <- (app_cons c0 cond'), consumed_app.
  rewrite first_match_seq. unfold Opt. apply first_match_alt_left.
  rewrite first_match_seq, first_match_seq, first_match_cls. cbn [rest caps]. rewrite Hs2.
  rewrite first_match_star_cls. cbn [rest].
  rewrite (span_before_keyword w2 kthen "t" "hen") by first [assumption | reflexivity].
  apply first_some_greedy. rewrite advance_app.
  rewrite first_match_lit. cbn [prev rest caps].
  rewrite (eat_ci "THEN" kthen) by exact Hkthen.
  rewrite first_match_seq, first_match_star_cls. cbn [rest].
  rewrite (span_stops _ w3 "]") by first [assumption | reflexivity].
  apply first_some_greedy. rewrite advance_app.
  rewrite first_match_seq, first_match_lit. cbn [prev rest caps eat]. rewrite !eqb_ci_refl.
  exact Hrest.
Qed.

(** The lazy group of the then-branch reads a branch without opener up
    to the opener that follows it. *)
Lemma then_branch_at {A} pv then_block r cs (k : mstate → option A) y :
  Py.contains "%%[" then_block = false →
  first_match true
    (Seq (Group 3 (Opt true (seqs [Lit "%%["; spaces0; Lit "ELSE"; spaces0; Lit "]%%";
                                   Group 4 (Star false dot)])))
         V4.endif_closer)
    (MState (Py.last_or pv then_block) ("%%[" +:+ r) ((2, then_block) :: cs)) k = Some y →
  first_match true
    (Seq (Group 2 (Star false dot))
       (Seq (Group 3 (Opt true (seqs [Lit "%%["; spaces0; Lit "ELSE"; spaces0; Lit "]%%";
                                      Group 4 (Star false dot)])))
            V4.endif_closer))
    (MState pv (then_block +:+ "%%[" +:+ r) cs) k = Some y.
Proof.
  intros Hthen Hrest.
  rewrite first_match_seq, first_match_group. unfold dot.
  rewrite first_match_star_cls. cbn [rest]. rewrite span_any.
  apply (first_some_lazy _ _ (String.length then_block)).
  { rewrite length_app. lia. }
  { intros j Hj.
    destruct (advance_inside j then_block ("%%[" +:+ r) pv cs Hj) as (c & a2 & E & Ed).
    rewrite E. destruct (drop_suffix j then_block) as [u Hu]. rewrite Ed in Hu.
    apply (branch_not_cut_short _ u (String c a2) r).
    - reflexivity.
    - discriminate.
    - rewrite <- Hu. exact Hthen. }
  rewrite advance_app.
  unfold with_group at 1. cbn [prev rest caps]. rewrite consumed_app.
  exact Hrest.
Qed.

(** The closer of a block. *)
Lemma endif_closer_at {A} pv w4 kendif w5 post cs (k : mstate → option A) y :
  Py.lower kendif = "endif" →
  Py.all Chr.is_space w4 = true → Py.all Chr.is_space w5 = true →
  k (MState (Some "%"%char) post cs) = Some y →
  first_match true V4.endif_closer
    (MState pv ("%%[" +:+ w4 +:+ kendif +:+ w5 +:+ String "]" (String "%" (String "%" post))) cs) k
  = Some y.
Proof.
  intros Hkendif Hw4 Hw5 Hrest. unfold V4.endif_closer. cbn [seqs].
  rewrite first_match_seq, first_match_lit. cbn [prev rest caps]. rewrite eat_same.
  unfold spaces0, space.
  rewrite first_match_seq, first_match_star_cls. cbn [rest].
  rewrite (span_before_keyword w4 kendif "e" "ndif") by first [assumption | reflexivity].
  apply first_some_greedy. rewrite advance_app.
  rewrite first_match_seq, first_match_lit. cbn [prev rest caps].
  rewrite (eat_ci "ENDIF" kendif) by exact Hkendif.
  rewrite first_match_seq, first_match_star_cls. cbn [rest].
  rewrite (span_stops _ w5 "]") by first [assumption | reflexivity].
  apply first_some_greedy. rewrite advance_app.
  rewrite first_match_lit. cbn [prev rest caps eat]. rewrite !eqb_ci_refl.
  exact Hrest.
Qed.

(** The pattern of a block, tried at a block with a THEN keyword and
    without else-branch, reads it to the end of its closer: group 1 is
    the condition, group 2 the branch, and group 3 is empty. *)
Lemma if_block_at pv w0 kif s1 w1 c0 cond' s2 w2 kthen w3 then_block w4 kendif w5 post :
  Py.lower kif = "if" → Py.lower kthen = "then" → Py.lower kendif = "endif" →
  Py.all Chr.is_space w0 = true →
  Chr.is_space s1 = true → Py.all Chr.is_space w1 = true →
  Chr.is_space s2 = true → Py.all Chr.is_space w2 = true →
  Py.all Chr.is_space w3 = true →
  Py.all Chr.is_space w4 = true → Py.all Chr.is_space w5 = true →
  Chr.is_space c0 = false →
  Py.rstrip (String c0 cond') = String c0 cond' →
  Py.all (λ c, negb (c =? "]")%char) (String c0 cond') = true →
  Py.contains "%%[" then_block = false →
  first_match true V4.if_block
    (start_state pv
       ("%%[" +:+ w0 +:+ kif +:+ String s1 (w1 +:+ String c0 (cond' +:+ String s2 (w2 +:+
        kthen +:+ w3 +:+ String "]" (String "%" (String "%" (then_block +:+
        "%%[" +:+ w4 +:+ kendif +:+ w5 +:+ String "]" (String "%" (String "%" post))))))))))
    Some
  = Some (MState (Some "%"%char) post
            [(3, EmptyString); (2, then_block); (1, String c0 cond')]).
Proof.
  intros Hkif Hkthen Hkendif Hw0 Hs1 Hw1 Hs2 Hw2 Hw3 Hw4 Hw5 Hc0 Htrim Hclean Hthen.
  unfold V4.if_block, start_state. cbn [seqs].
  apply if_opener_at; try assumption.
  apply then_branch_at; [exact Hthen|].
  rewrite first_match_seq, first_match_group. unfold Opt. rewrite first_match_alt.
  cbn [seqs]. rewrite else_not_at_endif by assumption.
  rewrite first_match_eps. unfold with_group. cbn [prev rest caps].
  rewrite consumed_nothing.
  apply endif_closer_at; try assumption. reflexivity.
Qed.

(** ** The conversion of one block *)

(** No block starts at the end of a text or at a character that is no
    percent sign. *)
Lemma if_block_not_at pv s :
  s = EmptyString ∨ (∃ c t, s = String c t ∧ (c =? "%")%char = false) →
  first_match true V4.if_block (start_state pv s) Some = None.
Proof.
  intros Hs. unfold V4.if_block, start_state. cbn [seqs].
  rewrite first_match_seq, first_match_lit. cbn [prev rest].
  destruct Hs as [->|(c & t & -> & Hc)]; [reflexivity|].
  rewrite eat_head_differs; [reflexivity|]. rewrite eqb_ci_percent. exact Hc.
Qed.

Lemma sub_segs_after_gaps {S} (f : re_match → S → string * S) s l σ :
  sub_segs f (map Gap (list_ascii_of_string s) ++ l) σ
  = (s +:+ (sub_segs f l σ).1, (sub_segs f l σ).2).
Proof.
  induction s as [|c s IH].
  - cbn [list_ascii_of_string map app]. rewrite app_empty_l.
    destruct (sub_segs f l σ); reflexivity.
  - cbn [list_ascii_of_string map app sub_segs]. rewrite IH. reflexivity.
Qed.

(** A text that trimming keeps starts with a character that is no white
    space and has no white space at its end. *)
Lemma strip_fixed c s :
  Py.strip (String c s) = String c s →
  Chr.is_space c = false ∧ Py.rstrip (String c s) = String c s.
Proof.
  unfold Py.strip. cbn [Py.lstrip]. destruct (Chr.is_space c); intros H.
  - exfalso. pose proof (length_rstrip (Py.lstrip s)) as H1.
    pose proof (length_lstrip s) as H2. rewrite H in H1. simpl in H1. lia.
  - split; [reflexivity | exact H].
Qed.

(** X16.  A block with a THEN keyword and without else-branch, in a
    document that holds no percent sign outside the block.  The keywords
    may be written in any case; white space may follow the opening
    bracket, must follow IF and precede THEN, and may precede the closing
    brackets.  The condition is trimmed and holds no closing bracket, the
    branch holds no opener, and the branch does not hold both prints of
    the article case.  The block is replaced by the translation of its
    condition, its branch with the mapped prints converted, and the
    closing tag; the text around it is kept, and the warnings are those
    of the translation of the condition. *)
Theorem if_then_block_is_converted
  (pre w0 kif w1 cond w2 kthen w3 then_block w4 kendif w5 post : string)
  (var_expr : gmap string string) (st : tstate) :
  Py.all not_percent pre = true → Py.all not_percent post = true →
  Py.lower kif = "if" → Py.lower kthen = "then" → Py.lower kendif = "endif" →
  Py.all Chr.is_space w0 = true →
  w1 ≠ EmptyString → Py.all Chr.is_space w1 = true →
  w2 ≠ EmptyString → Py.all Chr.is_space w2 = true →
  Py.all Chr.is_space w3 = true →
  Py.all Chr.is_space w4 = true → Py.all Chr.is_space w5 = true →
  cond ≠ EmptyString → Py.strip cond = cond →
  Py.all (λ c, negb (c =? "]")%char) cond = true →
  Py.contains "%%[" then_block = false →
  V4.found true (Lit "%%=v(@the)=%%") then_block
    && V4.found true (Lit "%%=v(@planname)=%%") then_block = false →
  V4.convert_ampscript_if_blocks
    (pre +:+ "%%[" +:+ w0 +:+ kif +:+ w1 +:+ cond +:+ w2 +:+ kthen +:+ w3 +:+ "]%%"
     +:+ then_block +:+ "%%[" +:+ w4 +:+ kendif +:+ w5 +:+ "]%%" +:+ post) var_expr st
  = (pre +:+ (V4.translate_condition_to_liquid cond var_expr st).1
     +:+ V4.replace_all_prints then_block var_expr +:+ "{%/if%}" +:+ post,
     (V4.translate_condition_to_liquid cond var_expr st).2).
Proof.
  intros Hpre Hpost Hkif Hkthen Hkendif Hw0 Hn1 Hw1 Hn2 Hw2 Hw3 Hw4 Hw5 Hcond Hstrip Hclean
    Hthen Harticle.
  destruct cond as [|c0 cond']; [congruence|]. clear Hcond.
  destruct w1 as [|s1 w1]; [congruence|]. clear Hn1.
  destruct w2 as [|s2 w2]; [congruence|]. clear Hn2.
  cbn [Py.all] in Hw1, Hw2.
  apply andb_true_iff in Hw1 as [Hs1 Hw1]. apply andb_true_iff in Hw2 as [Hs2 Hw2].
  pose proof (strip_fixed c0 cond' Hstrip) as [Hc0 Htrim].
  unfold V4.convert_ampscript_if_blocks, sub_st, segments.
  rewrite scan_gaps.
  2:{ intros a b -> Hb. destruct b as [|c b]; [congruence|].
      apply if_block_not_at. right. exists c. eexists. split; [apply app_cons|].
      apply clean_suffix, clean_head in Hpre. exact Hpre. }
  set (block := "%[" +:+ w0 +:+ kif +:+ String s1 w1 +:+ String c0 cond' +:+ String s2 w2
                +:+ kthen +:+ w3 +:+ "]%%" +:+ then_block +:+ "%%[" +:+ w4 +:+ kendif
                +:+ w5 +:+ "]%%").
  assert (E : "%%[" +:+ w0 +:+ kif +:+ String s1 w1 +:+ String c0 cond' +:+ String s2 w2
              +:+ kthen +:+ w3 +:+ "]%%" +:+ then_block +:+ "%%[" +:+ w4 +:+ kendif
              +:+ w5 +:+ "]%%" +:+ post
              = String "%" block +:+ post)
    by (unfold block; norm_text; reflexivity).
  rewrite E.
  rewrite (scan_hit true V4.if_block _ _ _ _ _
             (MState (Some "%"%char) post
                [(3, EmptyString); (2, then_block); (1, String c0 cond')])).
  3:{ reflexivity. }
  2:{ rewrite <- (if_block_at (Py.last_or None pre) w0 kif s1 w1 c0 cond' s2 w2 kthen w3
                    then_block w4 kendif w5 post) by assumption.
      f_equal. f_equal. unfold block. norm_text. reflexivity. }
  rewrite scan_nothing.
  2:{ intros a b pv' ->. apply if_block_not_at.
      destruct b as [|c b]; [left; reflexivity|]. right. exists c, b. split; [reflexivity|].
      apply clean_suffix, clean_head in Hpost. exact Hpost. }
  rewrite sub_segs_after_gaps. cbn [sub_segs]. unfold V4.repl.
  set (m := Match _ _ _).
  assert (G1 : group_or_empty m 1 = String c0 cond') by reflexivity.
  assert (G2 : group_or_empty m 2 = then_block) by reflexivity.
  assert (G4 : group_or_empty m 4 = EmptyString) by reflexivity.
  rewrite G1, G2, G4. clear G1 G2 G4.
  rewrite Hstrip, Harticle.
  destruct (V4.translate_condition_to_liquid (String c0 cond') var_expr st) as [liquid st'].
  change (V4.nonblank (sub true print_token (V4.print_sub var_expr) EmptyString))
    with false.
  cbv iota. rewrite sub_segs_gaps. cbn [fst snd]. unfold V4.replace_all_prints.
  norm_text. reflexivity.
Qed.

Lemma if_then_block_witness :
  V4.convert_ampscript_if_blocks
    ("<p>" +:+ "%%[" +:+ " " +:+ "If" +:+ " " +:+ "@Gold" +:+ " " +:+ "then" +:+ " " +:+ "]%%"
     +:+ "Hi %%=v(@First)=%%" +:+ "%%[" +:+ " " +:+ "ENDIF" +:+ "" +:+ "]%%" +:+ "</p>")
    {[ "first" := "profile.first" ]} (TState [] ∅)
  = ("<p>" +:+ (V4.translate_condition_to_liquid "@Gold"
                  {[ "first" := "profile.first" ]} (TState [] ∅)).1
     +:+ V4.replace_all_prints "Hi %%=v(@First)=%%" {[ "first" := "profile.first" ]}
     +:+ "{%/if%}" +:+ "</p>",
     (V4.translate_condition_to_liquid "@Gold"
        {[ "first" := "profile.first" ]} (TState [] ∅)).2).
Proof.
  apply (if_then_block_is_converted "<p>" " " "If" " " "@Gold" " " "then" " "
           "Hi %%=v(@First)=%%" " " "ENDIF" "" "</p>");
    (reflexivity || discriminate).
Defined.

(** ** A condition that holds a comparison *)

Lemma eqb_ci_at ic c : Chr.eqb_ci ic "@" c = (c =? "@")%char.
Proof. destruct ic; by_cases_on c. Qed.

(** The first match of a search, after a part of the text in which no
    match starts. *)
Lemma search_after_gaps ic r p x m t st' :
  (∀ a b, p = a +:+ b → b ≠ EmptyString →
     first_match ic r (start_state (Py.last_or None a) (b +:+ String x m +:+ t)) Some = None) →
  first_match ic r (start_state (Py.last_or None p) (String x m +:+ t)) Some = Some st' →
  rest st' = t →
  search ic r (p +:+ String x m +:+ t)
  = Some (Match (0 + String.length p) (String x m) (caps st')).
Proof.
  intros Hgaps Hmatch Hrest. unfold search, finditer, segments.
  rewrite scan_gaps by exact Hgaps.
  rewrite hits_gaps, (scan_hit ic r _ _ x m t st' Hmatch Hrest), hits_hit. reflexivity.
Qed.

(** The name of a variable ends where white space or an operator
    starts. *)
Lemma span_name_before_operator X w c t :
  Py.all Chr.is_word X = true → Py.all Chr.is_space w = true → Chr.is_word c = false →
  Py.span Chr.is_word (X +:+ w +:+ String c t) = String.length X.
Proof.
  intros HX Hw Hc. rewrite span_all by exact HX.
  destruct w as [|s w].
  - rewrite app_empty_l. cbn [Py.span]. rewrite Hc. lia.
  - cbn [Py.all] in Hw. apply andb_true_iff in Hw as [Hs _].
    rewrite app_cons. cbn [Py.span]. rewrite (space_not_word s Hs). lia.
Qed.

(** The operator of a comparison. *)
Lemma cmp_operator_at {A} op pv r cs (k : mstate → option A) :
  op = "==" ∨ op = "!=" →
  first_match true (Alt (Lit "==") (Lit "!=")) (MState pv (op +:+ r) cs) k
  = k (MState (Some "="%char) r cs).
Proof.
  intros [->| ->]; rewrite first_match_alt, !first_match_lit; cbn [prev rest caps].
  - rewrite eat_same. cbn [Py.last_or]. destruct (k _); reflexivity.
  - change (eat true "==" ?a ("!=" +:+ ?b)) with (@None (option ascii * string)).
    rewrite eat_same. reflexivity.
Qed.

(** The pattern of a comparison, tried at a comparison, reads it to its
    closing quotation mark and captures the name, the operator and the
    value. *)
Lemma cmp_at pv x X w1 op w2 q1 v val q2 s :
  Py.all Chr.is_word (String x X) = true →
  Py.all Chr.is_space w1 = true → Py.all Chr.is_space w2 = true →
  op = "==" ∨ op = "!=" →
  one_of [squote; dquote] q1 = true → one_of [squote; dquote] q2 = true →
  Py.all (none_of [squote; dquote]) (String v val) = true →
  first_match true V4.re_cmp
    (start_state pv
       (String "@" (String x X +:+ w1 +:+ op +:+ w2 +:+ String q1 (String v val +:+ String q2 s))))
    Some
  = Some (MState (Some q2) s [(3, String v val); (2, op); (1, String x X)]).
Proof.
  intros Hword Hw1 Hw2 Hop Hq1 Hq2 Hval.
  cbn [Py.all] in Hword, Hval.
  apply andb_true_iff in Hword as [Hx HX]. apply andb_true_iff in Hval as [Hv Hval].
  assert (Hq2' : none_of [squote; dquote] q2 = false)
    by (unfold none_of; rewrite Hq2; reflexivity).
  unfold V4.re_cmp, start_state. cbn [seqs].
  rewrite first_match_seq, first_match_lit. cbn [prev rest caps eat].
  rewrite eqb_ci_refl.
  rewrite first_match_seq, first_match_group. unfold Plus, word.
  rewrite app_cons, first_match_seq, first_match_cls. cbn [rest caps]. rewrite Hx.
  rewrite first_match_star_cls. cbn [rest].
  assert (Hspan : Py.span Chr.is_word
                    (X +:+ w1 +:+ op +:+ w2 +:+ String q1 (String v val +:+ String q2 s))
                  = String.length X).
  { destruct Hop as [->| ->]; rewrite app_cons;
      apply span_name_before_operator; assumption || reflexivity. }
  rewrite Hspan. apply first_some_greedy. rewrite advance_app.
  unfold with_group at 1. cbn [prev rest caps].
  rewrite <- (app_cons x X), consumed_app.
  rewrite first_match_seq. unfold spaces0, space. rewrite first_match_star_cls. cbn [rest].
  assert (Hspan1 : Py.span Chr.is_space
                     (w1 +:+ op +:+ w2 +:+ String q1 (String v val +:+ String q2 s))
                   = String.length w1).
  { destruct Hop as [->| ->]; rewrite app_cons;
      apply span_stops; assumption || reflexivity. }
  rewrite Hspan1. apply first_some_greedy. rewrite advance_app.
  rewrite first_match_seq, first_match_group, cmp_operator_at by exact Hop.
  unfold with_group at 1. cbn [prev rest caps]. rewrite consumed_app.
  rewrite first_match_seq, first_match_star_cls. cbn [rest].
  rewrite (span_stops _ w2 q1) by (assumption || apply quote_not_space, Hq1).
  apply first_some_greedy. rewrite advance_app.
  unfold quote, unquoted.
  rewrite first_match_seq, first_match_cls. cbn [rest caps]. rewrite Hq1.
  rewrite (app_cons v val).
  rewrite first_match_seq, first_match_group, first_match_seq, first_match_cls.
  cbn [rest caps]. rewrite Hv.
  rewrite first_match_star_cls. cbn [rest].
  rewrite (span_stops _ val q2) by assumption.
  apply first_some_greedy. rewrite advance_app.
  unfold with_group. cbn [prev rest caps].
  rewrite <- (app_cons v val), consumed_app.
  rewrite first_match_cls. cbn [rest caps]. rewrite Hq2. reflexivity.
Qed.

(** X17.  The fourth form of a condition is searched for, not matched
    against the whole condition.  When the trimmed condition holds no
    opening parenthesis and its first at sign starts a comparison (a
    name, an operator [==] or [!=], and a value between two quotation
    marks of either kind), the translation is the comparison of the
    resolved expression with the value in single quotation marks: what
    stands before the at sign and after the closing quotation mark is
    dropped. *)
Theorem comparison_is_found_anywhere
  (cond p X w1 op w2 val s : string) (q1 q2 : ascii)
  (var_expr : gmap string string) (st : tstate) :
  Py.strip cond = p +:+ "@" +:+ X +:+ w1 +:+ op +:+ w2 +:+ String q1 (val +:+ String q2 s) →
  Py.all (λ c, negb (c =? "(")%char) (Py.strip cond) = true →
  Py.all (λ c, negb (c =? "@")%char) p = true →
  X ≠ EmptyString → Py.all Chr.is_word X = true →
  Py.all Chr.is_space w1 = true → Py.all Chr.is_space w2 = true →
  op = "==" ∨ op = "!=" →
  one_of [squote; dquote] q1 = true → one_of [squote; dquote] q2 = true →
  val ≠ EmptyString → Py.all (none_of [squote; dquote]) val = true →
  (V4.translate_condition_to_liquid cond var_expr st).1
  = "{% if " +:+ V4.resolve_expr X var_expr +:+ " " +:+ op +:+ " '" +:+ val +:+ "' %}".
Proof.
  intros Hform Hparen Hp HX Hword Hw1 Hw2 Hop Hq1 Hq2 Hv Hval.
  destruct X as [|x X]; [congruence|]. clear HX.
  destruct val as [|v val]; [congruence|]. clear Hv.
  assert (H1 : needs "(" V4.re_not_empty ∧ needs "(" V4.re_empty ∧ needs "(" V4.re_contains).
  { unfold V4.re_not_empty, V4.re_empty, V4.re_contains, V4.var_in_parens. cbn [seqs].
    repeat split;
      repeat first [ apply needs_lit | apply needs_seq_l; apply needs_lit | apply needs_seq_r ]. }
  destruct H1 as (Hn1 & Hn2 & Hn3).
  rewrite v4_translate_unfold. unfold V4.translate_forms.
  assert (Hnone : ∀ r, needs "(" r → search true r (Py.strip cond) = None).
  { intros r Hr. unfold search.
    rewrite (nothing_without_char "(" _ _ lower_lparen eq_refl Hr Hparen). reflexivity. }
  rewrite (Hnone _ Hn1), (Hnone _ Hn2), (Hnone _ Hn3). clear Hnone.
  rewrite Hform.
  replace (p +:+ "@" +:+ String x X +:+ w1 +:+ op +:+ w2
           +:+ String q1 (String v val +:+ String q2 s))
    with (p +:+ String "@" (String x X +:+ w1 +:+ op +:+ w2
                            +:+ String q1 (String v val +:+ String q2 EmptyString)) +:+ s)
    by (norm_text; reflexivity).
  rewrite (search_after_gaps true V4.re_cmp p _ _ s
             (MState (Some q2) s [(3, String v val); (2, op); (1, String x X)])).
  - set (m := Match _ _ _).
    assert (G1 : group_or_empty m 1 = String x X) by reflexivity.
    assert (G2 : group_or_empty m 2 = op) by reflexivity.
    assert (G3 : group_or_empty m 3 = String v val) by reflexivity.
    rewrite G1, G2, G3. clear G1 G2 G3.
    unfold V4.learn_expr.
    destruct Hop as [->| ->]; case_bool_decide; reflexivity.
  - intros a b -> Hb. destruct b as [|c b]; [congruence|].
    apply all_app_inv in Hp as [_ Hp]. cbn [Py.all] in Hp.
    apply andb_true_iff in Hp as [Hc _]. apply negb_true_iff in Hc.
    unfold V4.re_cmp, start_state. cbn [seqs].
    rewrite first_match_seq, first_match_lit. cbn [prev rest]. rewrite app_cons.
    rewrite eat_head_differs; [reflexivity|]. rewrite eqb_ci_at. exact Hc.
  - rewrite <- (cmp_at (Py.last_or None p) x X w1 op w2 q1 v val q2 s) by assumption.
    f_equal. f_equal. norm_text. reflexivity.
  - reflexivity.
Qed.

Lemma comparison_witness :
  (V4.translate_condition_to_liquid "ELSEIF @Tier  != 'Gold' THEN"
     {[ "tier" := "profile.tier" ]} (TState [] ∅)).1
  = "{% if " +:+ V4.resolve_expr "Tier" {[ "tier" := "profile.tier" ]}
    +:+ " " +:+ "!=" +:+ " '" +:+ "Gold" +:+ "' %}".
Proof.
  apply (comparison_is_found_anywhere "ELSEIF @Tier  != 'Gold' THEN" "ELSEIF " "Tier" "  "
           "!=" " " "Gold" " THEN" squote squote);
    first [reflexivity | discriminate | right; reflexivity].
Defined.

(** ** A block with an else-branch *)

Lemma closer_needs_opener {A} st (k : mstate → option A) :
  String.prefix "%%[" (rest st) = false → first_match true V4.endif_closer st k = None.
Proof.
  intros Hno. apply first_match_nothing. intros st' Hin.
  unfold V4.endif_closer in Hin. cbn [seqs] in Hin.
  apply in_rmatch_seq in Hin as (sa & Ha & _).
  apply in_opener in Ha. congruence.
Qed.

Lemma consumed_eq st st' a : rest st = a +:+ rest st' → consumed st st' = a.
Proof.
  intros E. unfold consumed. rewrite E.
  replace (String.length (a +:+ rest st') - String.length (rest st')) with (String.length a)
    by (rewrite length_app; lia).
  apply take_app.
Qed.

(** The marker of the else-branch, the branch and the closer: group 4 is
    the branch, read up to the opener of the closer, and group 3 is the
    marker with the branch. *)
Lemma else_branch_at pv w4 kelse w5 else_block w6 kendif w7 post cs :
  Py.lower kelse = "else" → Py.lower kendif = "endif" →
  Py.all Chr.is_space w4 = true → Py.all Chr.is_space w5 = true →
  Py.all Chr.is_space w6 = true → Py.all Chr.is_space w7 = true →
  Py.contains "%%[" else_block = false →
  first_match true
    (Seq (Group 3 (Opt true (seqs [Lit "%%["; spaces0; Lit "ELSE"; spaces0; Lit "]%%";
                                   Group 4 (Star false dot)])))
         V4.endif_closer)
    (MState pv
       ("%%[" +:+ w4 +:+ kelse +:+ w5 +:+ String "]" (String "%" (String "%" (else_block +:+
        "%%[" +:+ w6 +:+ kendif +:+ w7 +:+ String "]" (String "%" (String "%" post))))))
       cs) Some
  = Some (MState (Some "%"%char) post
            ((3, "%%[" +:+ w4 +:+ kelse +:+ w5 +:+ "]%%" +:+ else_block)
             :: (4, else_block) :: cs)).
Proof.
  intros Hkelse Hkendif Hw4 Hw5 Hw6 Hw7 Helse.
  rewrite first_match_seq, first_match_group. unfold Opt. apply first_match_alt_left.
  cbn [seqs].
  rewrite first_match_seq, first_match_lit. cbn [prev rest caps]. rewrite eat_same.
  unfold spaces0, space.
  rewrite first_match_seq, first_match_star_cls. cbn [rest].
  rewrite (span_before_keyword w4 kelse "e" "lse") by first [assumption | reflexivity].
  apply first_some_greedy. rewrite advance_app.
  rewrite first_match_seq, first_match_lit. cbn [prev rest caps].
  rewrite (eat_ci "ELSE" kelse) by exact Hkelse.
  rewrite first_match_seq, first_match_star_cls. cbn [rest].
  rewrite (span_stops _ w5 "]") by first [assumption | reflexivity].
  apply first_some_greedy. rewrite advance_app.
  rewrite first_match_seq, first_match_lit. cbn [prev rest caps eat]. rewrite !eqb_ci_refl.
  rewrite first_match_group. unfold dot.
  rewrite first_match_star_cls. cbn [rest]. rewrite span_any.
  apply (first_some_lazy _ _ (String.length else_block)).
  { rewrite length_app. lia. }
  { intros j Hj.
    destruct (advance_inside j else_block
                ("%%[" +:+ w6 +:+ kendif +:+ w7 +:+ String "]" (String "%" (String "%" post)))
                (Some "%"%char) cs Hj) as (c & a2 & E & Ed).
    rewrite E. destruct (drop_suffix j else_block) as [u Hu]. rewrite Ed in Hu.
    apply closer_needs_opener. unfold with_group. cbn [rest].
    apply (no_opener_before_opener u); [|discriminate].
    rewrite <- Hu. exact Helse. }
  rewrite advance_app.
  apply endif_closer_at; try assumption.
  unfold with_group. cbn [prev rest caps]. rewrite consumed_app.
  rewrite (consumed_eq _ _ ("%%[" +:+ w4 +:+ kelse +:+ w5 +:+ "]%%" +:+ else_block)).
  - reflexivity.
  - cbn [rest]. norm_text. reflexivity.
Qed.

(** The pattern of a block, tried at a block with a THEN keyword and an
    else-branch. *)
Lemma if_else_block_at pv w0 kif s1 w1 c0 cond' s2 w2 kthen w3 then_block
  w4 kelse w5 else_block w6 kendif w7 post :
  Py.lower kif = "if" → Py.lower kthen = "then" →
  Py.lower kelse = "else" → Py.lower kendif = "endif" →
  Py.all Chr.is_space w0 = true →
  Chr.is_space s1 = true → Py.all Chr.is_space w1 = true →
  Chr.is_space s2 = true → Py.all Chr.is_space w2 = true →
  Py.all Chr.is_space w3 = true →
  Py.all Chr.is_space w4 = true → Py.all Chr.is_space w5 = true →
  Py.all Chr.is_space w6 = true → Py.all Chr.is_space w7 = true →
  Chr.is_space c0 = false →
  Py.rstrip (String c0 cond') = String c0 cond' →
  Py.all (λ c, negb (c =? "]")%char) (String c0 cond') = true →
  Py.contains "%%[" then_block = false →
  Py.contains "%%[" else_block = false →
  first_match true V4.if_block
    (start_state pv
       ("%%[" +:+ w0 +:+ kif +:+ String s1 (w1 +:+ String c0 (cond' +:+ String s2 (w2 +:+
        kthen +:+ w3 +:+ String "]" (String "%" (String "%" (then_block +:+
        "%%[" +:+ w4 +:+ kelse +:+ w5 +:+ String "]" (String "%" (String "%" (else_block +:+
        "%%[" +:+ w6 +:+ kendif +:+ w7 +:+ String "]" (String "%" (String "%" post)))))))))))))
    Some
  = Some (MState (Some "%"%char) post
            [(3, "%%[" +:+ w4 +:+ kelse +:+ w5 +:+ "]%%" +:+ else_block);
             (4, else_block); (2, then_block); (1, String c0 cond')]).
Proof.
  intros Hkif Hkthen Hkelse Hkendif Hw0 Hs1 Hw1 Hs2 Hw2 Hw3 Hw4 Hw5 Hw6 Hw7 Hc0 Htrim Hclean
    Hthen Helse.
  unfold V4.if_block, start_state. cbn [seqs].
  apply if_opener_at; try assumption.
  apply then_branch_at; [exact Hthen|].
  apply else_branch_at; assumption.
Qed.

(** X18.  A block with a THEN keyword and an else-branch, in a document
    that holds no percent sign outside the block; the two branches hold
    no opener, and the then-branch does not hold both prints of the
    article case.  The block is replaced by the translation of its
    condition, the then-branch with the mapped prints converted and the
    closing tag; between the branch and the closing tag stand the else
    tag and the else-branch with the mapped prints converted, unless
    that branch is blank: a blank else-branch is dropped with its
    marker. *)
Theorem if_else_block_is_converted
  (pre w0 kif w1 cond w2 kthen w3 then_block w4 kelse w5 else_block w6 kendif w7 post : string)
  (var_expr : gmap string string) (st : tstate) :
  Py.all not_percent pre = true → Py.all not_percent post = true →
  Py.lower kif = "if" → Py.lower kthen = "then" →
  Py.lower kelse = "else" → Py.lower kendif = "endif" →
  Py.all Chr.is_space w0 = true →
  w1 ≠ EmptyString → Py.all Chr.is_space w1 = true →
  w2 ≠ EmptyString → Py.all Chr.is_space w2 = true →
  Py.all Chr.is_space w3 = true →
  Py.all Chr.is_space w4 = true → Py.all Chr.is_space w5 = true →
  Py.all Chr.is_space w6 = true → Py.all Chr.is_space w7 = true →
  cond ≠ EmptyString → Py.strip cond = cond →
  Py.all (λ c, negb (c =? "]")%char) cond = true →
  Py.contains "%%[" then_block = false →
  Py.contains "%%[" else_block = false →
  V4.found true (Lit "%%=v(@the)=%%") then_block
    && V4.found true (Lit "%%=v(@planname)=%%") then_block = false →
  V4.convert_ampscript_if_blocks
    (pre +:+ "%%[" +:+ w0 +:+ kif +:+ w1 +:+ cond +:+ w2 +:+ kthen +:+ w3 +:+ "]%%"
     +:+ then_block +:+ "%%[" +:+ w4 +:+ kelse +:+ w5 +:+ "]%%"
     +:+ else_block +:+ "%%[" +:+ w6 +:+ kendif +:+ w7 +:+ "]%%" +:+ post) var_expr st
  = (pre +:+ (V4.translate_condition_to_liquid cond var_expr st).1
     +:+ V4.replace_all_prints then_block var_expr
     +:+ (if V4.nonblank (V4.replace_all_prints else_block var_expr)
          then "{% else %}" +:+ V4.replace_all_prints else_block var_expr
          else EmptyString)
     +:+ "{%/if%}" +:+ post,
     (V4.translate_condition_to_liquid cond var_expr st).2).
Proof.
  intros Hpre Hpost Hkif Hkthen Hkelse Hkendif Hw0 Hn1 Hw1 Hn2 Hw2 Hw3 Hw4 Hw5 Hw6 Hw7
    Hcond Hstrip Hclean Hthen Helse Harticle.
  destruct cond as [|c0 cond']; [congruence|]. clear Hcond.
  destruct w1 as [|s1 w1]; [congruence|]. clear Hn1.
  destruct w2 as [|s2 w2]; [congruence|]. clear Hn2.
  cbn [Py.all] in Hw1, Hw2.
  apply andb_true_iff in Hw1 as [Hs1 Hw1]. apply andb_true_iff in Hw2 as [Hs2 Hw2].
  pose proof (strip_fixed c0 cond' Hstrip) as [Hc0 Htrim].
  unfold V4.convert_ampscript_if_blocks, sub_st, segments.
  rewrite scan_gaps.
  2:{ intros a b -> Hb. destruct b as [|c b]; [congruence|].
      apply if_block_not_at. right. exists c. eexists. split; [apply app_cons|].
      apply clean_suffix, clean_head in Hpre. exact Hpre. }
  set (block := "%[" +:+ w0 +:+ kif +:+ String s1 w1 +:+ String c0 cond' +:+ String s2 w2
                +:+ kthen +:+ w3 +:+ "]%%" +:+ then_block +:+ "%%[" +:+ w4 +:+ kelse
                +:+ w5 +:+ "]%%" +:+ else_block +:+ "%%[" +:+ w6 +:+ kendif
                +:+ w7 +:+ "]%%").
  assert (E : "%%[" +:+ w0 +:+ kif +:+ String s1 w1 +:+ String c0 cond' +:+ String s2 w2
              +:+ kthen +:+ w3 +:+ "]%%" +:+ then_block +:+ "%%[" +:+ w4 +:+ kelse
              +:+ w5 +:+ "]%%" +:+ else_block +:+ "%%[" +:+ w6 +:+ kendif
              +:+ w7 +:+ "]%%" +:+ post
              = String "%" block +:+ post)
    by (unfold block; norm_text; reflexivity).
  rewrite E.
  rewrite (scan_hit true V4.if_block _ _ _ _ _
             (MState (Some "%"%char) post
                [(3, "%%[" +:+ w4 +:+ kelse +:+ w5 +:+ "]%%" +:+ else_block);
                 (4, else_block); (2, then_block); (1, String c0 cond')])).
  3:{ reflexivity. }
  2:{ rewrite <- (if_else_block_at (Py.last_or None pre) w0 kif s1 w1 c0 cond' s2 w2 kthen w3
                    then_block w4 kelse w5 else_block w6 kendif w7 post) by assumption.
      f_equal. f_equal. unfold block. norm_text. reflexivity. }
  rewrite scan_nothing.
  2:{ intros a b pv' ->. apply if_block_not_at.
      destruct b as [|c b]; [left; reflexivity|]. right. exists c, b. split; [reflexivity|].
      apply clean_suffix, clean_head in Hpost. exact Hpost. }
  rewrite sub_segs_after_gaps. cbn [sub_segs]. unfold V4.repl.
  set (m := Match _ _ _).
  assert (G1 : group_or_empty m 1 = String c0 cond') by reflexivity.
  assert (G2 : group_or_empty m 2 = then_block) by reflexivity.
  assert (G4 : group_or_empty m 4 = else_block) by reflexivity.
  rewrite G1, G2, G4. clear G1 G2 G4.
  rewrite Hstrip, Harticle.
  destruct (V4.translate_condition_to_liquid (String c0 cond') var_expr st) as [liquid st'].
  unfold V4.replace_all_prints.
  destruct (V4.nonblank (sub true print_token (V4.print_sub var_expr) else_block));
    rewrite sub_segs_gaps; cbn [fst snd]; norm_text; reflexivity.
Qed.

Lemma if_else_block_witness :
  V4.convert_ampscript_if_blocks
    ("<p>" +:+ "%%[" +:+ " " +:+ "If" +:+ " " +:+ "@Gold" +:+ " " +:+ "then" +:+ " " +:+ "]%%"
     +:+ "Hi %%=v(@First)=%%" +:+ "%%[" +:+ "" +:+ "Else" +:+ " " +:+ "]%%"
     +:+ "Bye %%=v(@First)=%%" +:+ "%%[" +:+ " " +:+ "ENDIF" +:+ "" +:+ "]%%" +:+ "</p>")
    {[ "first" := "profile.first" ]} (TState [] ∅)
  = ("<p>" +:+ (V4.translate_condition_to_liquid "@Gold"
                  {[ "first" := "profile.first" ]} (TState [] ∅)).1
     +:+ V4.replace_all_prints "Hi %%=v(@First)=%%" {[ "first" := "profile.first" ]}
     +:+ (if V4.nonblank
               (V4.replace_all_prints "Bye %%=v(@First)=%%" {[ "first" := "profile.first" ]})
          then "{% else %}"
               +:+ V4.replace_all_prints "Bye %%=v(@First)=%%" {[ "first" := "profile.first" ]}
          else EmptyString)
     +:+ "{%/if%}" +:+ "</p>",
     (V4.translate_condition_to_liquid "@Gold"
        {[ "first" := "profile.first" ]} (TState [] ∅)).2).
Proof.
  apply (if_else_block_is_converted "<p>" " " "If" " " "@Gold" " " "then" " "
           "Hi %%=v(@First)=%%" "" "Else" " " "Bye %%=v(@First)=%%" " " "ENDIF" "" "</p>");
    (reflexivity || discriminate).
Defined.

(** ** A print token outside an attribute *)

Lemma count_app c a b :
  Py.count_char c (String.length (a +:+ b)) (a +:+ b)
  = Py.count_char c (String.length a) a + Py.count_char c (String.length b) b.
Proof.
  induction a as [|x a IH]; [reflexivity|].
  rewrite app_cons. cbn [String.length Py.count_char]. rewrite IH. lia.
Qed.

Lemma count_clean s :
  Py.all not_percent s = true → Py.count_char "%" (String.length s) s = 0.
Proof.
  induction s as [|x s IH]; [reflexivity|].
  cbn [Py.all]. intros [Hx Hs]%andb_true_iff. cbn [String.length Py.count_char].
  rewrite (IH Hs). unfold not_percent in Hx. apply negb_true_iff in Hx.
  rewrite Ascii.eqb_sym, Hx. reflexivity.
Qed.

(** What [attr_token_re] reads starts with text without percent signs
    that ends with a quotation mark, and a percent sign follows. *)
Lemma attr_match_shape st st' :
  In st' (rmatch false V4.attr_token_re st) →
  ∃ l c r, rest st = l +:+ String c (String "%" r)
           ∧ Py.all not_percent l = true ∧ one_of [squote; dquote] c = true.
Proof.
  unfold V4.attr_token_re. cbn [seqs]. unfold Plus, spaces0, space, quote.
  intros Hin.
  apply in_rmatch_seq in Hin as (st1 & H1 & Hin).
  apply in_rmatch_seq in Hin as (st2 & H2 & Hin).
  apply in_rmatch_seq in Hin as (st3 & H3 & _).
  apply in_rmatch_group in H1 as (s1 & H & E1g).
  apply in_rmatch_seq in H as (sa & Ha & H).
  apply in_rmatch_seq in H as (sb & Hb & H).
  apply in_rmatch_seq in Hb as (sb1 & Hb1 & Hb).
  apply in_rmatch_seq in H as (sc & Hc & H).
  apply in_rmatch_seq in H as (sd & Hd & H).
  apply in_rmatch_cls in Ha as (c0 & Ea & Hc0).
  apply in_rmatch_cls in Hb1 as (n & Eb1 & Hn).
  apply in_rmatch_star_cls in Hb as (w & Eb & Hw).
  apply in_rmatch_star_cls in Hc as (w1 & Ec & Hw1).
  apply in_rmatch_lit in Hd as (l & Ed & ->).
  apply in_rmatch_star_cls in H as (w2 & E & Hw2).
  apply in_rmatch_group in H2 as (s2 & H2 & E2').
  apply in_rmatch_cls in H2 as (c & E2 & Hq). rewrite <- E2' in E2.
  apply in_rmatch_group in H3 as (s3 & H3 & _).
  apply in_rmatch_seq in H3 as (s4 & H3 & _).
  apply in_rmatch_lit in H3 as (l3 & E3 & ->).
  exists (String c0 (String n w +:+ w1 +:+ String "=" w2)), c, ("%=" +:+ rest s4).
  split; [|split].
  - rewrite Ea, Eb1, Eb, Ec, Ed, E, <- E1g, E2, E3. norm_text. reflexivity.
  - all_split.
  - exact Hq.
Qed.

(** The first loop finds no attribute in a text made of clean text around
    one print token, when the text before the token does not end with a
    quotation mark. *)
Lemma no_attribute_at_token pre b0 body post :
  Py.all not_percent pre = true → Py.all not_percent post = true →
  Py.all not_percent (String b0 body) = true →
  default false (one_of [squote; dquote] <$> Py.last_or None pre) = false →
  finditer false V4.attr_token_re (pre +:+ "%%=" +:+ String b0 body +:+ "=%%" +:+ post) = [].
Proof.
  intros Hpre Hpost Hbody Hlast. unfold finditer, segments.
  rewrite scan_nothing; [apply hits_only_gaps|].
  intros a b pv' E. rewrite <- head_rmatch.
  destruct (rmatch false V4.attr_token_re (start_state pv' b)) as [|st' l] eqn:Er;
    [reflexivity|].
  exfalso.
  assert (Hin : In st' (rmatch false V4.attr_token_re (start_state pv' b)))
    by (rewrite Er; left; reflexivity).
  clear Er.
  set (tail := "%=" +:+ String b0 body +:+ "=%%" +:+ post).
  assert (Etoken : "%%=" +:+ String b0 body +:+ "=%%" +:+ post = String "%" tail)
    by reflexivity.
  rewrite Etoken in E.
  assert (Hbefore : ∀ m, pre = a +:+ m → b = m +:+ String "%" tail → False).
  { intros m Hm Hb.
    apply attr_match_shape in Hin as (l0 & c & r & Es & Hl & Hq).
    cbn [start_state rest] in Es. rewrite Hb in Es.
    assert (Em : m = l0 +:+ String c EmptyString).
    { apply (clean_prefix_unique _ tail _ r).
      - rewrite Hm in Hpre. apply clean_suffix in Hpre. exact Hpre.
      - rewrite all_app. cbn [Py.all]. rewrite Hl, (quote_not_percent c Hq). reflexivity.
      - rewrite Es. norm_text. reflexivity. }
    rewrite Hm, Em, !last_or_app in Hlast. cbn [Py.last_or fmap option_fmap option_map default]
      in Hlast. unfold id in Hlast. congruence. }
  symmetry in E. apply app_eq_app in E as [(m & Ha & Ht)|(m & Hp & Hb)].
  - destruct m as [|y m].
    + apply (Hbefore EmptyString).
      * rewrite Ha, !app_empty_r. reflexivity.
      * rewrite app_empty_l in Ht |- *. symmetry. exact Ht.
    + apply attr_token_shape in Hin as (u & w & z & Es). cbn [start_state rest] in Es.
      rewrite app_cons in Ht. injection Ht as <- Ht.
      assert (Hcount : Py.count_char "%" (String.length tail) tail = 3).
      { unfold tail. rewrite !count_app, (count_clean _ Hbody), (count_clean _ Hpost).
        reflexivity. }
      rewrite Ht, Es, !count_app in Hcount.
      change (Py.count_char "%" (String.length "%%=") "%%=") with 2 in Hcount.
      change (Py.count_char "%" (String.length "=%%") "=%%") with 2 in Hcount.
      lia.
  - apply (Hbefore m); assumption.
Qed.

(** X19.  The commenting pass of the fourth script on a document made of
    text without percent signs and without the opener of a script
    element, around one print token that holds at least one character
    and no percent sign between its delimiters, when the text before the
    token does not end with a quotation mark: the first loop finds no
    attribute, the second loop wraps the token in one comment, and the
    token is recorded once, with the line on which it starts. *)
Theorem print_in_text_is_commented_once (pre body post : string) (b0 : ascii) :
  let token := "%%=" +:+ String b0 body +:+ "=%%" in
  let doc := pre +:+ token +:+ post in
  Py.all not_percent pre = true → Py.all not_percent post = true →
  Py.contains "<script" (Py.lower pre) = false →
  Py.contains "<script" (Py.lower post) = false →
  Py.all not_percent (String b0 body) = true →
  default false (one_of [squote; dquote] <$> Py.last_or None pre) = false →
  V4.comment_ampscript_with_hoist doc
  = (pre +:+ "<!-- " +:+ token +:+ " -->" +:+ post,
     [(V4.find_line doc (String.length pre), token)]).
Proof.
  intros token doc Hpre Hpost Hspre Hspost Hbody Hlast.
  assert (Edoc : doc = pre +:+ "%%=" +:+ String b0 body +:+ "=%%" +:+ post)
    by (unfold doc, token; norm_text; reflexivity).
  rewrite Edoc.
  unfold V4.comment_ampscript_with_hoist, V4.neutralize_attributes.
  rewrite no_attribute_at_token by assumption.
  cbn [foldl app Py.join fold_right Py.drop]. rewrite app_empty_r.
  rewrite comment_blocks_one_token by assumption. reflexivity.
Qed.

Lemma print_in_text_witness :
  V4.comment_ampscript_with_hoist
    ("<p>Dear" +:+ Py.newline +:+ " " +:+ "%%=v(@First)=%%"  +:+ ",</p>")
  = ("<p>Dear" +:+ Py.newline +:+ " " +:+ "<!-- " +:+ "%%=v(@First)=%%" +:+ " -->" +:+ ",</p>",
     [(2, "%%=v(@First)=%%")]).
Proof.
  apply (print_in_text_is_commented_once ("<p>Dear" +:+ Py.newline +:+ " ") "(@First)"
           ",</p>" "v"); reflexivity.
Defined.

(** ** Line numbers *)

Lemma offsets_from pref base lines :
  foldl (λ offs line, offs ++ [List.last offs 0 + String.length line + 1]) (pref ++ [base]) lines
  = pref ++ base :: V4.line_ends base lines.
Proof.
  revert pref base; induction lines as [|l ls IH]; intros pref base; [reflexivity|].
  cbn [foldl V4.line_ends]. rewrite last_last.
  replace ((pref ++ [base]) ++ [base + String.length l + 1])
    with ((pref ++ [base]) ++ [base + String.length l + 1]) by reflexivity.
  rewrite IH, <- List.app_assoc. reflexivity.
Qed.

Lemma offsets_ends lines : V4.offsets lines = 0 :: V4.line_ends 0 lines.
Proof. apply (offsets_from [] 0 lines). Qed.

Lemma splitlines_nonempty c t : Py.splitlines (String c t) ≠ [].
Proof.
  cbn [Py.splitlines]. destruct (Py.is_linebreak c).
  - destruct c as [[] [] [] [] [] [] [] []]; destruct t as [|[[] [] [] [] [] [] [] []] t];
      discriminate.
  - destruct (Py.splitlines t); discriminate.
Qed.

(** In a text whose only line boundaries are line feeds, the search
    through the ends of the lines counts the line feeds before the
    position. *)
Lemma find_line_from_count s :
  ∀ base i pos n,
    Py.all (λ c, negb (Py.is_linebreak c) || (c =? "010")%char) s = true →
    pos < String.length s →
    V4.find_line_from (base + pos) i (V4.line_ends base (Py.splitlines s)) n
    = Nat.max 1 (i + Py.count_char "010" pos s).
Proof.
  induction s as [|c t IH]; intros base i pos n Hs Hpos; [simpl in Hpos; lia|].
  cbn [Py.all] in Hs. apply andb_true_iff in Hs as [Hc Ht].
  cbn [String.length] in Hpos.
  destruct (Py.is_linebreak c) eqn:Hlb.
  - cbn [negb orb] in Hc. apply Ascii.eqb_eq in Hc. subst c.
    change (Py.splitlines (String "010" t)) with (EmptyString :: Py.splitlines t).
    cbn [V4.line_ends V4.find_line_from String.length].
    destruct pos as [|k].
    + replace (base + 0 <? base + 0 + 1) with true by (symmetry; apply Nat.ltb_lt; lia).
      cbn [Py.count_char]. rewrite Nat.add_0_r. reflexivity.
    + replace (base + S k <? base + 0 + 1) with false by (symmetry; apply Nat.ltb_ge; lia).
      replace (base + S k) with ((base + 0 + 1) + k) by lia.
      rewrite IH by (assumption || lia).
      cbn [Py.count_char]. rewrite Ascii.eqb_refl. f_equal. lia.
  - assert (Hne : ("010" =? c)%char = false).
    { destruct (Ascii.eqb_spec "010" c) as [<-|]; [discriminate Hlb | reflexivity]. }
    destruct t as [|d t'].
    + cbn [Py.splitlines]. rewrite Hlb.
      cbn [V4.line_ends V4.find_line_from String.length].
      assert (pos = 0) as -> by (simpl in Hpos; lia).
      replace (base + 0 <? base + 1 + 1) with true by (symmetry; apply Nat.ltb_lt; lia).
      cbn [Py.count_char]. rewrite Nat.add_0_r. reflexivity.
    + assert (Hlines : V4.line_ends base (Py.splitlines (String c (String d t')))
                       = V4.line_ends (S base) (Py.splitlines (String d t'))).
      { pose proof (splitlines_nonempty d t') as Hnonempty.
        change (Py.splitlines (String c (String d t')))
          with (if Py.is_linebreak c then
                  match c, String d t' with
                  | "013"%char, String "010"%char u => EmptyString :: Py.splitlines u
                  | _, _ => EmptyString :: Py.splitlines (String d t')
                  end
                else
                  match Py.splitlines (String d t') with
                  | [] => [String c EmptyString]
                  | l :: ls => String c l :: ls
                  end).
        rewrite Hlb.
        destruct (Py.splitlines (String d t')) as [|l ls]; [congruence|].
        cbn [V4.line_ends String.length].
        replace (base + S (String.length l) + 1) with (S base + String.length l + 1) by lia.
        reflexivity. }
      rewrite Hlines.
      destruct pos as [|k].
      * cbn [Py.count_char]. rewrite !Nat.add_0_r.
        pose proof (splitlines_nonempty d t') as Hnonempty.
        destruct (Py.splitlines (String d t')) as [|l ls]; [congruence|].
        cbn [V4.line_ends V4.find_line_from].
        replace (base <? S base + String.length l + 1) with true
          by (symmetry; apply Nat.ltb_lt; lia).
        reflexivity.
      * replace (base + S k) with (S base + k) by lia.
        rewrite IH by (assumption || lia).
        cbn [Py.count_char]. rewrite Hne. reflexivity.
Qed.

(** X20.  The two ways in which the commenting pass numbers lines agree:
    in a text whose only line boundaries are line feeds, the line that
    the second loop finds for a position inside the text, by searching
    the ends of the lines, is the number of line feeds before the
    position plus one, which is the line that the first loop records.
    The third script finds the same line. *)
Theorem find_line_counts_line_feeds (html_text : string) (pos : nat) :
  Py.all (λ c, negb (Py.is_linebreak c) || (c =? "010")%char) html_text = true →
  pos < String.length html_text →
  V4.find_line html_text pos = V4.line_of html_text pos
  ∧ V3.find_line html_text pos = V4.line_of html_text pos.
Proof.
  intros Hplain Hpos.
  assert (H : V4.find_line html_text pos = V4.line_of html_text pos).
  { unfold V4.find_line, V4.line_of. rewrite offsets_ends.
    cbn [V4.find_line_from]. change (pos <? 0) with false. cbv iota.
    change pos with (0 + pos) at 1.
    rewrite find_line_from_count by assumption. lia. }
  split; [exact H|]. change V3.find_line with V4.find_line. exact H.
Qed.

Lemma find_line_witness :
  V4.find_line ("<p>" +:+ Py.newline +:+ "%%=v(@x)=%%") 4
  = V4.line_of ("<p>" +:+ Py.newline +:+ "%%=v(@x)=%%") 4
  ∧ V3.find_line ("<p>" +:+ Py.newline +:+ "%%=v(@x)=%%") 4
    = V4.line_of ("<p>" +:+ Py.newline +:+ "%%=v(@x)=%%") 4.
Proof.
  apply (find_line_counts_line_feeds ("<p>" +:+ Py.newline +:+ "%%=v(@x)=%%") 4);
    [reflexivity | vm_compute; lia].
Defined.

(** ** The columns of the sheet *)

Lemma dict_set_in k v d kv :
  In kv (V4.dict_set k v d) → kv = (k, v) ∨ In kv d.
Proof.
  induction d as [|[k' v'] d IH]; cbn [V4.dict_set].
  - intros [<-|[]]. left. reflexivity.
  - destruct (String.eqb k k').
    + intros [<-|H]; [left; reflexivity | right; right; exact H].
    + intros [<-|H]; [right; left; reflexivity|].
      destruct (IH H) as [->|H']; [left; reflexivity | right; right; exact H'].
Qed.

Lemma dict_set_key k v d : In (k, v) (V4.dict_set k v d).
Proof.
  induction d as [|[k' v'] d IH]; cbn [V4.dict_set]; [left; reflexivity|].
  destruct (String.eqb k k'); [left; reflexivity | right; exact IH].
Qed.

Lemma dict_set_keeps_keys k v d k0 v0 :
  In (k0, v0) d → ∃ v1, In (k0, v1) (V4.dict_set k v d).
Proof.
  induction d as [|[k' v'] d IH]; [intros []|].
  cbn [V4.dict_set]. destruct (String.eqb_spec k k') as [->|Hne].
  - intros [E|H].
    + injection E as <- <-. exists v. left. reflexivity.
    + exists v0. right. exact H.
  - intros [E|H].
    + exists v0. left. exact E.
    + destruct (IH H) as [v1 H1]. exists v1. right. exact H1.
Qed.

(** The dictionary of the headers: every item is a header under its
    trimmed, lower-case form, and every header has an item. *)
Lemma header_dict columns :
  ∀ d seen,
    (∀ k v, In (k, v) d → In v seen ∧ k = Py.lower (Py.strip v)) →
    (∀ c, In c seen → ∃ v, In (Py.lower (Py.strip c), v) d) →
    let d' := foldl (λ d c, V4.dict_set (Py.lower (Py.strip c)) c d) d columns in
    (∀ k v, In (k, v) d' → In v (seen ++ columns) ∧ k = Py.lower (Py.strip v))
    ∧ (∀ c, In c (seen ++ columns) → ∃ v, In (Py.lower (Py.strip c), v) d').
Proof.
  induction columns as [|c columns IH]; intros d seen H1 H2.
  - cbn [foldl]. rewrite app_nil_r. split; assumption.
  - cbn [foldl].
    replace (seen ++ c :: columns) with ((seen ++ [c]) ++ columns)
      by (rewrite <- List.app_assoc; reflexivity).
    apply IH.
    + intros k v [E|H]%dict_set_in.
      * injection E as -> ->. split; [|reflexivity]. apply in_or_app. right. left. reflexivity.
      * destruct (H1 k v H) as [Hin Hk]. split; [|exact Hk]. apply in_or_app. left. exact Hin.
    + intros c' [H|[<-|[]]]%in_app_or.
      * destruct (H2 c' H) as [v Hv]. eapply dict_set_keeps_keys, Hv.
      * exists c. apply dict_set_key.
Qed.

Lemma first_value_sound sub columns d default :
  (∀ k v, In (k, v) d → In v columns ∧ k = Py.lower (Py.strip v)) →
  (∀ c, In c columns → ∃ v, In (Py.lower (Py.strip c), v) d) →
  In default columns →
  In (V4.first_value sub d default) columns
  ∧ ((∃ c, In c columns ∧ Py.contains sub (Py.lower (Py.strip c)) = true) →
     Py.contains sub (Py.lower (Py.strip (V4.first_value sub d default))) = true).
Proof.
  intros H1 H2 Hdefault. unfold V4.first_value.
  destruct (find (λ kv, Py.contains sub kv.1) d) as [[k v]|] eqn:E.
  - apply find_some in E as [Hin Hk]. cbn [fst snd] in *.
    destruct (H1 k v Hin) as [Hv ->]. split; [exact Hv|]. intros _. exact Hk.
  - split; [exact Hdefault|]. intros (c & Hc & Hsub). exfalso.
    destruct (H2 c Hc) as [v Hv].
    pose proof (find_none _ _ E _ Hv) as Hno. cbn [fst] in Hno. congruence.
Qed.

(** X21.  The choice of the two columns of the sheet, on headers that
    are texts.  It fails exactly when the sheet has fewer than two
    columns, whatever the headers are, because the two fall-back columns
    are read before the search.  When it succeeds, the two chosen
    headers are headers of the sheet, and if some header, trimmed and in
    lower case, holds [sfmc] (or [ajo]), then so does the header chosen
    for that column. *)
Theorem pick_cols_sound (columns : list string) :
  (V4.pick_cols columns = None ↔ List.length columns < 2)
  ∧ ∀ sfmc_col ajo_col,
      V4.pick_cols columns = Some (sfmc_col, ajo_col) →
      In sfmc_col columns ∧ In ajo_col columns
      ∧ ((∃ c, In c columns ∧ Py.contains "sfmc" (Py.lower (Py.strip c)) = true) →
         Py.contains "sfmc" (Py.lower (Py.strip sfmc_col)) = true)
      ∧ ((∃ c, In c columns ∧ Py.contains "ajo" (Py.lower (Py.strip c)) = true) →
         Py.contains "ajo" (Py.lower (Py.strip ajo_col)) = true).
Proof.
  split.
  - unfold V4.pick_cols. destruct columns as [|c0 [|c1 columns]]; cbn [List.length];
      split; intros H; first [reflexivity | lia | discriminate H].
  - intros sfmc_col ajo_col. unfold V4.pick_cols.
    destruct columns as [|c0 [|c1 columns]]; try discriminate.
    intros E. injection E as <- <-.
    destruct (header_dict (c0 :: c1 :: columns) [] [])
      as [H1 H2]; [intros k v [] | intros c [] |].
    cbn [app] in H1, H2.
    destruct (first_value_sound "sfmc" (c0 :: c1 :: columns) _ c0 H1 H2) as [Hs1 Hs2];
      [left; reflexivity|].
    destruct (first_value_sound "ajo" (c0 :: c1 :: columns) _ c1 H1 H2) as [Ha1 Ha2];
      [right; left; reflexivity|].
    repeat split; assumption.
Qed.

Lemma pick_cols_witness :
  V4.pick_cols ["Expression AJO"; " SFMC tag"] = Some (" SFMC tag", "Expression AJO")
  ∧ In " SFMC tag" ["Expression AJO"; " SFMC tag"]
  ∧ In "Expression AJO" ["Expression AJO"; " SFMC tag"]
  ∧ ((∃ c, In c ["Expression AJO"; " SFMC tag"]
           ∧ Py.contains "sfmc" (Py.lower (Py.strip c)) = true) →
     Py.contains "sfmc" (Py.lower (Py.strip " SFMC tag")) = true)
  ∧ ((∃ c, In c ["Expression AJO"; " SFMC tag"]
           ∧ Py.contains "ajo" (Py.lower (Py.strip c)) = true) →
     Py.contains "ajo" (Py.lower (Py.strip "Expression AJO")) = true).
Proof.
  split; [reflexivity|].
  apply (proj2 (pick_cols_sound ["Expression AJO"; " SFMC tag"])). reflexivity.
Defined.

(** ** The pattern of a snippet *)

Lemma blank_is_special c : V4.flex_blank c = true → V4.is_special c = true.
Proof. by_cases_on c. Qed.

Lemma backslash_is_special : V4.is_special V4.backslash = true.
Proof. reflexivity. Qed.

(** The escaped text does not start with a blank, and neither the escaped
    text nor the text of the pattern starts with a star. *)
Lemma escape_head t :
  match V4.escape t with
  | EmptyString => True
  | String h _ => V4.flex_blank h = false
  end.
Proof.
  destruct t as [|c t]; [exact I|]. cbn [V4.escape].
  destruct (V4.is_special c) eqn:E; [reflexivity|].
  destruct (V4.flex_blank c) eqn:Eb; [|reflexivity].
  apply blank_is_special in Eb. congruence.
Qed.

Lemma span_escape t : Py.span V4.flex_blank (V4.escape t) = 0.
Proof.
  pose proof (escape_head t) as H. destruct (V4.escape t) as [|h e]; [reflexivity|].
  cbn [Py.span]. rewrite H. reflexivity.
Qed.

Lemma star_is_special c : (c =? "*")%char = true → V4.is_special c = true.
Proof. intros ->%Ascii.eqb_eq. reflexivity. Qed.

Lemma flex_text_head t :
  match V4.flex_text t with
  | EmptyString => True
  | String h _ => (h =? "*")%char = false
  end.
Proof.
  destruct t as [|c t]; [exact I|]. cbn [V4.flex_text]. unfold V4.flex_token.
  destruct (V4.flex_blank c); [reflexivity|].
  destruct (V4.is_special c) eqn:E; [reflexivity|].
  rewrite app_cons. destruct (c =? "*")%char eqn:Es; [|reflexivity].
  apply star_is_special in Es. congruence.
Qed.

(** The pattern of the escaped blanks at a character of the escaped
    text. *)
Lemma escaped_blank_at pv c e :
  V4.flex_blank c = true → Py.span V4.flex_blank e = 0 →
  first_match false V4.escaped_blank
    (start_state pv (String V4.backslash (String c EmptyString) +:+ e)) Some
  = Some (MState (Some c) e []).
Proof.
  intros Hc He. unfold V4.escaped_blank, start_state, Plus.
  rewrite first_match_seq, first_match_lit. cbn [prev rest caps].
  rewrite !app_cons, app_empty_l. cbn [eat]. rewrite eqb_ci_refl.
  rewrite first_match_seq, first_match_cls. cbn [rest caps].
  change (one_of [" "; "009"; "013"; "010"; "012"]%char c) with (V4.flex_blank c).
  rewrite Hc. rewrite first_match_star_cls. cbn [rest].
  change (Py.span (one_of [" "; "009"; "013"; "010"; "012"]%char) e)
    with (Py.span V4.flex_blank e).
  rewrite He. apply first_some_greedy. rewrite advance_0. reflexivity.
Qed.

Lemma escaped_blank_not_at pv c e :
  (c =? V4.backslash)%char = false
  ∨ match e with EmptyString => True | String h _ => V4.flex_blank h = false end →
  first_match false V4.escaped_blank (start_state pv (String c e)) Some = None.
Proof.
  intros H. unfold V4.escaped_blank, start_state, Plus.
  rewrite first_match_seq, first_match_lit. cbn [prev rest caps eat].
  unfold Chr.eqb_ci. rewrite Ascii.eqb_sym.
  destruct (c =? V4.backslash)%char eqn:Ec; [|reflexivity].
  destruct H as [H|H]; [discriminate H|].
  rewrite first_match_seq, first_match_cls. cbn [rest].
  destruct e as [|h e]; [reflexivity|].
  change (one_of [" "; "009"; "013"; "010"; "012"]%char h) with (V4.flex_blank h).
  rewrite H. reflexivity.
Qed.

(** The replacement of the escaped blanks, on an escaped text: every
    blank of the text becomes the white-space repetition, every other
    character keeps the form that the escape gave it. *)
Lemma blanks_of_escape t :
  ∀ pos pv,
    Py.join (seg_text (λ _, V4.any_blank)
               <$> scan false V4.escaped_blank 0 pos pv (V4.escape t))
    = V4.flex_text t.
Proof.
  induction t as [|c t IH]; intros pos pv.
  - cbn [V4.escape V4.flex_text]. rewrite scan_end; [reflexivity|].
    unfold V4.escaped_blank, start_state. rewrite first_match_seq, first_match_lit.
    reflexivity.
  - cbn [V4.escape V4.flex_text]. unfold V4.flex_token.
    destruct (V4.flex_blank c) eqn:Eb.
    + rewrite (blank_is_special c Eb).
      change (String V4.backslash (String c (V4.escape t)))
        with (String V4.backslash (String c EmptyString) +:+ V4.escape t).
      rewrite (scan_hit false V4.escaped_blank pos pv _ _ _ (MState (Some c) (V4.escape t) []));
        [| apply escaped_blank_at; [exact Eb | apply span_escape] | reflexivity].
      rewrite fmap_cons. cbn [seg_text].
      change (Py.join (?x :: ?l)) with (x +:+ Py.join l).
      rewrite IH. reflexivity.
    + destruct (V4.is_special c) eqn:Es.
      * rewrite scan_gap.
        2:{ apply escaped_blank_not_at. right. exact Eb. }
        rewrite scan_gap.
        2:{ apply escaped_blank_not_at. right. apply escape_head. }
        rewrite !fmap_cons. cbn [seg_text].
        change (Py.join (?x :: ?y :: ?l)) with (x +:+ y +:+ Py.join l).
        rewrite IH. reflexivity.
      * rewrite scan_gap.
        2:{ apply escaped_blank_not_at. left.
            destruct (Ascii.eqb_spec c V4.backslash) as [->|]; [discriminate Es | reflexivity]. }
        rewrite fmap_cons. cbn [seg_text].
        change (Py.join (?x :: ?l)) with (x +:+ Py.join l).
        rewrite IH. reflexivity.
Qed.

Lemma replace_absent old new s :
  Py.contains old s = false → Py.replace old new s = s.
Proof.
  unfold Py.replace. induction s as [|c t IH]; [reflexivity|].
  cbn [Py.contains Py.replace_from]. intros [Hp Ht]%orb_false_iff.
  rewrite Hp, (IH Ht). reflexivity.
Qed.

Lemma equals_not_special c : V4.is_special c = true → (c =? "=")%char = false.
Proof. by_cases_on c. Qed.

(** Without a backslash in the snippet, no equals sign of the pattern
    text stands after a backslash. *)
Lemma no_escaped_equals t :
  Py.all (λ c, negb (c =? V4.backslash)%char) t = true →
  Py.contains (String V4.backslash "=") (V4.flex_text t) = false.
Proof.
  induction t as [|c t IH]; [reflexivity|].
  cbn [Py.all]. intros [Hc Ht]%andb_true_iff. apply negb_true_iff in Hc.
  cbn [V4.flex_text]. unfold V4.flex_token.
  destruct (V4.flex_blank c) eqn:Eb.
  - unfold V4.any_blank. rewrite !app_cons, app_empty_l.
    cbn [Py.contains]. rewrite !prefix_cons.
    change ("=" =? "s")%char with false.
    change (V4.backslash =? "s")%char with false.
    change (V4.backslash =? "*")%char with false.
    rewrite (IH Ht). cbn [andb orb]. rewrite !andb_false_r. reflexivity.
  - destruct (V4.is_special c) eqn:Es.
    + rewrite !app_cons, app_empty_l. cbn [Py.contains]. rewrite !prefix_cons.
      rewrite (Ascii.eqb_sym V4.backslash c), Hc.
      rewrite (Ascii.eqb_sym "=" c), (equals_not_special c Es).
      rewrite (IH Ht). cbn [andb orb]. rewrite !andb_false_r. reflexivity.
    + rewrite !app_cons, app_empty_l. cbn [Py.contains]. rewrite !prefix_cons.
      rewrite (Ascii.eqb_sym V4.backslash c), Hc. rewrite (IH Ht). reflexivity.
Qed.

(** The items that [re] reads from the text of a pattern. *)
Lemma compile_flex_text t :
  V4.compile_items (V4.flex_text t) = Some (V4.flex_item <$> list_ascii_of_string t).
Proof.
  induction t as [|c t IH]; [reflexivity|].
  pose proof (flex_text_head t) as Hhead.
  cbn [V4.flex_text list_ascii_of_string]. rewrite fmap_cons.
  unfold V4.flex_token, V4.flex_item in IH |- *.
  destruct (V4.flex_blank c) eqn:Eb.
  - unfold V4.any_blank. rewrite !app_cons, app_empty_l.
    cbn [V4.compile_items].
    change (V4.backslash =? "*")%char with false.
    rewrite Ascii.eqb_refl. change ("s" =? "s")%char with true. cbv iota.
    rewrite IH. reflexivity.
  - destruct (V4.is_special c) eqn:Es.
    + rewrite !app_cons, app_empty_l. cbn [V4.compile_items].
      change (V4.backslash =? "*")%char with false.
      rewrite Ascii.eqb_refl. cbv iota.
      assert (Hs : (c =? "s")%char = false).
      { destruct (Ascii.eqb_spec c "s") as [->|]; [discriminate Es | reflexivity]. }
      rewrite Hs.
      destruct (V4.flex_text t) as [|h e] eqn:Et.
      * cbn [V4.compile_items] in IH |- *. rewrite IH. reflexivity.
      * assert (Hne : h ≠ "*"%char) by (intros ->; discriminate Hhead).
        destruct h as [[] [] [] [] [] [] [] []]; cbv iota;
          try (rewrite IH; reflexivity). congruence.
    + rewrite !app_cons, app_empty_l.
      assert (Hstar : (c =? "*")%char = false).
      { destruct (Ascii.eqb_spec c "*") as [->|]; [discriminate Es | reflexivity]. }
      assert (Hback : (c =? V4.backslash)%char = false).
      { destruct (Ascii.eqb_spec c V4.backslash) as [->|]; [discriminate Es | reflexivity]. }
      cbn [V4.compile_items]. rewrite Hstar, Hback.
      destruct (V4.flex_text t) as [|h e] eqn:Et.
      * cbn [V4.compile_items] in IH |- *. rewrite IH. reflexivity.
      * assert (Hne : h ≠ "*"%char) by (intros ->; discriminate Hhead).
        destruct h as [[] [] [] [] [] [] [] []]; cbv iota;
          try (rewrite IH; reflexivity). congruence.
Qed.

(** X22.  The pattern built for a snippet that holds no backslash.  The
    compilation does not fail, and the pattern reads the trimmed snippet
    character by character: a blank, a tab, a return, a line feed or a
    form feed of the snippet stands for any white space or none, and
    every other character stands for itself, without regard to case.  In
    particular an equals sign is read as it is: the escape leaves it
    without backslash, so that the rule that would allow white space
    around it does not apply. *)
Theorem flex_regex_of_snippet (sfmc_snippet : string) :
  Py.all (λ c, negb (c =? V4.backslash)%char) sfmc_snippet = true →
  V4.build_flex_regex sfmc_snippet
  = Some (seqs (V4.flex_item <$> list_ascii_of_string (Py.strip sfmc_snippet))).
Proof.
  intros Hplain. apply all_strip in Hplain.
  unfold V4.build_flex_regex, V4.flex_source, sub, segments.
  rewrite blanks_of_escape.
  rewrite replace_absent by (apply no_escaped_equals, Hplain).
  rewrite compile_flex_text. reflexivity.
Qed.

Lemma flex_regex_witness :
  V4.build_flex_regex " %%=v(@Tier)=%% x "
  = Some (seqs (V4.flex_item <$> list_ascii_of_string (Py.strip " %%=v(@Tier)=%% x "))).
Proof. apply (flex_regex_of_snippet " %%=v(@Tier)=%% x "). reflexivity. Defined.

(** ** A snippet and its pattern *)

Lemma rmatch_seqs_cons ic r rs st st1 st2 :
  In st1 (rmatch ic r st) → In st2 (rmatch ic (seqs rs) st1) →
  In st2 (rmatch ic (seqs (r :: rs)) st).
Proof.
  intros H1 H2. destruct rs as [|r' rs].
  - cbn [seqs rmatch] in H2 |- *. destruct H2 as [<-|[]]. exact H1.
  - change (seqs (r :: r' :: rs)) with (Seq r (seqs (r' :: rs))).
    cbn [rmatch]. apply in_flat_map. exists st1. split; assumption.
Qed.

Lemma blank_is_space c : V4.flex_blank c = true → Chr.is_space c = true.
Proof. by_cases_on c. Qed.

Lemma blank_lower c : V4.flex_blank c = true → Chr.lower c = c.
Proof. by_cases_on c. Qed.

(** The items of a snippet read every text that is the snippet up to
    the case of its letters. *)
Lemma flex_items_read t :
  ∀ t' pv post cs,
    Py.lower t' = Py.lower t →
    ∃ st', In st' (rmatch true (seqs (V4.flex_item <$> list_ascii_of_string t))
                     (MState pv (t' +:+ post) cs))
           ∧ rest st' = post.
Proof.
  induction t as [|c t IH]; intros [|c' t'] pv post cs Hl; try discriminate Hl.
  - exists (MState pv post cs). split; [left; reflexivity | reflexivity].
  - cbn [Py.lower] in Hl. injection Hl as Hc Hl.
    destruct (IH t' (Some c') post cs Hl) as (st' & Hin & Hrest).
    exists st'. split; [|exact Hrest].
    cbn [list_ascii_of_string]. rewrite fmap_cons.
    apply (rmatch_seqs_cons _ _ _ _ (MState (Some c') (t' +:+ post) cs)); [|exact Hin].
    unfold V4.flex_item. destruct (V4.flex_blank c) eqn:Eb.
    + assert (Hsp : Chr.is_space c' = true).
      { rewrite <- space_lower, Hc, (blank_lower c Eb). apply blank_is_space, Eb. }
      unfold space. rewrite rmatch_star_cls. apply in_map_iff. exists 1. split.
      * cbn [rest]. rewrite app_cons. reflexivity.
      * cbn [rest]. rewrite app_cons. cbn [Py.span]. rewrite Hsp.
        unfold run_lengths. apply -> in_rev. apply in_seq. lia.
    + cbn [rmatch prev rest caps]. rewrite app_cons. cbn [eat].
      unfold Chr.eqb_ci. rewrite Hc, Ascii.eqb_refl. left. reflexivity.
Qed.

(** A scan reports a match when the pattern can be read somewhere in the
    text. *)
Lemma scan_finds ic r a :
  ∀ b pos pv,
    rmatch ic r (start_state (Py.last_or pv a) b) ≠ [] →
    hits (scan ic r 0 pos pv (a +:+ b)) ≠ [].
Proof.
  induction a as [|c a IH]; intros b pos pv Hb.
  - rewrite app_empty_l. cbn [Py.last_or] in Hb.
    destruct b as [|d b]; cbn [scan].
    + destruct (rmatch ic r (start_state pv EmptyString)); [congruence | discriminate].
    + destruct (rmatch ic r (start_state pv (String d b))) as [|st' l]; [congruence|].
      destruct (String.length (rest st') <? String.length (String d b)); discriminate.
  - rewrite app_cons. cbn [scan].
    destruct (rmatch ic r (start_state pv (String c (a +:+ b)))) as [|st' l].
    + change (hits (Gap c :: ?l)) with (hits l). apply IH. exact Hb.
    + destruct (String.length (rest st') <? String.length (String c (a +:+ b)));
        discriminate.
Qed.

(** X23.  A snippet is found by its own pattern.  For a snippet that
    holds no backslash, the pattern is built, and in every text that
    holds the trimmed snippet, in any case of its letters, the pattern
    has at least one match: the row of the snippet is not passed over by
    the loop of the literal replacements. *)
Theorem snippet_is_found_by_its_pattern (sfmc_snippet pre occurrence post : string) :
  Py.all (λ c, negb (c =? V4.backslash)%char) sfmc_snippet = true →
  Py.lower occurrence = Py.lower (Py.strip sfmc_snippet) →
  ∃ pattern,
    V4.build_flex_regex sfmc_snippet = Some pattern
    ∧ finditer true pattern (pre +:+ occurrence +:+ post) ≠ [].
Proof.
  intros Hplain Hcase. apply all_strip in Hplain.
  exists (seqs (V4.flex_item <$> list_ascii_of_string (Py.strip sfmc_snippet))). split.
  - unfold V4.build_flex_regex, V4.flex_source, sub, segments.
    rewrite blanks_of_escape.
    rewrite replace_absent by (apply no_escaped_equals, Hplain).
    rewrite compile_flex_text. reflexivity.
  - unfold finditer, segments. apply scan_finds.
    destruct (flex_items_read (Py.strip sfmc_snippet) occurrence (Py.last_or None pre) post []
                Hcase) as (st' & Hin & _).
    unfold start_state. intros E. rewrite E in Hin. destruct Hin.
Qed.

Lemma snippet_is_found_witness :
  ∃ pattern,
    V4.build_flex_regex " %%=v(@Tier)=%% " = Some pattern
    ∧ finditer true pattern ("<p>" +:+ "%%=V(@TIER)=%%" +:+ "</p>") ≠ [].
Proof.
  apply (snippet_is_found_by_its_pattern " %%=v(@Tier)=%% " "<p>" "%%=V(@TIER)=%%" "</p>");
    reflexivity.
Defined.

(** ** The order of the forms of a condition *)






(** ** The pattern of any snippet *)

















(** ** A row with a blank target *)


